(** * NetFlow collector: the v9 decoder and the INI parser

    A shallow embedding of [processNetFlowV9Data] (netflow_collector.cpp)
    and of [INIParser::parse] (ini.cpp), with the properties of the
    collector's specification stated and settled against them.

    Conventions of the embedding.

    - Integers are [Z]; every conversion to a fixed-width C++ type is written
      out ([to_u64] for [size_t], [to_s64] for [ssize_t]).
    - [buffer] is the memory seen through the [char*] argument: a function
      from byte offsets (relative to the pointer) to byte values.  The
      received datagram is its first [length] bytes; what lies beyond is
      whatever the receive buffer and the stack held.
    - A pointer into the buffer is kept as its byte offset from [buffer].
      The machine adds a [size_t] to a pointer modulo 2^64, which moves the
      pointer by the operand's two's-complement value ([ptr_add]).
    - A [while] loop takes a bound on its number of iterations and answers
      [OutOfFuel] when the bound is reached with the loop condition still
      true; [for] loops over a count or a vector are structural.
    - Everything the decoder does to the outside is appended to a log: every
      dereference of the buffer, every line written to [std::cerr], every
      call of [insertFlowData]. *)

From Stdlib Require Import ZArith Lia List Ascii String DecimalString DecimalN.
From stdpp Require Import gmap strings list fin_maps.

Local Open Scope Z_scope.

(** ** Fixed-width arithmetic *)

Definition to_u64 (x : Z) : Z := x mod 2 ^ 64.
Definition to_s64 (x : Z) : Z := (x + 2 ^ 63) mod 2 ^ 64 - 2 ^ 63.

(** [p + n] for a pointer [p] and a [size_t] [n]. *)
Definition ptr_add (p n : Z) : Z := p + to_s64 n.

(** [operator<<] on an unsigned integer, [std::to_string]. *)
Definition to_string (z : Z) : string :=
  NilZero.string_of_uint (N.to_uint (Z.to_N z)).

(** ** Structures of netflow_collector.cpp *)

Definition sizeof_NetFlowV9Header : Z := 20.
Definition sizeof_NetFlowV9FlowSetHeader : Z := 4.
Definition sizeof_NetFlowV9TemplateRecord : Z := 4.
Definition sizeof_NetFlowV9FieldSpecifier : Z := 4.

(** [struct NetFlowV9FieldSpecifier { uint16_t type; uint16_t length; }] *)
Record NetFlowV9FieldSpecifier := {
  field_type : Z;
  field_length : Z
}.

Record SondaConfig := {
  name : string;
  version : string;
  filter_address : string;
  port : Z
}.

(** [struct FlowData].  The declaration [FlowData flowData;] runs the default
    constructor of the [std::string] members and leaves the scalar members
    unwritten: [None] is a member that no statement has assigned yet. *)
Record FlowData := {
  SourceIP : string;
  DestinationIP : string;
  SourcePort : option Z;
  DestinationPort : option Z;
  Protocol : option Z;
  PacketCount : option Z;
  ByteCount : option Z;
  FlowStart : string;
  FlowEnd : string;
  SourceSond : string
}.

Definition set_SourceIP (v : string) (d : FlowData) : FlowData :=
  {| SourceIP := v; DestinationIP := DestinationIP d;
     SourcePort := SourcePort d; DestinationPort := DestinationPort d;
     Protocol := Protocol d; PacketCount := PacketCount d;
     ByteCount := ByteCount d; FlowStart := FlowStart d; FlowEnd := FlowEnd d;
     SourceSond := SourceSond d |}.
Definition set_DestinationIP (v : string) (d : FlowData) : FlowData :=
  {| SourceIP := SourceIP d; DestinationIP := v;
     SourcePort := SourcePort d; DestinationPort := DestinationPort d;
     Protocol := Protocol d; PacketCount := PacketCount d;
     ByteCount := ByteCount d; FlowStart := FlowStart d; FlowEnd := FlowEnd d;
     SourceSond := SourceSond d |}.
Definition set_SourcePort (v : Z) (d : FlowData) : FlowData :=
  {| SourceIP := SourceIP d; DestinationIP := DestinationIP d;
     SourcePort := Some v; DestinationPort := DestinationPort d;
     Protocol := Protocol d; PacketCount := PacketCount d;
     ByteCount := ByteCount d; FlowStart := FlowStart d; FlowEnd := FlowEnd d;
     SourceSond := SourceSond d |}.
Definition set_DestinationPort (v : Z) (d : FlowData) : FlowData :=
  {| SourceIP := SourceIP d; DestinationIP := DestinationIP d;
     SourcePort := SourcePort d; DestinationPort := Some v;
     Protocol := Protocol d; PacketCount := PacketCount d;
     ByteCount := ByteCount d; FlowStart := FlowStart d; FlowEnd := FlowEnd d;
     SourceSond := SourceSond d |}.
Definition set_Protocol (v : Z) (d : FlowData) : FlowData :=
  {| SourceIP := SourceIP d; DestinationIP := DestinationIP d;
     SourcePort := SourcePort d; DestinationPort := DestinationPort d;
     Protocol := Some v; PacketCount := PacketCount d;
     ByteCount := ByteCount d; FlowStart := FlowStart d; FlowEnd := FlowEnd d;
     SourceSond := SourceSond d |}.
Definition set_PacketCount (v : Z) (d : FlowData) : FlowData :=
  {| SourceIP := SourceIP d; DestinationIP := DestinationIP d;
     SourcePort := SourcePort d; DestinationPort := DestinationPort d;
     Protocol := Protocol d; PacketCount := Some v;
     ByteCount := ByteCount d; FlowStart := FlowStart d; FlowEnd := FlowEnd d;
     SourceSond := SourceSond d |}.
Definition set_ByteCount (v : Z) (d : FlowData) : FlowData :=
  {| SourceIP := SourceIP d; DestinationIP := DestinationIP d;
     SourcePort := SourcePort d; DestinationPort := DestinationPort d;
     Protocol := Protocol d; PacketCount := PacketCount d;
     ByteCount := Some v; FlowStart := FlowStart d; FlowEnd := FlowEnd d;
     SourceSond := SourceSond d |}.
Definition set_SourceSond (v : string) (d : FlowData) : FlowData :=
  {| SourceIP := SourceIP d; DestinationIP := DestinationIP d;
     SourcePort := SourcePort d; DestinationPort := DestinationPort d;
     Protocol := Protocol d; PacketCount := PacketCount d;
     ByteCount := ByteCount d; FlowStart := FlowStart d; FlowEnd := FlowEnd d;
     SourceSond := v |}.

Definition FlowData_declared : FlowData :=
  {| SourceIP := ""; DestinationIP := "";
     SourcePort := None; DestinationPort := None; Protocol := None;
     PacketCount := None; ByteCount := None;
     FlowStart := ""; FlowEnd := ""; SourceSond := "" |}.

Inductive event :=
  | Read (offset width : Z)     (* [width] bytes dereferenced at [buffer + offset] *)
  | Cerr (line : string)        (* a line on std::cerr (mirrored to syslog) *)
  | Insert (data : FlowData).   (* dbHandler->insertFlowData(data) *)

(** [class DatabaseHandler]: of the interface the decoder only calls
    [insertFlowData]; whether a call succeeds is up to the backend and may
    depend on everything that happened before. *)
Record DatabaseHandler := {
  insertFlowData : list event → FlowData → bool
}.

Record SondaRuntime := {
  config : SondaConfig;
  dbHandler : DatabaseHandler;
  templates : gmap Z (list NetFlowV9FieldSpecifier)
}.

Inductive outcome (A : Type) :=
  | Done (a : A)
  | OutOfFuel.
Arguments Done {A} a.
Arguments OutOfFuel {A}.

(** ** processNetFlowV9Data *)

Section Decoder.

Variable buffer : Z → Z.

Definition byte_at (p : Z) : Z := buffer p mod 256.

(** [ntohs] and [ntohl] of the 16-bit, 32-bit word stored at [p]: the
    bytes at [p] in network order. *)
Definition ntohs_at (p : Z) : Z := byte_at p * 256 + byte_at (p + 1).
Definition ntohl_at (p : Z) : Z :=
  ((byte_at p * 256 + byte_at (p + 1)) * 256 + byte_at (p + 2)) * 256
  + byte_at (p + 3).

(** [inet_ntoa] of the [in_addr] stored at [p]. *)
Definition inet_ntoa_at (p : Z) : string :=
  to_string (byte_at p) +:+ "." +:+ to_string (byte_at (p + 1)) +:+ "."
  +:+ to_string (byte_at (p + 2)) +:+ "." +:+ to_string (byte_at (p + 3)).

(** The [for (int i = 0; i < fieldCount; ++i)] loop of a template record. *)
Fixpoint field_specifiers (n : nat) (templatePtr : Z)
    (fields : list NetFlowV9FieldSpecifier) (log : list event)
    : Z * list NetFlowV9FieldSpecifier * list event :=
  match n with
  | O => (templatePtr, fields, log)
  | S n' =>
      let field := {| field_type := ntohs_at templatePtr;
                      field_length := ntohs_at (templatePtr + 2) |} in
      field_specifiers n'
        (ptr_add templatePtr sizeof_NetFlowV9FieldSpecifier)
        (fields ++ [field])
        (log ++ [Read templatePtr 2; Read (templatePtr + 2) 2])
  end.

(** [while (templatePtr < ptr + flowsetDataLength)] *)
Fixpoint template_loop (fuel : nat) (templatePtr endPtr : Z)
    (tmpl : gmap Z (list NetFlowV9FieldSpecifier)) (log : list event)
    : outcome (gmap Z (list NetFlowV9FieldSpecifier) * list event) :=
  if templatePtr <? endPtr then
    match fuel with
    | O => OutOfFuel
    | S fuel' =>
        let templateID := ntohs_at templatePtr in
        let fieldCount := ntohs_at (templatePtr + 2) in
        let log := log ++ [Read templatePtr 2; Read (templatePtr + 2) 2] in
        let templatePtr := ptr_add templatePtr sizeof_NetFlowV9TemplateRecord in
        let '(templatePtr, fields, log) :=
          field_specifiers (Z.to_nat fieldCount) templatePtr [] log in
        template_loop fuel' templatePtr endPtr (<[templateID := fields]> tmpl) log
    end
  else Done (tmpl, log).

(** One turn of [for (auto& field : fields) { switch (field.type) ... }]. *)
Definition decode_field (field : NetFlowV9FieldSpecifier)
    (recordPtr offset : Z) (flowData : FlowData) (log : list event)
    : FlowData * Z * list event :=
  let p := ptr_add recordPtr offset in
  let t := field_type field in
  let '(flowData, log) :=
    if t =? 8 then
      (set_SourceIP (inet_ntoa_at p) flowData, log ++ [Read p 4])
    else if t =? 12 then
      (set_DestinationIP (inet_ntoa_at p) flowData, log ++ [Read p 4])
    else if t =? 7 then
      (set_SourcePort (ntohs_at p) flowData, log ++ [Read p 2])
    else if t =? 11 then
      (set_DestinationPort (ntohs_at p) flowData, log ++ [Read p 2])
    else if t =? 4 then
      (set_Protocol (byte_at p) flowData, log ++ [Read p 1])
    else if t =? 2 then
      (set_PacketCount (ntohl_at p) flowData, log ++ [Read p 4])
    else if t =? 1 then
      (set_ByteCount (ntohl_at p) flowData, log ++ [Read p 4])
    else (flowData, log) in
  (flowData, to_u64 (offset + field_length field), log).


(** [for (auto& field : fields)] over one data record; [offset] is a
    [size_t]. *)
Fixpoint decode_fields (fields : list NetFlowV9FieldSpecifier)
    (recordPtr offset : Z) (flowData : FlowData) (log : list event)
    : FlowData * list event :=
  match fields with
  | [] => (flowData, log)
  | field :: fields' =>
      let '(flowData, offset, log) :=
        decode_field field recordPtr offset flowData log in
      decode_fields fields' recordPtr offset flowData log
  end.

(** [for (auto& field : fields) recordLength += field.length;] *)
Definition recordLength_of (fields : list NetFlowV9FieldSpecifier) : Z :=
  fold_left (λ acc field, to_u64 (acc + field_length field)) fields 0.

(** [while (recordPtr + recordLength <= ptr + flowsetDataLength)] *)
Fixpoint record_loop (fuel : nat) (sonda : SondaRuntime)
    (fields : list NetFlowV9FieldSpecifier)
    (recordPtr recordLength endPtr : Z) (log : list event)
    : outcome (list event) :=
  if ptr_add recordPtr recordLength <=? endPtr then
    match fuel with
    | O => OutOfFuel
    | S fuel' =>
        let '(flowData, log) :=
          decode_fields fields recordPtr 0 FlowData_declared log in
        let flowData := set_SourceSond (name (config sonda)) flowData in
        let ok := insertFlowData (dbHandler sonda) log flowData in
        let log := log ++ [Insert flowData] in
        let log :=
          if ok then log
          else log ++ [Cerr "Failed to insert flow data into database."] in
        record_loop fuel' sonda fields (ptr_add recordPtr recordLength)
          recordLength endPtr log
    end
  else Done log.

Definition with_templates (sonda : SondaRuntime)
    (tmpl : gmap Z (list NetFlowV9FieldSpecifier)) : SondaRuntime :=
  {| config := config sonda; dbHandler := dbHandler sonda; templates := tmpl |}.

(** [while (length > 0)]: the walk over the FlowSets.  [fuel] bounds the
    inner loops, [n] this loop. *)
Fixpoint flowset_loop (fuel n : nat) (ptr length : Z)
    (sonda : SondaRuntime) (log : list event)
    : outcome (SondaRuntime * list event) :=
  if length >? 0 then
    match n with
    | O => OutOfFuel
    | S n' =>
        if length <? 4 then
          Done (sonda, log ++ [Cerr "Incomplete FlowSet header."])
        else
          let flowsetID := ntohs_at ptr in
          let flowsetLength := ntohs_at (ptr + 2) in
          let log := log ++ [Read ptr 2; Read (ptr + 2) 2] in
          let ptr := ptr_add ptr sizeof_NetFlowV9FlowSetHeader in
          let length := to_s64 (length - sizeof_NetFlowV9FlowSetHeader) in
          if flowsetLength >? to_u64 (length + sizeof_NetFlowV9FlowSetHeader) then
            Done (sonda,
                  log ++ [Cerr "FlowSet length exceeds remaining packet length."])
          else
            let flowsetDataLength :=
              to_u64 (flowsetLength - sizeof_NetFlowV9FlowSetHeader) in
            if flowsetID =? 0 then
              match template_loop fuel ptr (ptr_add ptr flowsetDataLength)
                      (templates sonda) log with
              | Done (tmpl, log) =>
                  flowset_loop fuel n' (ptr_add ptr flowsetDataLength)
                    (to_s64 (length - flowsetDataLength))
                    (with_templates sonda tmpl) log
              | OutOfFuel => OutOfFuel
              end
            else if flowsetID >? 255 then
              let templateID := flowsetID in
              match templates sonda !! templateID with
              | None =>
                  flowset_loop fuel n' (ptr_add ptr flowsetDataLength)
                    (to_s64 (length - flowsetDataLength)) sonda
                    (log ++ [Cerr ("Unknown template ID: " +:+ to_string templateID)])
              | Some fields =>
                  match record_loop fuel sonda fields ptr
                          (recordLength_of fields)
                          (ptr_add ptr flowsetDataLength) log with
                  | Done log =>
                      flowset_loop fuel n' (ptr_add ptr flowsetDataLength)
                        (to_s64 (length - flowsetDataLength)) sonda log
                  | OutOfFuel => OutOfFuel
                  end
              end
            else
              flowset_loop fuel n' (ptr_add ptr flowsetDataLength)
                (to_s64 (length - flowsetDataLength)) sonda log
    end
  else Done (sonda, log).

(** [void processNetFlowV9Data(char* buffer, ssize_t length,
    SondaRuntime& sonda)]: the runtime after the call and the log of the
    call.  Every [while] loop may take up to [fuel] turns. *)
Definition processNetFlowV9Data (fuel : nat) (length : Z)
    (sonda : SondaRuntime) : outcome (SondaRuntime * list event) :=
  let ptr := 0 in
  let ptr := ptr_add ptr sizeof_NetFlowV9Header in
  let length := to_s64 (length - sizeof_NetFlowV9Header) in
  (* uint16_t count = ntohs(header->count); *)
  let log := [Read 2 2] in
  flowset_loop fuel fuel ptr length sonda log.

End Decoder.

(** ** The datagram as the wire format lays it out

    Readings of the buffer that follow the layout of the protocol and not
    the control flow of the decoder; the theorems relate the two. *)

Section Layout.

Variable buffer : Z → Z.

(** The [n] field specifiers (type, length: two big-endian 16-bit words each)
    packed from offset [p] on. *)
Fixpoint fields_at (n : nat) (p : Z) : list NetFlowV9FieldSpecifier :=
  match n with
  | O => []
  | S n' =>
      {| field_type := ntohs_at buffer p; field_length := ntohs_at buffer (p + 2) |}
      :: fields_at n' (p + 4)
  end.

(** The dereferences that reading those [n] specifiers takes. *)
Fixpoint field_reads (n : nat) (p : Z) : list event :=
  match n with
  | O => []
  | S n' => Read p 2 :: Read (p + 2) 2 :: field_reads n' (p + 4)
  end.

(** The unsigned integer that the [n] bytes from offset [p] on spell in
    network (big-endian) order. *)
Fixpoint be_uint_from (acc : Z) (n : nat) (p : Z) : Z :=
  match n with
  | O => acc
  | S n' => be_uint_from (acc * 256 + byte_at buffer p) n' (p + 1)
  end.
Definition be_uint (n : nat) (p : Z) : Z := be_uint_from 0 n p.

(** A FlowSet: the header at offset [flowset_at] ([flowset_id],
    [flowset_length]: two big-endian 16-bit words) and the body behind it,
    [flowset_length] bytes in all. *)
Record flowset := {
  flowset_id : Z;
  flowset_length : Z;
  flowset_at : Z
}.

(** The FlowSets laid out from offset [ptr] on when [length] bytes of the
    datagram remain: a header every [flowset_length] bytes, as long as four
    bytes remain and the FlowSet fits in what remains.  [n] bounds the
    number of FlowSets. *)
Fixpoint flowsets_from (n : nat) (ptr length : Z) : list flowset :=
  match n with
  | O => []
  | S n' =>
      if length <? 4 then []
      else if ntohs_at buffer (ptr + 2) >? length then []
      else
        {| flowset_id := ntohs_at buffer ptr;
           flowset_length := ntohs_at buffer (ptr + 2);
           flowset_at := ptr |}
        :: flowsets_from n' (ptr + ntohs_at buffer (ptr + 2))
             (length - ntohs_at buffer (ptr + 2))
  end.

(** The FlowSets of a datagram of [length] bytes, behind its 20-byte
    header. *)
Definition flowsets (length : Z) : list flowset :=
  flowsets_from (Z.to_nat (length - 20)) 20 (length - 20).

(** The template records (id, field specifiers) packed end to end from
    offset [p] on; a record starts at every position below [e]. *)
Fixpoint template_records_from (n : nat) (p e : Z)
    : list (Z * list NetFlowV9FieldSpecifier) :=
  match n with
  | O => []
  | S n' =>
      if p <? e then
        (ntohs_at buffer p,
         fields_at (Z.to_nat (ntohs_at buffer (p + 2))) (p + 4))
        :: template_records_from n' (p + 4 + 4 * ntohs_at buffer (p + 2)) e
      else []
  end.

(** The template records of the body of FlowSet [F]. *)
Definition template_records (F : flowset)
    : list (Z * list NetFlowV9FieldSpecifier) :=
  template_records_from (Z.to_nat (flowset_length F - 4))
    (flowset_at F + 4) (flowset_at F + flowset_length F).

(** The template records of a FlowSet body as the specification delimits
    them (4.4.3): a record starts as long as the four bytes of a record
    header remain before [e]; fewer bytes are trailing padding. *)
Fixpoint defined_templates_from (n : nat) (p e : Z)
    : list (Z * list NetFlowV9FieldSpecifier) :=
  match n with
  | O => []
  | S n' =>
      if p + 4 <=? e then
        (ntohs_at buffer p,
         fields_at (Z.to_nat (ntohs_at buffer (p + 2))) (p + 4))
        :: defined_templates_from n' (p + 4 + 4 * ntohs_at buffer (p + 2)) e
      else []
  end.

(** The template definitions of a datagram of [length] bytes under that
    reading, in the order of the wire. *)
Definition defined_templates (length : Z)
    : list (Z * list NetFlowV9FieldSpecifier) :=
  flat_map
    (λ F, if flowset_id F =? 0 then
            defined_templates_from (Z.to_nat (flowset_length F - 4))
              (flowset_at F + 4) (flowset_at F + flowset_length F)
          else [])
    (flowsets length).

End Layout.

(** *** Template tables *)

(** [table[id] := fields]: insert or replace. *)
Definition install (tmpl : gmap Z (list NetFlowV9FieldSpecifier))
    (r : Z * list NetFlowV9FieldSpecifier)
    : gmap Z (list NetFlowV9FieldSpecifier) :=
  <[r.1 := r.2]> tmpl.

Definition install_all (tmpl : gmap Z (list NetFlowV9FieldSpecifier))
    (rs : list (Z * list NetFlowV9FieldSpecifier))
    : gmap Z (list NetFlowV9FieldSpecifier) :=
  foldl install tmpl rs.

(** The field list of the last definition of [id] among [rs], if any. *)
Definition last_definition (id : Z)
    (rs : list (Z * list NetFlowV9FieldSpecifier))
    : option (list NetFlowV9FieldSpecifier) :=
  foldl (λ found r, if r.1 =? id then Some r.2 else found) None rs.

(** The sum of the field lengths of a template. *)
Definition width (fields : list NetFlowV9FieldSpecifier) : Z :=
  foldr (λ field acc, field_length field + acc) 0 fields.

(** What the C++ types guarantee of a table the decoder has built: a
    template has at most 65535 fields and every length is a 16-bit word. *)
Definition wf_fields (fields : list NetFlowV9FieldSpecifier) : Prop :=
  Z.of_nat (List.length fields) ≤ 65535
  ∧ Forall (λ field, 0 ≤ field_length field ≤ 65535) fields.

Definition wf_templates (tmpl : gmap Z (list NetFlowV9FieldSpecifier)) : Prop :=
  ∀ id fields, tmpl !! id = Some fields → wf_fields fields.

(** The data FlowSets (id 256 and up) among [fs], each with the entry that
    the table holds for its id when the walk reaches it: the table [tmpl]
    updated by the template FlowSets that come before it. *)
Fixpoint data_flowsets (buffer : Z → Z)
    (tmpl : gmap Z (list NetFlowV9FieldSpecifier)) (fs : list flowset)
    : list (flowset * option (list NetFlowV9FieldSpecifier)) :=
  match fs with
  | [] => []
  | F :: fs' =>
      if flowset_id F =? 0 then
        data_flowsets buffer (install_all tmpl (template_records buffer F)) fs'
      else if flowset_id F >? 255 then
        (F, tmpl !! flowset_id F) :: data_flowsets buffer tmpl fs'
      else data_flowsets buffer tmpl fs'
  end.

(** The sum over the data FlowSets of floor((length - 4) / W), W the width
    of the governing template. *)
Definition expected_records
    (governed : list (flowset * option (list NetFlowV9FieldSpecifier))) : Z :=
  foldr (λ Ft acc, (flowset_length Ft.1 - 4) / width (default [] Ft.2) + acc)
    0 governed.

(** The number of records that the specification expects of a datagram
    with the FlowSets [fs] when [T] is the template table after the
    datagram's own template FlowSets have been processed: the sum over the
    data FlowSets F of floor((F.length - 4) / width(T[F.id])). *)
Definition claimed_records (T : gmap Z (list NetFlowV9FieldSpecifier))
    (fs : list flowset) : Z :=
  foldr (λ F acc,
           if flowset_id F >? 255 then
             (flowset_length F - 4) / width (default [] (T !! flowset_id F)) + acc
           else acc)
    0 fs.

(** The ids of the data FlowSets that find no template in the table. *)
Definition unknown_templates
    (governed : list (flowset * option (list NetFlowV9FieldSpecifier)))
    : list Z :=
  omap (λ Ft, match Ft.2 with
              | None => Some (flowset_id Ft.1)
              | Some _ => None
              end) governed.

(** The data FlowSets that find a template. *)
Definition known_templates
    (governed : list (flowset * option (list NetFlowV9FieldSpecifier)))
    : list (flowset * option (list NetFlowV9FieldSpecifier)) :=
  List.filter (λ Ft, match Ft.2 with Some _ => true | None => false end) governed.

(** ** Concrete datagrams *)

(** The memory behind [buffer] when the datagram [bytes] has been received
    into it and [stale] is what the memory held otherwise. *)
Definition buffer_of (bytes : list Z) (stale : Z → Z) : Z → Z :=
  λ p, if (0 <=? p) && (p <? Z.of_nat (List.length bytes))
       then nth (Z.to_nat p) bytes 0 else stale p.

Definition v9_header (count : Z) : list Z :=
  [0; 9; 0; count; 0; 0; 0; 0; 0; 0; 0; 0; 0; 0; 0; 0; 0; 0; 0; 0].

Definition no_handler_failure : DatabaseHandler :=
  {| insertFlowData := λ _ _, true |}.

Definition probe (tmpl : gmap Z (list NetFlowV9FieldSpecifier)) : SondaRuntime :=
  {| config := {| name := "sonda1"; version := "9";
                  filter_address := ""; port := 2055 |};
     dbHandler := no_handler_failure;
     templates := tmpl |}.

Definition inserts (log : list event) : list FlowData :=
  omap (λ e, match e with Insert d => Some d | _ => None end) log.

Definition diagnostics (log : list event) : list string :=
  omap (λ e, match e with Cerr l => Some l | _ => None end) log.

Definition reads (log : list event) : list (Z * Z) :=
  omap (λ e, match e with Read o w => Some (o, w) | _ => None end) log.

(** The lines of the diagnostic stream that report an unknown template. *)
Definition unknown_template_lines (log : list event) : list string :=
  List.filter (String.prefix "Unknown template ID") (diagnostics log).


(** A template FlowSet of 8 bytes at the end of a 28-byte datagram: its one
    template record announces a field specifier that was never sent. *)
Definition truncated_template : list Z :=
  v9_header 1 ++ [0; 0; 0; 8;  1; 0; 0; 1].

(** Template 256 with the single field (type 1, length 0), then a data
    FlowSet 256 with an empty body. *)
Definition zero_width_datagram : list Z :=
  v9_header 2 ++ [0; 0; 0; 12;  1; 0; 0; 1;  0; 1; 0; 0] ++ [1; 0; 0; 4].

(** A FlowSet header (id 1) with length 2, followed by bytes that read as a
    FlowSet 2 of length 4 from offset 22 and a template FlowSet from
    offset 26. *)
Definition short_flowset_datagram : list Z :=
  v9_header 1 ++ [0; 1; 0; 2] ++ [0; 4] ++
  [0; 0; 0; 12;  1; 0; 0; 1;  0; 1; 0; 4].

(** Template 256 = {(8, 4)} and one data record 10.0.0.1. *)
Definition source_only_datagram : list Z :=
  v9_header 2 ++ [0; 0; 0; 12;  1; 0; 0; 1;  0; 8; 0; 4] ++
  [1; 0; 0; 8;  10; 0; 0; 1].

(** The reads of a log that touch a byte at or beyond [length]. *)
Definition reads_beyond (length : Z) (log : list event) : list (Z * Z) :=
  filter (λ r, length < r.1 + r.2) (reads log).

(** A template FlowSet with two records: id 5 with the field (8, 4), and
    id 257 with no field at all. *)
Definition reserved_id_datagram : list Z :=
  v9_header 2 ++ [0; 0; 0; 16;  0; 5; 0; 1;  0; 8; 0; 4;  1; 1; 0; 0].

(** A data FlowSet 256 of 8 bytes and nothing else. *)
Definition data_before_template : list Z :=
  v9_header 1 ++ [1; 0; 0; 8;  1; 2; 3; 4].

(** A data FlowSet 256 of 8 bytes (one record under a template of width 4),
    and behind it the template FlowSet that defines template 256 as
    {(8, 4)}. *)
Definition data_then_template : list Z :=
  v9_header 2 ++ [1; 0; 0; 8;  10; 0; 0; 1] ++
  [0; 0; 0; 12;  1; 0; 0; 1;  0; 8; 0; 4].

(** A template FlowSet of 14 bytes: the record of template 256 = {(8, 4)}
    and two bytes of padding; behind it a data FlowSet 256 with one
    record.  42 bytes in all. *)
Definition padded_template_datagram : list Z :=
  v9_header 2 ++ [0; 0; 0; 14;  1; 0; 0; 1;  0; 8; 0; 4;  0; 0] ++
  [1; 0; 0; 8;  10; 0; 0; 1].

(** One record made of an 8-byte counter of value 1500. *)
Definition wide_counter : list Z := [0; 0; 0; 0; 0; 0; 5; 220].

(** ** INIParser (ini.cpp) *)

Module INIParser.

Local Open Scope nat_scope.

(** *** The members of [std::string] that [parse] uses

    A position result is an [option nat]: [None] is [std::string::npos]. *)

Fixpoint mem (c : ascii) (chars : string) : bool :=
  match chars with
  | EmptyString => false
  | String d chars' => if Ascii.eqb c d then true else mem c chars'
  end.

Fixpoint find_first_of (chars s : string) : option nat :=
  match s with
  | EmptyString => None
  | String c s' =>
      if mem c chars then Some 0 else S <$> find_first_of chars s'
  end.

Fixpoint find_first_not_of (chars s : string) : option nat :=
  match s with
  | EmptyString => None
  | String c s' =>
      if mem c chars then S <$> find_first_not_of chars s' else Some 0
  end.

Fixpoint find_last_not_of (chars s : string) : option nat :=
  match s with
  | EmptyString => None
  | String c s' =>
      match find_last_not_of chars s' with
      | Some i => Some (S i)
      | None => if mem c chars then None else Some 0
      end
  end.

(** [s.find(c)] *)
Definition find (c : ascii) (s : string) : option nat :=
  find_first_of (String c EmptyString) s.

Fixpoint take_chars (n : nat) (s : string) : string :=
  match n, s with
  | S n', String c s' => String c (take_chars n' s')
  | _, _ => EmptyString
  end.

Fixpoint drop_chars (n : nat) (s : string) : string :=
  match n, s with
  | S n', String c s' => drop_chars n' s'
  | _, _ => s
  end.

(** [s.substr(pos, count)]; [count = None] is the default argument [npos]. *)
Definition substr (pos : nat) (count : option nat) (s : string) : string :=
  match count with
  | Some n => take_chars n (drop_chars pos s)
  | None => drop_chars pos s
  end.

(** [s.erase(pos, count)] *)
Definition erase (pos : nat) (count : option nat) (s : string) : string :=
  match count with
  | Some n => take_chars pos s +:+ drop_chars (pos + n) s
  | None => take_chars pos s
  end.

(** [r + 1] for a position result [r]: [npos + 1] wraps around to 0. *)
Definition succ_pos (r : option nat) : nat :=
  match r with
  | Some i => S i
  | None => 0
  end.

Definition front (s : string) : option ascii :=
  match s with
  | EmptyString => None
  | String c _ => Some c
  end.

Fixpoint back (s : string) : option ascii :=
  match s with
  | EmptyString => None
  | String c EmptyString => Some c
  | String _ s' => back s'
  end.

(** The separators of " \t\r\n". *)
Definition whitespace : string :=
  String " " (String "009" (String "013" (String "010" EmptyString))).

(** The two [erase] calls that trim a string in place. *)
Definition trim (s : string) : string :=
  let s := erase 0 (find_first_not_of whitespace s) s in
  erase (succ_pos (find_last_not_of whitespace s)) None s.

(** *** The reading loop *)

(** The lines that successive [std::getline(file, line)] calls deliver. *)
Fixpoint getlines (content : string) : list string :=
  match content with
  | EmptyString => []
  | String c content' =>
      if Ascii.eqb c "010" then EmptyString :: getlines content'
      else match getlines content' with
           | [] => [String c EmptyString]
           | line :: lines => String c line :: lines
           end
  end.

Record state := {
  currentSection : string;
  data : gmap string (gmap string string)
}.

(** The "Remove comments" step. *)
Definition remove_comment (line : string) : string :=
  match find_first_of ";#" line with
  | Some commentPos => substr 0 (Some commentPos) line
  | None => line
  end.

(** The body of [while (std::getline(file, line))]. *)
Definition parse_line (line : string) (st : state) : state :=
  (* Remove comments *)
  let line := remove_comment line in
  (* Trim whitespace *)
  let line := trim line in
  if String.eqb line "" then st
  else if bool_decide (front line = Some "["%char ∧ back line = Some "]"%char) then
    {| currentSection := substr 1 (Some (String.length line - 2)) line;
       data := data st |}
  else
    match find "=" line with
    | None => st
    | Some equalPos =>
        let key := substr 0 (Some equalPos) line in
        let value := substr (equalPos + 1) None line in
        let key := trim key in
        let value := trim value in
        {| currentSection := currentSection st;
           data :=
             <[currentSection st :=
                 <[key := value]> (default ∅ (data st !! currentSection st))]>
               (data st) |}
    end.

(** [bool INIParser::parse()]: [file] is the content of the configuration
    file, [None] when it cannot be opened; the result is the return value
    and the member [data]. *)
Definition parse (file : option string)
    : bool * gmap string (gmap string string) :=
  match file with
  | None => (false, ∅)
  | Some content =>
      (true,
       data (foldl (λ st line, parse_line line st)
               {| currentSection := ""; data := ∅ |} (getlines content)))
  end.

(** [INIParser::get] *)
Definition get (d : gmap string (gmap string string))
    (section key defaultValue : string) : string :=
  match d !! section with
  | Some sec => default defaultValue (sec !! key)
  | None => defaultValue
  end.

(** The characters of a string. *)
Definition chars (s : string) : list ascii := list_ascii_of_string s.

Definition comment_free (s : string) : Prop :=
  ∀ c, c ∈ chars s → c ≠ ";"%char ∧ c ≠ "#"%char.

Definition values_comment_free (d : gmap string (gmap string string)) : Prop :=
  ∀ section m key value,
    d !! section = Some m → m !! key = Some value → comment_free value.

End INIParser.

Definition sample_ini : string :=
  "[Database]" +:+ String "010" (
  "mysql_password = pa#ss ; secret" +:+ String "010" (
  "type ; = csv" +:+ String "010" "")).

(** Template 256 (source and destination address, ports, protocol, byte and
    packet count: 21 bytes a record), then a data FlowSet 256 of 28 bytes:
    one record and three bytes of padding. *)
Definition template_then_data : list Z :=
  v9_header 2 ++
  [0; 0; 0; 36;  1; 0; 0; 7;  0; 8; 0; 4;  0; 12; 0; 4;  0; 7; 0; 2;
   0; 11; 0; 2;  0; 4; 0; 1;  0; 1; 0; 4;  0; 2; 0; 4] ++
  [1; 0; 0; 28;  10; 0; 0; 1;  10; 0; 0; 2;  1; 187;  201; 58;  6;
   0; 0; 5; 220;  0; 0; 0; 2;  0; 0; 0].

(** A template FlowSet that defines template 300 twice: as {(8, 4), (1, 4)}
    and then as {(8, 4), (12, 4), (1, 4)}. *)
Definition redefinition_datagram : list Z :=
  v9_header 2 ++
  [0; 0; 0; 32;  1; 44; 0; 2;  0; 8; 0; 4;  0; 1; 0; 4;
   1; 44; 0; 3;  0; 8; 0; 4;  0; 12; 0; 4;  0; 1; 0; 4].

(** ** Further readings of the wire layout *)

(** The flow record that the bytes at offset [p] spell under the template
    [fields], as a probe named like [sonda]'s hands it to the sink. *)
Definition record_at (buffer : Z → Z) (sonda : SondaRuntime)
    (fields : list NetFlowV9FieldSpecifier) (p : Z) : FlowData :=
  set_SourceSond (name (config sonda))
    (decode_fields buffer fields p 0 FlowData_declared []).1.

(** The offset, within a record that starts at [offset], of the last field
    of type [t] among [fields]; [found] when there is none. *)
Fixpoint offset_of_last (t : Z) (fields : list NetFlowV9FieldSpecifier)
    (offset : Z) (found : option Z) : option Z :=
  match fields with
  | [] => found
  | field :: fields' =>
      offset_of_last t fields' (offset + field_length field)
        (if field_type field =? t then Some offset else found)
  end.

(** A template with a field of an unknown type (99, three bytes) between
    the source address and two source ports, and a record for it. *)
Definition mixed_template : list NetFlowV9FieldSpecifier :=
  [{| field_type := 8; field_length := 4 |};
   {| field_type := 99; field_length := 3 |};
   {| field_type := 7; field_length := 2 |};
   {| field_type := 7; field_length := 2 |}].

Definition mixed_record : list Z := [10; 0; 0; 1;  7; 7; 7;  0; 80;  1; 187].

(** A dereference that stays within the first [length] bytes of the buffer
    (the other events touch no memory). *)
Definition in_bounds (length : Z) (e : event) : Prop :=
  match e with
  | Read offset w => 0 ≤ offset ∧ offset + w ≤ length
  | _ => True
  end.

(** The number of bytes that the cast of [decode_field] for field type [t]
    dereferences: an [in_addr], a [uint16_t], a [uint8_t], a [uint32_t], or
    nothing. *)
Definition read_width (t : Z) : Z :=
  if t =? 8 then 4 else if t =? 12 then 4
  else if t =? 7 then 2 else if t =? 11 then 2
  else if t =? 4 then 1
  else if t =? 2 then 4 else if t =? 1 then 4
  else 0.

(** A template whose fields are declared at least as long as they are
    read. *)
Definition covers_reads (fields : list NetFlowV9FieldSpecifier) : Prop :=
  Forall (λ field, read_width (field_type field) ≤ field_length field) fields.

(** The template records that start between [p] and [e] each end, with all
    their field specifiers, at or before [e]. *)
Fixpoint records_fit (buffer : Z → Z) (n : nat) (p e : Z) : Prop :=
  match n with
  | O => True
  | S n' =>
      if p <? e then
        p + 4 + 4 * ntohs_at buffer (p + 2) ≤ e
        ∧ records_fit buffer n' (p + 4 + 4 * ntohs_at buffer (p + 2)) e
      else True
  end.

(** The body of FlowSet [F] is filled by whole template records. *)
Definition template_flowset_fits (buffer : Z → Z) (F : flowset) : Prop :=
  records_fit buffer (Z.to_nat (flowset_length F - 4))
    (flowset_at F + 4) (flowset_at F + flowset_length F).

(** ** Text of a configuration file *)

Module INIText.

(** [s] without its leading separators. *)
Fixpoint lstrip (s : string) : string :=
  match s with
  | EmptyString => EmptyString
  | String c s' => if INIParser.mem c INIParser.whitespace then lstrip s' else s
  end.

(** [s] without its trailing separators. *)
Fixpoint rstrip (s : string) : string :=
  match s with
  | EmptyString => EmptyString
  | String c s' =>
      match rstrip s' with
      | EmptyString =>
          if INIParser.mem c INIParser.whitespace then EmptyString
          else String c EmptyString
      | r => String c r
      end
  end.

(** The file made of [lines], each ended by a newline. *)
Definition unlines (lines : list string) : string :=
  foldr (λ line rest, line +:+ String "010" rest) EmptyString lines.

End INIText.

(** ** INIParser::getInteger *)

(** [isspace] in the "C" locale: blank, \t, \n, \v, \f, \r. *)
Definition isspace (c : ascii) : bool :=
  INIParser.mem c
    (String " " (String "009" (String "010" (String "011"
       (String "012" (String "013" EmptyString)))))).

Fixpoint skip_spaces (s : string) : string :=
  match s with
  | EmptyString => EmptyString
  | String c s' => if isspace c then skip_spaces s' else s
  end.

Definition digit (c : ascii) : option (Decimal.uint → Decimal.uint) :=
  match c with
  | "0" => Some Decimal.D0 | "1" => Some Decimal.D1 | "2" => Some Decimal.D2
  | "3" => Some Decimal.D3 | "4" => Some Decimal.D4 | "5" => Some Decimal.D5
  | "6" => Some Decimal.D6 | "7" => Some Decimal.D7 | "8" => Some Decimal.D8
  | "9" => Some Decimal.D9
  | _ => None
  end%char.

(** The decimal digits that [s] starts with. *)
Fixpoint digits (s : string) : Decimal.uint :=
  match s with
  | EmptyString => Decimal.Nil
  | String c s' =>
      match digit c with
      | Some D => D (digits s')
      | None => Decimal.Nil
      end
  end.

(** [std::stoi(str)]: [strtol] in base 10 (leading spaces, an optional
    sign, then digits; what follows the digits is ignored), [None] when it
    throws: [std::invalid_argument] without a digit, [std::out_of_range]
    when the number is no [int]. *)
Definition stoi (str : string) : option Z :=
  let s := skip_spaces str in
  let '(negative, s) :=
    match s with
    | String "-" s' => (true, s')
    | String "+" s' => (false, s')
    | _ => (false, s)
    end in
  match digits s with
  | Decimal.Nil => None
  | d =>
      let v := Z.of_uint d in
      let v := if negative : bool then - v else v in
      if (- 2 ^ 31 <=? v) && (v <? 2 ^ 31) then Some v else None
  end.

(** [int INIParser::getInteger(section, key, defaultValue)] *)
Definition getInteger (d : gmap string (gmap string string))
    (section key : string) (defaultValue : Z) : Z :=
  let value := INIParser.get d section key "" in
  if negb (String.eqb value "") then
    match stoi value with
    | Some n => n
    | None => defaultValue
    end
  else defaultValue.

(** ** loadConfig *)

Record DatabaseConfig := {
  type : string;
  sqlite_path : string;
  csv_path : string;
  mysql_host : string;
  mysql_port : Z;
  mysql_user : string;
  mysql_password : string;
  mysql_database : string
}.

(** The global variables that [loadConfig] writes. *)
Record configuration := {
  dbConfig : DatabaseConfig;
  sondaConfigs : list SondaConfig;
  enableLogging : bool
}.

(** [for (int i = ...; i <= sondaCount; ++i)] with [remaining] turns to go:
    the return value if the loop decides it, [sondaConfigs] and the lines
    written to [std::cerr]. *)
Fixpoint load_probes (d : gmap string (gmap string string)) (i : Z)
    (remaining : nat) (probes : list SondaConfig)
    : bool * list SondaConfig * list string :=
  match remaining with
  | O => (true, probes, [])
  | S remaining' =>
      let section := "Sonda" +:+ to_string i in
      let sonda :=
        {| name := INIParser.get d section "name" "";
           version := INIParser.get d section "version" "";
           filter_address := INIParser.get d section "listen_address" "";
           port := getInteger d section "port" 0 |} in
      if String.eqb (name sonda) "" || (port sonda =? 0) then
        (false, probes, ["Missing data in configuration for " +:+ section])
      else load_probes d (i + 1) remaining' (probes ++ [sonda])
  end.

(** [bool loadConfig(filename)]: [file] is the content of the file, [None]
    when it cannot be opened, [g] the globals before the call; the result is
    the return value, the globals after the call and the lines that
    [loadConfig] itself writes to [std::cerr].  A count of 2^31 - 1 probes,
    where [++i] would overflow, is out of reach of the model as of the
    program. *)
Definition loadConfig (file : option string) (g : configuration)
    : bool * configuration * list string :=
  let '(parsed, d) := INIParser.parse file in
  if negb parsed then (false, g, ["Failed to parse configuration file."])
  else
    let db :=
      {| type := INIParser.get d "Database" "type" "";
         sqlite_path := INIParser.get d "Database" "sqlite_path" "";
         csv_path := INIParser.get d "Database" "csv_path" "";
         mysql_host := INIParser.get d "Database" "mysql_host" "localhost";
         mysql_port := getInteger d "Database" "mysql_port" 3306;
         mysql_user := INIParser.get d "Database" "mysql_user" "";
         mysql_password := INIParser.get d "Database" "mysql_password" "";
         mysql_database := INIParser.get d "Database" "mysql_database" "" |} in
    let logging := getInteger d "General" "log" 0 =? 1 in
    let sondaCount := getInteger d "SondeCount" "count" 0 in
    let '(ok, probes, cerr) :=
      load_probes d 1 (Z.to_nat sondaCount) (sondaConfigs g) in
    (ok,
     {| dbConfig := db; sondaConfigs := probes; enableLogging := logging |},
     cerr).

(** ** receiveData *)

(** [operator<<] on an [int]. *)
Definition int_to_string (z : Z) : string :=
  if z <? 0 then "-" +:+ to_string (- z) else to_string z.

(** [inet_ntop(AF_INET, ...)] of the four bytes of an address. *)
Definition inet_ntop (a : Z * Z * Z * Z) : string :=
  let '(a0, a1, a2, a3) := a in
  to_string a0 +:+ "." +:+ to_string a1 +:+ "." +:+ to_string a2 +:+ "."
  +:+ to_string a3.

Definition hex_digit (x : Z) : ascii :=
  if x <? 10 then ascii_of_N (Z.to_N (48 + x))
  else ascii_of_N (Z.to_N (87 + x)).

(** One byte under [std::hex], [std::setw(2)] and [std::setfill] with the
    character 0, and the blank behind it. *)
Definition hex_byte (b : Z) (rest : string) : string :=
  String (hex_digit (b / 16)) (String (hex_digit (b mod 16)) (String " " rest)).

(** The loop over the [count] bytes from offset [i] on that writes the
    "Data: " line of the diagnostic file. *)
Fixpoint hex_dump (buffer : Z → Z) (count : nat) (i : Z) : string :=
  match count with
  | O => EmptyString
  | S count' => hex_byte (byte_at buffer i) (hex_dump buffer count' (i + 1))
  end.

Fixpoint dump_reads (count : nat) (i : Z) : list event :=
  match count with
  | O => []
  | S count' => Read i 1 :: dump_reads count' (i + 1)
  end.

Record turn := {
  result : outcome (SondaRuntime * list event);
  cout : list string;        (* lines on std::cout *)
  diag_file : string         (* text appended to the diagnostic file *)
}.

(** One turn of [while (true)] in [receiveData]: [recvfrom] has returned
    [n] (with [error] the text of [errno] when [n < 0]) for a datagram from
    address [source]; [displayPackets] and [diagFilePath] are the globals
    of [--display] and [--diag], and [is_open] says whether the diagnostic
    file could be opened for appending. *)
Definition receiveData_turn (buffer : Z → Z) (fuel : nat) (n : Z)
    (source : Z * Z * Z * Z) (error : string) (displayPackets : bool)
    (diagFilePath : string) (is_open : bool) (sonda : SondaRuntime) : turn :=
  if n <? 0 then
    {| result := Done (sonda, [Cerr ("Error receiving data: " +:+ error)]);
       cout := []; diag_file := "" |}
  else
    let source_ip := inet_ntop source in
    (* Check if the source IP matches the filter address *)
    let accepted :=
      negb (negb (String.eqb (filter_address (config sonda)) "")
            && negb (String.eqb (filter_address (config sonda)) source_ip)) in
    let cout :=
      if displayPackets then
        ["Received packet from " +:+ source_ip +:+ " on port "
         +:+ int_to_string (port (config sonda))
         +:+ (if accepted then " [ACCEPTED]"
              else " [REJECTED] (Expected source IP: "
                   +:+ filter_address (config sonda) +:+ ")")]
      else [] in
    (* Write raw data to diagnostic file if diagFilePath is set *)
    let '(log, diag_file) :=
      if String.eqb diagFilePath EmptyString then ([], EmptyString)
      else if is_open then
        (dump_reads (Z.to_nat n) 0,
         "Probe: " +:+ name (config sonda) +:+ String "010" (
         "Data: " +:+ hex_dump buffer (Z.to_nat n) 0
         +:+ String "010" (String "010" EmptyString)))
      else
        ([Cerr ("Cannot open diagnostic file: " +:+ diagFilePath)], EmptyString) in
    if negb accepted then
      {| result := Done (sonda, log); cout := cout; diag_file := diag_file |}
    else
      (* Process the data *)
      let version := ntohs_at buffer 0 in
      let log := log ++ [Read 0 2] in
      if version =? 9 then
        {| result :=
             match processNetFlowV9Data buffer fuel n sonda with
             | Done (sonda', log') => Done (sonda', log ++ log')
             | OutOfFuel => OutOfFuel
             end;
           cout := cout; diag_file := diag_file |}
      else if version =? 10 then
        (* processIPFIXData: placeholder *)
        {| result := Done (sonda, log); cout := cout; diag_file := diag_file |}
      else
        {| result :=
             Done (sonda,
                   log ++ [Cerr ("Unknown NetFlow version: " +:+ to_string version)]);
           cout := cout; diag_file := diag_file |}.

(** The value of a hexadecimal digit, 0 to 9 or a to f. *)
Definition hex_value (c : ascii) : option Z :=
  let v := Z.of_N (N_of_ascii c) in
  if (48 <=? v) && (v <? 58) then Some (v - 48)
  else if (97 <=? v) && (v <? 103) then Some (v - 87)
  else None.

(** The bytes that a "Data: " line spells when it is made of groups of two
    lower-case hexadecimal digits and one blank, and of nothing else. *)
Fixpoint unhex (s : string) : option (list Z) :=
  match s with
  | EmptyString => Some []
  | String h (String l (String separator rest)) =>
      match hex_value h, hex_value l, unhex rest with
      | Some x, Some y, Some bytes =>
          if Ascii.eqb separator " " then Some ((x * 16 + y) :: bytes) else None
      | _, _, _ => None
      end
  | _ => None
  end.

(** The probe that section "Sonda<i>" of the configuration describes. *)
Definition probe_of_section (d : gmap string (gmap string string)) (i : Z)
    : SondaConfig :=
  {| name := INIParser.get d ("Sonda" +:+ to_string i) "name" "";
     version := INIParser.get d ("Sonda" +:+ to_string i) "version" "";
     filter_address := INIParser.get d ("Sonda" +:+ to_string i) "listen_address" "";
     port := getInteger d ("Sonda" +:+ to_string i) "port" 0 |}.

(** The database settings of a configuration that sets none. *)
Definition default_DatabaseConfig : DatabaseConfig :=
  {| type := ""; sqlite_path := ""; csv_path := "";
     mysql_host := "localhost"; mysql_port := 3306;
     mysql_user := ""; mysql_password := ""; mysql_database := "" |}.

(** A configuration with two probes; the second one has a negative port. *)
Definition probes_ini : string :=
  "[SondeCount]" +:+ String "010" (
  "count = 2" +:+ String "010" (
  "[Sonda1]" +:+ String "010" (
  "name = edge" +:+ String "010" (
  "listen_address = 192.0.2.10" +:+ String "010" (
  "port = 2055" +:+ String "010" (
  "[Sonda2]" +:+ String "010" (
  "name = core" +:+ String "010" (
  "port = -1" +:+ String "010" EmptyString)))))))).
(** ** Arithmetic of the fixed-width conversions *)

Lemma two_63 : 2 ^ 63 = 9223372036854775808.
Proof. reflexivity. Qed.

Lemma two_64 : 2 ^ 64 = 18446744073709551616.
Proof. reflexivity. Qed.

(** Linear arithmetic that knows the two bounds. *)
Ltac range_lia := pose proof two_63; pose proof two_64; lia.

Lemma to_u64_small x : 0 ≤ x < 2 ^ 64 → to_u64 x = x.
Proof. intros H. unfold to_u64. apply Z.mod_small. exact H. Qed.

Lemma to_s64_small x : - 2 ^ 63 ≤ x < 2 ^ 63 → to_s64 x = x.
Proof. intros H. unfold to_s64. rewrite Z.mod_small; lia. Qed.

Lemma to_s64_to_u64 x : to_s64 (to_u64 x) = to_s64 x.
Proof.
  unfold to_s64, to_u64. f_equal.
  rewrite Zplus_mod_idemp_l. reflexivity.
Qed.

Lemma to_s64_sub_u64 x y : to_s64 (x - to_u64 y) = to_s64 (x - y).
Proof.
  unfold to_s64, to_u64. f_equal.
  replace (x - y mod 2 ^ 64 + 2 ^ 63) with (x + 2 ^ 63 - y mod 2 ^ 64) by lia.
  rewrite Zminus_mod_idemp_r. f_equal. lia.
Qed.

Lemma to_s64_sub_s64 x y : to_s64 (to_s64 x - y) = to_s64 (x - y).
Proof.
  unfold to_s64. f_equal.
  replace ((x + 2 ^ 63) mod 2 ^ 64 - 2 ^ 63 - y + 2 ^ 63)
    with ((x + 2 ^ 63) mod 2 ^ 64 - y) by lia.
  rewrite Zminus_mod_idemp_l. f_equal. lia.
Qed.

Lemma ptr_add_small p n : - 2 ^ 63 ≤ n < 2 ^ 63 → ptr_add p n = p + n.
Proof. intros H. unfold ptr_add. rewrite to_s64_small; auto. Qed.

Lemma ptr_add_u64 p n : ptr_add p (to_u64 n) = ptr_add p n.
Proof. unfold ptr_add. rewrite to_s64_to_u64. reflexivity. Qed.

Section DecoderFacts.

Variable buffer : Z → Z.

Lemma byte_at_range p : 0 ≤ byte_at buffer p ≤ 255.
Proof. unfold byte_at. pose proof (Z.mod_pos_bound (buffer p) 256). lia. Qed.

Lemma ntohs_at_range p : 0 ≤ ntohs_at buffer p ≤ 65535.
Proof.
  unfold ntohs_at.
  pose proof (byte_at_range p). pose proof (byte_at_range (p + 1)). lia.
Qed.

Lemma ntohl_at_range p : 0 ≤ ntohl_at buffer p < 2 ^ 32.
Proof.
  unfold ntohl_at.
  pose proof (byte_at_range p). pose proof (byte_at_range (p + 1)).
  pose proof (byte_at_range (p + 2)). pose proof (byte_at_range (p + 3)).
  lia.
Qed.

(** A FlowSet header moves the walk by its length field, forwards or (for a
    length below 4) back over part of the header just read. *)
Lemma flowset_advance ptr flen :
  0 ≤ flen ≤ 65535 →
  ptr_add (ptr_add ptr sizeof_NetFlowV9FlowSetHeader)
    (to_u64 (flen - sizeof_NetFlowV9FlowSetHeader)) = ptr + flen.
Proof.
  intros H. rewrite ptr_add_u64.
  unfold sizeof_NetFlowV9FlowSetHeader.
  rewrite !ptr_add_small; lia.
Qed.

Lemma flowset_remaining length flen :
  4 ≤ length < 2 ^ 63 → 0 ≤ flen ≤ 65535 →
  to_s64 (to_s64 (length - sizeof_NetFlowV9FlowSetHeader)
          - to_u64 (flen - sizeof_NetFlowV9FlowSetHeader)) = length - flen.
Proof.
  intros H1 H2. rewrite to_s64_sub_u64, to_s64_sub_s64.
  unfold sizeof_NetFlowV9FlowSetHeader.
  rewrite to_s64_small; lia.
Qed.

Lemma flowset_exceeds length :
  4 ≤ length < 2 ^ 63 →
  to_u64 (to_s64 (length - sizeof_NetFlowV9FlowSetHeader)
          + sizeof_NetFlowV9FlowSetHeader) = length.
Proof.
  intros H. unfold sizeof_NetFlowV9FlowSetHeader.
  rewrite to_s64_small by lia. rewrite to_u64_small; lia.
Qed.

(** One turn of the FlowSet walk, with the pointer arithmetic carried out. *)
Lemma flowset_loop_step fuel n ptr length sonda log :
  4 ≤ length < 2 ^ 63 →
  flowset_loop buffer fuel (S n) ptr length sonda log =
    let flowsetID := ntohs_at buffer ptr in
    let flowsetLength := ntohs_at buffer (ptr + 2) in
    let log1 := log ++ [Read ptr 2; Read (ptr + 2) 2] in
    if flowsetLength >? length then
      Done (sonda,
            log1 ++ [Cerr "FlowSet length exceeds remaining packet length."])
    else if flowsetID =? 0 then
      match template_loop buffer fuel (ptr + 4) (ptr + flowsetLength)
              (templates sonda) log1 with
      | Done (tmpl, log2) =>
          flowset_loop buffer fuel n (ptr + flowsetLength)
            (length - flowsetLength) (with_templates sonda tmpl) log2
      | OutOfFuel => OutOfFuel
      end
    else if flowsetID >? 255 then
      match templates sonda !! flowsetID with
      | None =>
          flowset_loop buffer fuel n (ptr + flowsetLength)
            (length - flowsetLength) sonda
            (log1 ++ [Cerr ("Unknown template ID: " +:+ to_string flowsetID)])
      | Some fields =>
          match record_loop buffer fuel sonda fields (ptr + 4)
                  (recordLength_of fields) (ptr + flowsetLength) log1 with
          | Done log2 =>
              flowset_loop buffer fuel n (ptr + flowsetLength)
                (length - flowsetLength) sonda log2
          | OutOfFuel => OutOfFuel
          end
      end
    else
      flowset_loop buffer fuel n (ptr + flowsetLength)
        (length - flowsetLength) sonda log1.
Proof.
  intros Hlen.
  pose proof (ntohs_at_range (ptr + 2)) as Hfl.
  cbn [flowset_loop].
  replace (length >? 0) with true by lia.
  replace (length <? 4) with false by lia.
  rewrite flowset_exceeds, flowset_advance, flowset_remaining by lia.
  replace (ptr_add ptr sizeof_NetFlowV9FlowSetHeader) with (ptr + 4)
    by (unfold sizeof_NetFlowV9FlowSetHeader; rewrite ptr_add_small; lia).
  reflexivity.
Qed.


(** *** More fuel does not change a result *)

Lemma template_loop_fuel fuel fuel' templatePtr endPtr tmpl log r :
  template_loop buffer fuel templatePtr endPtr tmpl log = Done r →
  (fuel ≤ fuel')%nat →
  template_loop buffer fuel' templatePtr endPtr tmpl log = Done r.
Proof.
  revert fuel' templatePtr tmpl log.
  induction fuel as [|fuel IH]; intros fuel' templatePtr tmpl log H Hle.
  - destruct fuel'; cbn [template_loop] in *;
      destruct (templatePtr <? endPtr); congruence.
  - destruct fuel' as [|fuel']; [lia|].
    cbn [template_loop] in *.
    destruct (templatePtr <? endPtr); [|exact H].
    destruct (field_specifiers _ _ _ _ _) as [[p fields] log'].
    apply IH; [exact H | lia].
Qed.

Lemma record_loop_fuel fuel fuel' sonda fields recordPtr recordLength endPtr log r :
  record_loop buffer fuel sonda fields recordPtr recordLength endPtr log = Done r →
  (fuel ≤ fuel')%nat →
  record_loop buffer fuel' sonda fields recordPtr recordLength endPtr log = Done r.
Proof.
  revert fuel' recordPtr log.
  induction fuel as [|fuel IH]; intros fuel' recordPtr log H Hle.
  - destruct fuel'; cbn [record_loop] in *;
      destruct (ptr_add recordPtr recordLength <=? endPtr); congruence.
  - destruct fuel' as [|fuel']; [lia|].
    cbn [record_loop] in *.
    destruct (ptr_add recordPtr recordLength <=? endPtr); [|exact H].
    destruct (decode_fields _ _ _ _ _ _) as [flowData log'].
    apply IH; [exact H | lia].
Qed.

Lemma flowset_loop_fuel fuel fuel' n n' ptr length sonda log r :
  flowset_loop buffer fuel n ptr length sonda log = Done r →
  (fuel ≤ fuel')%nat → (n ≤ n')%nat →
  flowset_loop buffer fuel' n' ptr length sonda log = Done r.
Proof.
  intros H Hfuel. revert n' ptr length sonda log H.
  induction n as [|n IH]; intros n' ptr length sonda log H Hle.
  - destruct n'; cbn [flowset_loop] in *;
      destruct (length >? 0); congruence.
  - destruct n' as [|n']; [lia|].
    cbn [flowset_loop] in *.
    destruct (length >? 0); [|exact H].
    destruct (length <? 4); [exact H|].
    destruct (_ >? _); [exact H|].
    destruct (_ =? 0).
    + destruct (template_loop buffer fuel _ _ _ _) as [[tmpl log']|] eqn:Ht;
        [|discriminate].
      rewrite (template_loop_fuel _ _ _ _ _ _ _ Ht Hfuel).
      apply IH; [exact H | lia].
    + destruct (_ >? 255); [|apply IH; [exact H | lia]].
      destruct (templates sonda !! _) as [fields|];
        [|apply IH; [exact H | lia]].
      destruct (record_loop buffer fuel _ _ _ _ _ _) as [log'|] eqn:Hr;
        [|discriminate].
      rewrite (record_loop_fuel _ _ _ _ _ _ _ _ _ Hr Hfuel).
      apply IH; [exact H | lia].
Qed.

Lemma processNetFlowV9Data_fuel fuel fuel' length sonda r :
  processNetFlowV9Data buffer fuel length sonda = Done r →
  (fuel ≤ fuel')%nat →
  processNetFlowV9Data buffer fuel' length sonda = Done r.
Proof.
  unfold processNetFlowV9Data. intros H Hle.
  eapply flowset_loop_fuel; eauto.
Qed.

(** *** Loops that never finish *)

(** A record of width zero does not move [recordPtr]: once the record loop
    is entered it is never left. *)
Lemma record_loop_zero_width fuel sonda fields recordPtr endPtr log :
  recordPtr ≤ endPtr →
  record_loop buffer fuel sonda fields recordPtr 0 endPtr log = OutOfFuel.
Proof.
  intros Hle. revert log.
  induction fuel as [|fuel IH]; intros log; cbn [record_loop];
    replace (ptr_add recordPtr 0) with recordPtr by (rewrite ptr_add_small; lia);
    replace (recordPtr <=? endPtr) with true by lia.
  - reflexivity.
  - destruct (decode_fields _ _ _ _ _ _) as [flowData log'].
    apply IH.
Qed.

(** A FlowSet header whose length field is 0 moves the walk back onto
    itself: the walk never gets past it. *)
Lemma flowset_loop_zero_length fuel n ptr length sonda log :
  4 ≤ length < 2 ^ 63 →
  ntohs_at buffer (ptr + 2) = 0 →
  flowset_loop buffer fuel n ptr length sonda log = OutOfFuel.
Proof.
  intros Hlen Hz. revert sonda log.
  induction n as [|n IH]; intros sonda log.
  - cbn [flowset_loop]. replace (length >? 0) with true by lia. reflexivity.
  - rewrite flowset_loop_step by exact Hlen. cbv zeta. rewrite Hz.
    replace (0 >? length) with false by lia.
    rewrite !Z.add_0_r, !Z.sub_0_r.
    destruct (_ =? 0).
    + destruct (template_loop _ _ _ _ _ _) as [[tmpl log']|]; [apply IH | reflexivity].
    + destruct (_ >? 255); [|apply IH].
      destruct (templates sonda !! _) as [fields|]; [|apply IH].
      destruct (record_loop _ _ _ _ _ _ _ _) as [log'|]; [apply IH | reflexivity].
Qed.

(** *** One template record *)

Lemma field_specifiers_layout n p acc log :
  field_specifiers buffer n p acc log
  = (p + 4 * Z.of_nat n, acc ++ fields_at buffer n p, log ++ field_reads n p).
Proof.
  revert p acc log.
  induction n as [|n IH]; intros p acc log; cbn [field_specifiers fields_at field_reads].
  - rewrite !app_nil_r. f_equal. f_equal. lia.
  - rewrite IH.
    replace (ptr_add p sizeof_NetFlowV9FieldSpecifier) with (p + 4)
      by (unfold sizeof_NetFlowV9FieldSpecifier; rewrite ptr_add_small; lia).
    rewrite <- !app_assoc. cbn [app].
    f_equal. f_equal. lia.
Qed.

Lemma fields_at_length n p : List.length (fields_at buffer n p) = n.
Proof. revert p. induction n as [|n IH]; intros p; cbn; [|rewrite IH]; reflexivity. Qed.

Lemma field_reads_diagnostics n p : diagnostics (field_reads n p) = [].
Proof. revert p. induction n as [|n IH]; intros p; cbn; [reflexivity | apply IH]. Qed.

Lemma field_reads_inserts n p : inserts (field_reads n p) = [].
Proof. revert p. induction n as [|n IH]; intros p; cbn; [reflexivity | apply IH]. Qed.

Lemma template_loop_step fuel templatePtr endPtr tmpl log :
  templatePtr < endPtr →
  template_loop buffer (S fuel) templatePtr endPtr tmpl log
  = template_loop buffer fuel
      (templatePtr + 4 + 4 * ntohs_at buffer (templatePtr + 2)) endPtr
      (<[ntohs_at buffer templatePtr :=
           fields_at buffer (Z.to_nat (ntohs_at buffer (templatePtr + 2)))
             (templatePtr + 4)]> tmpl)
      (log ++ Read templatePtr 2 :: Read (templatePtr + 2) 2
           :: field_reads (Z.to_nat (ntohs_at buffer (templatePtr + 2)))
                (templatePtr + 4)).
Proof.
  intros Hlt. cbn [template_loop].
  replace (templatePtr <? endPtr) with true by lia.
  rewrite field_specifiers_layout.
  replace (ptr_add templatePtr sizeof_NetFlowV9TemplateRecord) with (templatePtr + 4)
    by (unfold sizeof_NetFlowV9TemplateRecord; rewrite ptr_add_small; lia).
  pose proof (ntohs_at_range (templatePtr + 2)).
  rewrite Z2Nat.id by lia.
  rewrite <- !app_assoc. reflexivity.
Qed.

Lemma template_loop_exit fuel templatePtr endPtr tmpl log :
  endPtr ≤ templatePtr →
  template_loop buffer fuel templatePtr endPtr tmpl log = Done (tmpl, log).
Proof.
  intros Hle. destruct fuel; cbn [template_loop];
    replace (templatePtr <? endPtr) with false by lia; reflexivity.
Qed.

End DecoderFacts.

(** ** The INI parser *)

Section INIFacts.

Import INIParser.

Lemma mem_elem_of c set : mem c set = true ↔ c ∈ chars set.
Proof.
  induction set as [|d set IH]; cbn.
  - split; [discriminate | intros H; inversion H].
  - destruct (Ascii.eqb c d) eqn:E.
    + apply Ascii.eqb_eq in E as ->. split; [intros _; left | reflexivity].
    + apply Ascii.eqb_neq in E. rewrite IH. split.
      * intros H. right. exact H.
      * intros H. inversion H; subst; [contradiction | assumption].
Qed.

Lemma chars_take n s c : c ∈ chars (take_chars n s) → c ∈ chars s.
Proof.
  revert s. induction n as [|n IH]; intros [|d s]; cbn; intros H;
    try (inversion H; fail).
  inversion H; subst; [left | right; apply IH; assumption].
Qed.

Lemma chars_drop n s c : c ∈ chars (drop_chars n s) → c ∈ chars s.
Proof.
  revert s. induction n as [|n IH]; intros [|d s]; cbn; intros H; auto.
  right. apply IH. exact H.
Qed.

Lemma chars_app s1 s2 c : c ∈ chars (s1 +:+ s2) → c ∈ chars s1 ∨ c ∈ chars s2.
Proof.
  induction s1 as [|d s1 IH]; cbn; intros H; [right; exact H|].
  inversion H; subst; [left; left|].
  destruct (IH ltac:(assumption)) as [?|?]; [left; right | right]; assumption.
Qed.

Lemma chars_substr pos count s c : c ∈ chars (substr pos count s) → c ∈ chars s.
Proof.
  destruct count as [n|]; cbn; intros H.
  - eapply chars_drop, chars_take, H.
  - eapply chars_drop, H.
Qed.

Lemma chars_erase pos count s c : c ∈ chars (erase pos count s) → c ∈ chars s.
Proof.
  destruct count as [n|]; cbn; intros H.
  - apply chars_app in H as [H|H]; [eapply chars_take | eapply chars_drop]; exact H.
  - eapply chars_take, H.
Qed.

Lemma chars_trim s c : c ∈ chars (trim s) → c ∈ chars s.
Proof. unfold trim. intros H. eapply chars_erase, chars_erase, H. Qed.

(** What is left of a line once the comment is removed holds neither ';'
    nor '#'. *)
Lemma remove_comment_cons d s :
  remove_comment (String d s)
  = if mem d ";#" then EmptyString else String d (remove_comment s).
Proof.
  unfold remove_comment. cbn [find_first_of].
  destruct (mem d ";#"); [reflexivity|].
  destruct (find_first_of ";#" s) as [p|]; reflexivity.
Qed.

Lemma remove_comment_free line c :
  c ∈ chars (remove_comment line) → mem c ";#" = false.
Proof.
  induction line as [|d line IH].
  - intros H. inversion H.
  - rewrite remove_comment_cons. destruct (mem d ";#") eqn:E.
    + intros H. inversion H.
    + cbn. intros H. inversion H; subst; auto.
Qed.

Lemma remove_comment_chars line c :
  c ∈ chars (remove_comment line) → c ∈ chars line.
Proof.
  induction line as [|d line IH].
  - intros H. inversion H.
  - rewrite remove_comment_cons. destruct (mem d ";#").
    + intros H. inversion H.
    + cbn. intros H. inversion H; subst; [left | right; auto].
Qed.

Lemma remove_comment_cut pre c rest :
  mem c ";#" = true →
  remove_comment (pre +:+ String c rest) = remove_comment pre.
Proof.
  intros Hc. induction pre as [|d pre IH].
  - change (EmptyString +:+ String c rest) with (String c rest).
    rewrite remove_comment_cons, Hc. reflexivity.
  - change (String d pre +:+ String c rest) with (String d (pre +:+ String c rest)).
    rewrite !remove_comment_cons, IH. reflexivity.
Qed.

Lemma mem_comment_free s :
  (∀ c, c ∈ chars s → mem c ";#" = false) → comment_free s.
Proof.
  intros H c Hc. specialize (H c Hc).
  split; intros ->; discriminate.
Qed.

Lemma find_None c s : c ∉ chars s → find c s = None.
Proof.
  unfold find. induction s as [|d s IH]; cbn; intros H; [reflexivity|].
  destruct (Ascii.eqb d c) eqn:E.
  - apply Ascii.eqb_eq in E as ->. exfalso. apply H. left.
  - rewrite IH; [reflexivity|]. intros Hin. apply H. right. exact Hin.
Qed.

(** The entries of [data] after a line: those before it, and possibly one
    more whose value is cut out of the line behind its comment. *)
Lemma parse_line_lookup line st section key value m :
  data (parse_line line st) !! section = Some m →
  m !! key = Some value →
  (∃ m0, data st !! section = Some m0 ∧ m0 !! key = Some value)
  ∨ (∀ c, c ∈ chars value → c ∈ chars (remove_comment line)).
Proof.
  unfold parse_line.
  set (l := trim (remove_comment line)).
  destruct (String.eqb l ""); [intros; left; eauto|].
  destruct (bool_decide _); [intros; left; eauto|].
  destruct (find "=" l) as [equalPos|]; [|intros; left; eauto].
  cbn [data].
  destruct (decide (section = currentSection st)) as [->|Hne].
  - rewrite lookup_insert_eq. intros [= <-].
    destruct (decide (key = trim (substr 0 (Some equalPos) l))) as [->|Hk].
    + rewrite lookup_insert_eq. intros [= <-]. right.
      intros c Hc. apply chars_trim in Hc.
      apply (chars_substr _ None) in Hc.
      apply chars_trim in Hc. exact Hc.
    + rewrite lookup_insert_ne by done. intros Hv. left.
      destruct (data st !! currentSection st) as [m0|]; cbn in Hv.
      * eauto.
      * rewrite lookup_empty in Hv. discriminate.
  - rewrite lookup_insert_ne by done. intros; left; eauto.
Qed.

Lemma parse_line_values line st :
  values_comment_free (data st) →
  values_comment_free (data (parse_line line st)).
Proof.
  intros Hst section m key value Hm Hv.
  destruct (parse_line_lookup _ _ _ _ _ _ Hm Hv) as [(m0 & H0 & H1)|H].
  - eapply Hst; eassumption.
  - apply mem_comment_free. intros c Hc.
    eapply remove_comment_free, H, Hc.
Qed.

Lemma parse_lines_values lines st :
  values_comment_free (data st) →
  values_comment_free (data (foldl (λ st line, parse_line line st) st lines)).
Proof.
  revert st. induction lines as [|line lines IH]; intros st Hst; cbn.
  - exact Hst.
  - apply IH, parse_line_values, Hst.
Qed.

(** A line without '=' stores nothing. *)
Lemma parse_line_no_equal line st :
  "="%char ∉ chars (remove_comment line) →
  data (parse_line line st) = data st.
Proof.
  intros Hno. unfold parse_line.
  set (l := trim (remove_comment line)).
  destruct (String.eqb l ""); [reflexivity|].
  destruct (bool_decide _); [reflexivity|].
  rewrite find_None; [reflexivity|].
  intros Hin. apply Hno. apply chars_trim in Hin. exact Hin.
Qed.

Lemma remove_comment_id s :
  (∀ c, c ∈ chars s → mem c ";#" = false) → remove_comment s = s.
Proof.
  induction s as [|d s IH]; intros H; [reflexivity|].
  rewrite remove_comment_cons, (H d) by left.
  rewrite IH; [reflexivity|]. intros c Hc. apply H. right. exact Hc.
Qed.

Lemma comment_free_mem s c :
  comment_free s → c ∈ chars s → mem c ";#" = false.
Proof.
  intros H Hc. destruct (H c Hc) as [H1 H2]. cbn.
  destruct (Ascii.eqb c ";") eqn:E1; [apply Ascii.eqb_eq in E1; contradiction|].
  destruct (Ascii.eqb c "#") eqn:E2; [apply Ascii.eqb_eq in E2; contradiction|].
  reflexivity.
Qed.

End INIFacts.

(** ** The template table after a datagram *)

Lemma install_all_app tmpl rs1 rs2 :
  install_all tmpl (rs1 ++ rs2) = install_all (install_all tmpl rs1) rs2.
Proof. unfold install_all. apply foldl_app. Qed.

(** Installing a list of definitions binds every id defined in it to its
    last definition and leaves the other ids alone. *)
Lemma install_all_lookup tmpl rs id :
  install_all tmpl rs !! id
  = match last_definition id rs with
    | Some fields => Some fields
    | None => tmpl !! id
    end.
Proof.
  induction rs as [|[id' fields'] rs IH] using rev_ind; [reflexivity|].
  rewrite install_all_app. unfold last_definition. rewrite foldl_app.
  change (install_all (install_all tmpl rs) [(id', fields')])
    with (<[id' := fields']> (install_all tmpl rs)).
  cbn [foldl fst snd].
  destruct (id' =? id) eqn:E.
  - apply Z.eqb_eq in E as ->. apply lookup_insert_eq.
  - apply Z.eqb_neq in E. rewrite lookup_insert_ne by exact E. exact IH.
Qed.

Section DecoderLayout.

Variable buffer : Z → Z.

Lemma template_records_from_exit n p e :
  e ≤ p → template_records_from buffer n p e = [].
Proof.
  intros H. destruct n; cbn [template_records_from]; [reflexivity|].
  replace (p <? e) with false by lia. reflexivity.
Qed.

(** The template loop installs the template records of the layout, in
    order. *)
Lemma template_loop_records fuel p e tmpl log tmpl' log' n :
  template_loop buffer fuel p e tmpl log = Done (tmpl', log') →
  (Z.to_nat (e - p) ≤ n)%nat →
  tmpl' = install_all tmpl (template_records_from buffer n p e)
  ∧ inserts log' = inserts log.
Proof.
  revert p tmpl log n.
  induction fuel as [|fuel IH]; intros p tmpl log n H Hn.
  - cbn [template_loop] in H. destruct (p <? e) eqn:E; [discriminate|].
    injection H as <- <-. rewrite template_records_from_exit by lia.
    split; reflexivity.
  - destruct (Z.lt_ge_cases p e) as [Hlt|Hge].
    + rewrite template_loop_step in H by exact Hlt.
      destruct n as [|n]; [lia|].
      pose proof (ntohs_at_range buffer (p + 2)).
      apply IH with (n := n) in H; [|lia].
      destruct H as [-> Hins]. split.
      * cbn [template_records_from].
        replace (p <? e) with true by lia. reflexivity.
      * rewrite Hins. unfold inserts. rewrite omap_app. cbn.
        fold (inserts (field_reads
                (Z.to_nat (ntohs_at buffer (p + 2))) (p + 4))).
        rewrite field_reads_inserts, app_nil_r. reflexivity.
    + rewrite template_loop_exit in H by exact Hge.
      injection H as <- <-. rewrite template_records_from_exit by lia.
      split; reflexivity.
Qed.

Lemma flowsets_from_short n ptr length :
  length < 4 → flowsets_from buffer n ptr length = [].
Proof.
  intros H. destruct n; cbn [flowsets_from]; [reflexivity|].
  replace (length <? 4) with true by lia. reflexivity.
Qed.

(** The walk of the decoder installs the template definitions of the
    FlowSets it passes, in order. *)
Lemma flowset_loop_templates fuel n ptr length sonda log sonda' log' m :
  length < 2 ^ 63 →
  flowset_loop buffer fuel n ptr length sonda log = Done (sonda', log') →
  (Z.to_nat length ≤ m)%nat →
  templates sonda'
  = install_all (templates sonda)
      (flat_map (λ F, if flowset_id F =? 0 then template_records buffer F else [])
         (flowsets_from buffer m ptr length)).
Proof.
  intros Hmax. revert ptr length sonda log m Hmax.
  induction n as [|n IH]; intros ptr length sonda log m Hmax H Hm.
  - cbn [flowset_loop] in H. destruct (length >? 0) eqn:E; [discriminate|].
    injection H as <- <-. rewrite flowsets_from_short by lia. reflexivity.
  - destruct (Z.lt_ge_cases length 4) as [Hshort|Hlong].
    { rewrite flowsets_from_short by lia.
      cbn [flowset_loop] in H. destruct (length >? 0).
      - replace (length <? 4) with true in H by lia. injection H as <- <-.
        reflexivity.
      - injection H as <- <-. reflexivity. }
    pose proof (ntohs_at_range buffer (ptr + 2)) as Hfl.
    destruct (Z.eq_dec (ntohs_at buffer (ptr + 2)) 0) as [Hz|Hnz].
    { rewrite flowset_loop_zero_length in H by (lia || exact Hz). discriminate. }
    rewrite flowset_loop_step in H by lia. cbv zeta in H.
    destruct m as [|m]; [lia|].
    cbn [flowsets_from].
    replace (length <? 4) with false by lia.
    destruct (ntohs_at buffer (ptr + 2) >? length) eqn:Efit.
    { injection H as <- <-. reflexivity. }
    cbn [flat_map flowset_id]. rewrite install_all_app.
    destruct (ntohs_at buffer ptr =? 0) eqn:Eid.
    + destruct (template_loop _ _ _ _ _ _) as [[tmpl log2]|] eqn:Ht; [|discriminate].
      apply template_loop_records
        with (n := Z.to_nat (ntohs_at buffer (ptr + 2) - 4)) in Ht; [|lia].
      destruct Ht as [-> _].
      apply IH with (m := m) in H; [|lia|lia].
      rewrite H. reflexivity.
    + cbn [install_all foldl].
      destruct (ntohs_at buffer ptr >? 255).
      * destruct (templates sonda !! _) as [fields|].
        -- destruct (record_loop _ _ _ _ _ _ _ _) as [log2|]; [|discriminate].
           apply IH with (m := m) in H; [exact H|lia|lia].
        -- apply IH with (m := m) in H; [exact H|lia|lia].
      * apply IH with (m := m) in H; [exact H|lia|lia].
Qed.

(** *** Records handed to the sink *)

Lemma inserts_app log1 log2 : inserts (log1 ++ log2) = inserts log1 ++ inserts log2.
Proof. apply omap_app. Qed.

Lemma decode_field_inserts field recordPtr offset flowData log :
  inserts (decode_field buffer field recordPtr offset flowData log).2
  = inserts log.
Proof.
  unfold decode_field.
  repeat (destruct (_ =? _);
          [cbn [snd]; rewrite inserts_app; cbn; apply app_nil_r|]).
  reflexivity.
Qed.

Lemma decode_fields_inserts fields recordPtr offset flowData log :
  inserts (decode_fields buffer fields recordPtr offset flowData log).2
  = inserts log.
Proof.
  revert offset flowData log.
  induction fields as [|field fields IH]; intros offset flowData log;
    cbn [decode_fields]; [reflexivity|].
  pose proof (decode_field_inserts field recordPtr offset flowData log) as Hf.
  destruct (decode_field _ _ _ _ _ _) as [[flowData' offset'] log1].
  rewrite IH. exact Hf.
Qed.

Lemma width_bounds fields :
  Forall (λ field, 0 ≤ field_length field ≤ 65535) fields →
  0 ≤ width fields ≤ 65535 * Z.of_nat (List.length fields).
Proof.
  induction 1 as [|field fields Hf _ IH]; cbn [width foldr List.length].
  - lia.
  - fold (width fields). lia.
Qed.

Lemma recordLength_of_from acc fields :
  Forall (λ field, 0 ≤ field_length field ≤ 65535) fields →
  0 ≤ acc → acc + width fields < 2 ^ 64 →
  fold_left (λ acc field, to_u64 (acc + field_length field)) fields acc
  = acc + width fields.
Proof.
  intros Hf. revert acc.
  induction Hf as [|field fields Hfield Hrest IH]; intros acc Hacc Hsum;
    cbn [fold_left width foldr].
  - lia.
  - fold (width fields) in *. cbn [width foldr] in Hsum. fold (width fields) in Hsum.
    pose proof (width_bounds fields Hrest).
    rewrite to_u64_small by lia.
    rewrite IH by lia. lia.
Qed.

(** For a template of the table, the [size_t] sum that the decoder computes
    is the sum of the field lengths. *)
Lemma recordLength_of_width fields :
  wf_fields fields →
  recordLength_of fields = width fields ∧ 0 ≤ width fields < 2 ^ 32.
Proof.
  intros [Hn Hf]. pose proof (width_bounds fields Hf).
  assert (2 ^ 32 = 4294967296) by reflexivity.
  split; [|lia].
  unfold recordLength_of. rewrite recordLength_of_from; [lia|exact Hf|lia|range_lia].
Qed.

(** The record loop hands floor((endPtr - recordPtr) / W) records to the
    sink. *)
Lemma record_loop_count fuel sonda fields recordPtr W endPtr log :
  0 < W < 2 ^ 63 →
  recordPtr ≤ endPtr →
  (endPtr - recordPtr) / W ≤ Z.of_nat fuel →
  ∃ log',
    record_loop buffer fuel sonda fields recordPtr W endPtr log = Done log'
    ∧ Z.of_nat (List.length (inserts log'))
      = Z.of_nat (List.length (inserts log)) + (endPtr - recordPtr) / W.
Proof.
  intros HW. revert recordPtr log.
  induction fuel as [|fuel IH]; intros recordPtr log Hle Hfuel;
    cbn [record_loop]; rewrite ptr_add_small by lia.
  - destruct (recordPtr + W <=? endPtr) eqn:E.
    + exfalso.
      assert (1 ≤ (endPtr - recordPtr) / W)
        by (apply Z.div_le_lower_bound; lia).
      lia.
    + exists log. split; [reflexivity|].
      rewrite Z.div_small by lia. lia.
  - destruct (recordPtr + W <=? endPtr) eqn:E.
    + pose proof (decode_fields_inserts fields recordPtr 0 FlowData_declared log) as Hd.
      destruct (decode_fields _ _ _ _ _ _) as [flowData log1]. cbn [snd] in Hd.
      assert ((endPtr - recordPtr) / W = (endPtr - (recordPtr + W)) / W + 1) as Hdiv.
      { replace (endPtr - recordPtr) with (endPtr - (recordPtr + W) + 1 * W) by lia.
        apply Z.div_add. lia. }
      edestruct (IH (recordPtr + W)) as (log' & Hrun & Hcount);
        [lia | lia |].
      eexists. split; [exact Hrun|].
      rewrite Hcount, Hdiv.
      destruct (insertFlowData _ _ _);
        rewrite ?inserts_app, ?length_app, Hd; cbn; lia.
    + exists log. split; [reflexivity|].
      rewrite Z.div_small by lia. lia.
Qed.

(** *** The tables the decoder builds *)

Lemma fields_at_wf n p :
  Z.of_nat n ≤ 65535 → wf_fields (fields_at buffer n p).
Proof.
  intros Hn. split; [rewrite fields_at_length; exact Hn|].
  clear Hn. revert p. induction n as [|n IH]; intros p; cbn [fields_at].
  - constructor.
  - constructor; [cbn; apply ntohs_at_range | apply IH].
Qed.

Lemma template_records_from_wf n p e :
  Forall (λ r, wf_fields r.2) (template_records_from buffer n p e).
Proof.
  revert p. induction n as [|n IH]; intros p; cbn [template_records_from].
  - constructor.
  - destruct (p <? e); constructor; [|apply IH].
    cbn [snd]. apply fields_at_wf.
    pose proof (ntohs_at_range buffer (p + 2)). lia.
Qed.

Lemma install_all_wf tmpl rs :
  wf_templates tmpl → Forall (λ r, wf_fields r.2) rs →
  wf_templates (install_all tmpl rs).
Proof.
  intros Ht Hrs. revert tmpl Ht.
  induction Hrs as [|[id fields] rs Hr _ IH]; intros tmpl Ht; [exact Ht|].
  cbn [install_all foldl]. apply IH.
  intros id' fields'. unfold install. cbn [fst snd].
  destruct (decide (id = id')) as [->|Hne].
  - rewrite lookup_insert_eq. intros [= <-]. exact Hr.
  - rewrite lookup_insert_ne by exact Hne. apply Ht.
Qed.

(** The template loop always returns: every turn moves [templatePtr] by
    four bytes or more. *)
Lemma template_loop_total fuel p e tmpl log :
  (Z.to_nat (e - p) ≤ fuel)%nat →
  ∃ r, template_loop buffer fuel p e tmpl log = Done r.
Proof.
  revert p tmpl log.
  induction fuel as [|fuel IH]; intros p tmpl log Hfuel.
  - rewrite template_loop_exit by lia. eauto.
  - destruct (Z.lt_ge_cases p e) as [Hlt|Hge].
    + rewrite template_loop_step by exact Hlt.
      pose proof (ntohs_at_range buffer (p + 2)).
      apply IH. lia.
    + rewrite template_loop_exit by exact Hge. eauto.
Qed.

(** The walk over well-formed FlowSets returns, and the records it hands to
    the sink are counted by the layout. *)
Lemma flowset_loop_count n fuel m ptr length sonda log :
  length ≤ 65536 →
  65535 ≤ Z.of_nat fuel →
  (Z.to_nat length ≤ n)%nat →
  (Z.to_nat length ≤ m)%nat →
  wf_templates (templates sonda) →
  Forall (λ F, 4 ≤ flowset_length F) (flowsets_from buffer m ptr length) →
  Forall (λ Ft, ∃ fields, Ft.2 = Some fields ∧ 0 < width fields)
    (data_flowsets buffer (templates sonda) (flowsets_from buffer m ptr length)) →
  ∃ sonda' log',
    flowset_loop buffer fuel n ptr length sonda log = Done (sonda', log')
    ∧ Z.of_nat (List.length (inserts log'))
      = Z.of_nat (List.length (inserts log))
        + expected_records
            (data_flowsets buffer (templates sonda)
               (flowsets_from buffer m ptr length)).
Proof.
  intros Hmax Hfuel. revert m ptr length sonda log Hmax.
  induction n as [|n IH]; intros m ptr length sonda log Hmax Hn Hm Hwf Hfs Hdata.
  - exists sonda, log. cbn [flowset_loop].
    replace (length >? 0) with false by lia.
    rewrite flowsets_from_short by lia. cbn. split; [reflexivity | lia].
  - destruct (Z.lt_ge_cases length 4) as [Hshort|Hlong].
    { rewrite flowsets_from_short by lia. cbn [flowset_loop].
      destruct (length >? 0).
      - replace (length <? 4) with true by lia.
        eexists _, _. split; [reflexivity|].
        rewrite inserts_app. cbn. rewrite app_nil_r. lia.
      - eexists _, _. split; [reflexivity|]. cbn. lia. }
    pose proof (ntohs_at_range buffer (ptr + 2)) as Hfl.
    rewrite flowset_loop_step by range_lia. cbv zeta.
    destruct m as [|m]; [lia|].
    cbn [flowsets_from] in *.
    replace (length <? 4) with false in * by lia.
    destruct (ntohs_at buffer (ptr + 2) >? length) eqn:Efit.
    { eexists _, _. split; [reflexivity|].
      rewrite !inserts_app. cbn. rewrite !app_nil_r. lia. }
    apply Forall_cons in Hfs as [Hfour Hfs]. cbn [flowset_length] in Hfour.
    cbn [data_flowsets flowset_id] in *.
    set (log1 := log ++ [Read ptr 2; Read (ptr + 2) 2]).
    assert (inserts log1 = inserts log) as Hlog1
      by (unfold log1; rewrite inserts_app; cbn; apply app_nil_r).
    destruct (ntohs_at buffer ptr =? 0) eqn:Eid.
    + destruct (template_loop_total fuel (ptr + 4)
                  (ptr + ntohs_at buffer (ptr + 2)) (templates sonda) log1)
        as [[tmpl log2] Ht]; [lia|].
      rewrite Ht.
      apply template_loop_records
        with (n := Z.to_nat (ntohs_at buffer (ptr + 2) - 4)) in Ht; [|lia].
      destruct Ht as [Htmpl Hins].
      edestruct (IH m (ptr + ntohs_at buffer (ptr + 2))
                   (length - ntohs_at buffer (ptr + 2))
                   (with_templates sonda tmpl) log2)
        as (sonda' & log' & Hrun & Hcount); [lia|lia|lia| | | |].
      { cbn [templates with_templates]. rewrite Htmpl.
        apply install_all_wf; [exact Hwf | apply template_records_from_wf]. }
      { exact Hfs. }
      { cbn [templates with_templates]. rewrite Htmpl. exact Hdata. }
      eexists _, _. split; [exact Hrun|].
      rewrite Hcount, Hins, Hlog1.
      cbn [templates with_templates]. rewrite Htmpl. reflexivity.
    + destruct (ntohs_at buffer ptr >? 255) eqn:Edata.
      * apply Forall_cons in Hdata as [(fields & Hsome & Hpos) Hdata].
        cbn [snd] in Hsome. rewrite Hsome.
        destruct (recordLength_of_width fields (Hwf _ _ Hsome)) as [-> Hw].
        assert (2 ^ 32 = 4294967296) as H32 by reflexivity.
        destruct (record_loop_count fuel sonda fields (ptr + 4) (width fields)
                    (ptr + ntohs_at buffer (ptr + 2)) log1)
          as (log2 & Hrec & Hins); [range_lia|lia| |].
        { replace (ptr + ntohs_at buffer (ptr + 2) - (ptr + 4))
            with (ntohs_at buffer (ptr + 2) - 4) by lia.
          assert ((ntohs_at buffer (ptr + 2) - 4) / width fields
                  ≤ ntohs_at buffer (ptr + 2) - 4)
            by (apply Z.div_le_upper_bound; nia).
          lia. }
        rewrite Hrec.
        edestruct (IH m (ptr + ntohs_at buffer (ptr + 2))
                     (length - ntohs_at buffer (ptr + 2)) sonda log2)
          as (sonda' & log' & Hrun & Hcount);
          [lia|lia|lia|exact Hwf|exact Hfs|exact Hdata|].
        eexists _, _. split; [exact Hrun|].
        rewrite Hcount, Hins, Hlog1.
        cbn [expected_records foldr fst snd flowset_length default].
        cbn [default from_option].
        replace (ptr + ntohs_at buffer (ptr + 2) - (ptr + 4))
          with (ntohs_at buffer (ptr + 2) - 4) by lia.
        fold (expected_records
                (data_flowsets buffer (templates sonda)
                   (flowsets_from buffer m (ptr + ntohs_at buffer (ptr + 2))
                      (length - ntohs_at buffer (ptr + 2))))).
        change (id fields) with fields. lia.
      * edestruct (IH m (ptr + ntohs_at buffer (ptr + 2))
                     (length - ntohs_at buffer (ptr + 2)) sonda log1)
          as (sonda' & log' & Hrun & Hcount);
          [lia|lia|lia|exact Hwf|exact Hfs|exact Hdata|].
        eexists _, _. split; [exact Hrun|].
        rewrite Hcount, Hlog1. reflexivity.
Qed.

End DecoderLayout.

(** *** The diagnostic stream of a walk *)

Section DecoderDiagnostics.

Variable buffer : Z → Z.

Lemma diagnostics_app log1 log2 :
  diagnostics (log1 ++ log2) = diagnostics log1 ++ diagnostics log2.
Proof. apply omap_app. Qed.

Lemma unknown_template_lines_app log1 log2 :
  unknown_template_lines (log1 ++ log2)
  = unknown_template_lines log1 ++ unknown_template_lines log2.
Proof.
  unfold unknown_template_lines. rewrite diagnostics_app. apply List.filter_app.
Qed.

Lemma unknown_template_lines_silent log1 log2 :
  diagnostics log2 = [] →
  unknown_template_lines (log1 ++ log2) = unknown_template_lines log1.
Proof.
  intros H. rewrite unknown_template_lines_app.
  unfold unknown_template_lines at 2. rewrite H. apply app_nil_r.
Qed.

Lemma template_loop_diagnostics fuel p e tmpl log tmpl' log' :
  template_loop buffer fuel p e tmpl log = Done (tmpl', log') →
  diagnostics log' = diagnostics log.
Proof.
  revert p tmpl log.
  induction fuel as [|fuel IH]; intros p tmpl log H.
  - cbn [template_loop] in H. destruct (p <? e); [discriminate|].
    injection H as <- <-. reflexivity.
  - destruct (Z.lt_ge_cases p e) as [Hlt|Hge].
    + rewrite template_loop_step in H by exact Hlt.
      apply IH in H. rewrite H, diagnostics_app. cbn.
      fold (diagnostics (field_reads
              (Z.to_nat (ntohs_at buffer (p + 2))) (p + 4))).
      rewrite field_reads_diagnostics. apply app_nil_r.
    + rewrite template_loop_exit in H by exact Hge.
      injection H as <- <-. reflexivity.
Qed.

Lemma decode_field_diagnostics field recordPtr offset flowData log :
  diagnostics (decode_field buffer field recordPtr offset flowData log).2
  = diagnostics log.
Proof.
  unfold decode_field.
  repeat (destruct (_ =? _);
          [cbn [snd]; rewrite diagnostics_app; cbn; apply app_nil_r|]).
  reflexivity.
Qed.

Lemma decode_fields_diagnostics fields recordPtr offset flowData log :
  diagnostics (decode_fields buffer fields recordPtr offset flowData log).2
  = diagnostics log.
Proof.
  revert offset flowData log.
  induction fields as [|field fields IH]; intros offset flowData log;
    cbn [decode_fields]; [reflexivity|].
  pose proof (decode_field_diagnostics field recordPtr offset flowData log) as Hf.
  destruct (decode_field _ _ _ _ _ _) as [[flowData' offset'] log1].
  rewrite IH. exact Hf.
Qed.

(** The record loop prints nothing about templates. *)
Lemma record_loop_unknown_lines fuel sonda fields recordPtr W endPtr log log' :
  record_loop buffer fuel sonda fields recordPtr W endPtr log = Done log' →
  unknown_template_lines log' = unknown_template_lines log.
Proof.
  revert recordPtr log.
  induction fuel as [|fuel IH]; intros recordPtr log H; cbn [record_loop] in H.
  - destruct (_ <=? _); [discriminate|]. injection H as <-. reflexivity.
  - destruct (_ <=? _); [|injection H as <-; reflexivity].
    pose proof (decode_fields_diagnostics fields recordPtr 0 FlowData_declared log)
      as Hd.
    destruct (decode_fields _ _ _ _ _ _) as [flowData log1]. cbn [snd] in Hd.
    apply IH in H. rewrite H.
    destruct (insertFlowData _ _ _);
      rewrite ?unknown_template_lines_app; unfold unknown_template_lines;
      rewrite Hd; cbn; rewrite ?app_nil_r; reflexivity.
Qed.

Lemma expected_records_known governed :
  expected_records (known_templates governed) = expected_records governed.
Proof.
  unfold expected_records, known_templates.
  induction governed as [|[F [fields|]] governed IH];
    cbn [List.filter foldr fst snd]; [reflexivity| |].
  - rewrite IH. reflexivity.
  - rewrite IH. cbn [default from_option]. change (width []) with 0.
    rewrite Z.div_0_r. reflexivity.
Qed.

(** The walk over FlowSets of four bytes or more whose templates, where
    found, have a positive width: it returns, one line per data FlowSet
    without a template, and the records counted by the layout. *)
Lemma flowset_loop_unknown n fuel m ptr length sonda log :
  length ≤ 65536 →
  65535 ≤ Z.of_nat fuel →
  (Z.to_nat length ≤ n)%nat →
  (Z.to_nat length ≤ m)%nat →
  wf_templates (templates sonda) →
  Forall (λ F, 4 ≤ flowset_length F) (flowsets_from buffer m ptr length) →
  Forall (λ Ft, ∀ fields, Ft.2 = Some fields → 0 < width fields)
    (data_flowsets buffer (templates sonda) (flowsets_from buffer m ptr length)) →
  ∃ sonda' log',
    flowset_loop buffer fuel n ptr length sonda log = Done (sonda', log')
    ∧ unknown_template_lines log'
      = unknown_template_lines log
        ++ ((λ id, "Unknown template ID: " +:+ to_string id)
            <$> unknown_templates
                  (data_flowsets buffer (templates sonda)
                     (flowsets_from buffer m ptr length)))
    ∧ Z.of_nat (List.length (inserts log'))
      = Z.of_nat (List.length (inserts log))
        + expected_records
            (data_flowsets buffer (templates sonda)
               (flowsets_from buffer m ptr length)).
Proof.
  intros Hmax Hfuel. revert m ptr length sonda log Hmax.
  induction n as [|n IH]; intros m ptr length sonda log Hmax Hn Hm Hwf Hfs Hdata.
  - exists sonda, log. cbn [flowset_loop].
    replace (length >? 0) with false by lia.
    rewrite flowsets_from_short by lia. cbn.
    rewrite app_nil_r. split; [reflexivity|]. split; [reflexivity | lia].
  - destruct (Z.lt_ge_cases length 4) as [Hshort|Hlong].
    { rewrite flowsets_from_short by lia. cbn [flowset_loop].
      destruct (length >? 0).
      - replace (length <? 4) with true by lia.
        eexists _, _. split; [reflexivity|].
        rewrite inserts_app, unknown_template_lines_app. cbn.
        rewrite !app_nil_r. split; [reflexivity | lia].
      - eexists _, _. split; [reflexivity|]. cbn.
        rewrite app_nil_r. split; [reflexivity | lia]. }
    pose proof (ntohs_at_range buffer (ptr + 2)) as Hfl.
    rewrite flowset_loop_step by range_lia. cbv zeta.
    destruct m as [|m]; [lia|].
    cbn [flowsets_from] in *.
    replace (length <? 4) with false in * by lia.
    destruct (ntohs_at buffer (ptr + 2) >? length) eqn:Efit.
    { eexists _, _. split; [reflexivity|].
      rewrite !inserts_app, !unknown_template_lines_app. cbn.
      rewrite !app_nil_r. split; [reflexivity | lia]. }
    apply Forall_cons in Hfs as [Hfour Hfs]. cbn [flowset_length] in Hfour.
    cbn [data_flowsets flowset_id] in *.
    set (log1 := log ++ [Read ptr 2; Read (ptr + 2) 2]).
    assert (inserts log1 = inserts log) as Hlog1
      by (unfold log1; rewrite inserts_app; cbn; apply app_nil_r).
    assert (unknown_template_lines log1 = unknown_template_lines log) as Hlines1
      by (unfold log1; apply unknown_template_lines_silent; reflexivity).
    destruct (ntohs_at buffer ptr =? 0) eqn:Eid.
    + destruct (template_loop_total buffer fuel (ptr + 4)
                  (ptr + ntohs_at buffer (ptr + 2)) (templates sonda) log1)
        as [[tmpl log2] Ht]; [lia|].
      rewrite Ht.
      pose proof (template_loop_diagnostics _ _ _ _ _ _ _ Ht) as Hdiag.
      apply template_loop_records
        with (n := Z.to_nat (ntohs_at buffer (ptr + 2) - 4)) in Ht; [|lia].
      destruct Ht as [Htmpl Hins].
      edestruct (IH m (ptr + ntohs_at buffer (ptr + 2))
                   (length - ntohs_at buffer (ptr + 2))
                   (with_templates sonda tmpl) log2)
        as (sonda' & log' & Hrun & Hlines & Hcount); [lia|lia|lia| | | |].
      { cbn [templates with_templates]. rewrite Htmpl.
        apply install_all_wf; [exact Hwf | apply template_records_from_wf]. }
      { exact Hfs. }
      { cbn [templates with_templates]. rewrite Htmpl. exact Hdata. }
      eexists _, _. split; [exact Hrun|].
      rewrite Hlines, Hcount, Hins, Hlog1.
      cbn [templates with_templates]. rewrite Htmpl.
      unfold unknown_template_lines at 1. rewrite Hdiag.
      fold (unknown_template_lines log1). rewrite Hlines1.
      split; reflexivity.
    + destruct (ntohs_at buffer ptr >? 255) eqn:Edata.
      * apply Forall_cons in Hdata as [Hpos Hdata]. cbn [snd] in Hpos.
        destruct (templates sonda !! ntohs_at buffer ptr) as [fields|] eqn:Hsome.
        -- specialize (Hpos fields eq_refl).
           destruct (recordLength_of_width fields (Hwf _ _ Hsome)) as [-> Hw].
           assert (2 ^ 32 = 4294967296) as H32 by reflexivity.
           destruct (record_loop_count buffer fuel sonda fields (ptr + 4)
                       (width fields) (ptr + ntohs_at buffer (ptr + 2)) log1)
             as (log2 & Hrec & Hins); [range_lia|lia| |].
           { replace (ptr + ntohs_at buffer (ptr + 2) - (ptr + 4))
               with (ntohs_at buffer (ptr + 2) - 4) by lia.
             assert ((ntohs_at buffer (ptr + 2) - 4) / width fields
                     ≤ ntohs_at buffer (ptr + 2) - 4)
               by (apply Z.div_le_upper_bound; nia).
             lia. }
           rewrite Hrec.
           pose proof (record_loop_unknown_lines _ _ _ _ _ _ _ _ Hrec) as Hrl.
           edestruct (IH m (ptr + ntohs_at buffer (ptr + 2))
                        (length - ntohs_at buffer (ptr + 2)) sonda log2)
             as (sonda' & log' & Hrun & Hlines & Hcount);
             [lia|lia|lia|exact Hwf|exact Hfs|exact Hdata|].
           eexists _, _. split; [exact Hrun|].
           rewrite Hlines, Hcount, Hins, Hlog1, Hrl, Hlines1.
           split; [reflexivity|].
           cbn [expected_records foldr fst snd flowset_length default].
           cbn [default from_option].
           replace (ptr + ntohs_at buffer (ptr + 2) - (ptr + 4))
             with (ntohs_at buffer (ptr + 2) - 4) by lia.
           fold (expected_records
                   (data_flowsets buffer (templates sonda)
                      (flowsets_from buffer m (ptr + ntohs_at buffer (ptr + 2))
                         (length - ntohs_at buffer (ptr + 2))))).
           change (id fields) with fields. lia.
        -- edestruct (IH m (ptr + ntohs_at buffer (ptr + 2))
                        (length - ntohs_at buffer (ptr + 2)) sonda
                        (log1 ++ [Cerr ("Unknown template ID: "
                                        +:+ to_string (ntohs_at buffer ptr))]))
             as (sonda' & log' & Hrun & Hlines & Hcount);
             [lia|lia|lia|exact Hwf|exact Hfs|exact Hdata|].
           eexists _, _. split; [exact Hrun|].
           rewrite Hlines, Hcount, inserts_app, Hlog1.
           rewrite unknown_template_lines_app, Hlines1.
           split.
           ++ rewrite <- app_assoc. reflexivity.
           ++ cbn [expected_records foldr fst snd flowset_length default].
              cbn [default from_option].
              fold (expected_records
                      (data_flowsets buffer (templates sonda)
                         (flowsets_from buffer m (ptr + ntohs_at buffer (ptr + 2))
                            (length - ntohs_at buffer (ptr + 2))))).
              change (width []) with 0. rewrite Z.div_0_r.
              match goal with
              | |- context [expected_records ?g] =>
                  generalize (expected_records g)
              end.
              intros expected. rewrite length_app.
              change (inserts [Cerr _]) with (@nil FlowData). cbn.
              lia.
      * edestruct (IH m (ptr + ntohs_at buffer (ptr + 2))
                     (length - ntohs_at buffer (ptr + 2)) sonda log1)
          as (sonda' & log' & Hrun & Hlines & Hcount);
          [lia|lia|lia|exact Hwf|exact Hfs|exact Hdata|].
        eexists _, _. split; [exact Hrun|].
        rewrite Hlines, Hcount, Hlog1, Hlines1. split; reflexivity.
Qed.

End DecoderDiagnostics.

(** * The claims *)

(** ** Bounds of the reads *)

(** C1 (fails on the code).  A 28-byte datagram ends with a template FlowSet
    of 8 bytes whose template record announces one field specifier: the
    decoder returns after reading that specifier from offsets 28 to 31,
    beyond the 28 received bytes, whatever the memory there holds. *)
Theorem template_fields_read_beyond_datagram (stale : Z → Z) :
  ∃ sonda' log,
    processNetFlowV9Data (buffer_of truncated_template stale) 16 28 (probe ∅)
      = Done (sonda', log)
    ∧ reads log = [(2, 2); (20, 2); (22, 2); (24, 2); (26, 2); (28, 2); (30, 2)]
    ∧ reads_beyond 28 log = [(28, 2); (30, 2)].
Proof.
  eexists _, _. split; [vm_compute; reflexivity|].
  split; vm_compute; reflexivity.
Qed.

(** ** Termination *)

(** C2 (fails on the code).  After a template of width zero has been
    installed, a data FlowSet with its id is never left: no bound on the
    number of loop turns lets the decoder return. *)
Theorem zero_width_template_never_returns (stale : Z → Z) (fuel : nat) :
  processNetFlowV9Data (buffer_of zero_width_datagram stale) fuel 36 (probe ∅)
    = OutOfFuel.
Proof.
  set (buffer := buffer_of zero_width_datagram stale).
  unfold processNetFlowV9Data.
  change (to_s64 (36 - sizeof_NetFlowV9Header)) with 16.
  change (ptr_add 0 sizeof_NetFlowV9Header) with 20.
  destruct fuel as [|fuel]; [reflexivity|].
  assert (4 ≤ 16 < 2 ^ 63) as Hr by (split; [lia | reflexivity]).
  rewrite flowset_loop_step by exact Hr. cbv zeta.
  change (ntohs_at buffer 20) with 0.
  change (ntohs_at buffer (20 + 2)) with 12.
  change (12 >? 16) with false. change (0 =? 0) with true.
  cbv iota.
  eassert (template_loop buffer 1 (20 + 4) (20 + 12) (templates (probe ∅))
             ([Read 2 2] ++ [Read 20 2; Read (20 + 2) 2]) = Done _) as Ht
    by (vm_compute; reflexivity).
  apply (template_loop_fuel _ _ (S fuel)) in Ht; [|lia].
  rewrite Ht. clear Ht.
  destruct fuel as [|fuel]; [reflexivity|].
  assert (4 ≤ 16 - 12 < 2 ^ 63) as Hr' by (split; [lia | reflexivity]).
  rewrite flowset_loop_step by exact Hr'. cbv zeta.
  change (ntohs_at buffer (20 + 12)) with 256.
  change (ntohs_at buffer (20 + 12 + 2)) with 4.
  change (4 >? 16 - 12) with false. change (256 =? 0) with false.
  change (256 >? 255) with true. cbv iota.
  match goal with
  | |- context [templates ?s !! 256] =>
      change (templates s !! 256)
        with (Some [{| field_type := 1; field_length := 0 |}])
  end.
  cbv iota.
  change (recordLength_of [{| field_type := 1; field_length := 0 |}]) with 0.
  rewrite record_loop_zero_width by lia.
  reflexivity.
Qed.

(** ** FlowSet headers *)

(** C5 (fails on the code).  The first FlowSet header of this datagram has
    the length field 2.  The decoder prints nothing, reads two more FlowSet
    headers (at offsets 22 and 26) and installs template 256 from the
    second of them. *)
Theorem short_flowset_length_not_rejected (stale : Z → Z) :
  ntohs_at (buffer_of short_flowset_datagram stale) (20 + 2) = 2 ∧
  ∃ sonda' log,
    processNetFlowV9Data (buffer_of short_flowset_datagram stale) 16 38 (probe ∅)
      = Done (sonda', log)
    ∧ diagnostics log = []
    ∧ reads log = [(2, 2); (20, 2); (22, 2); (22, 2); (24, 2); (26, 2); (28, 2);
                   (30, 2); (32, 2); (34, 2); (36, 2)]
    ∧ templates sonda' !! 256 = Some [{| field_type := 1; field_length := 4 |}].
Proof.
  split; [vm_compute; reflexivity|].
  eexists _, _. split; [vm_compute; reflexivity|].
  repeat split; vm_compute; reflexivity.
Qed.

(** ** Defaults of a flow record *)

(** C9 (fails on the code).  Under the template {(8, 4)} the record handed
    to the sink has its source address, empty strings for the other string
    attributes and the probe's name, but its ports, protocol and counters
    were never assigned: they are not 0, they are whatever the storage of
    [flowData] held. *)
Theorem absent_fields_left_unassigned (stale : Z → Z) :
  ∃ sonda' log,
    processNetFlowV9Data (buffer_of source_only_datagram stale) 16 40 (probe ∅)
      = Done (sonda', log)
    ∧ inserts log =
        [{| SourceIP := "10.0.0.1"; DestinationIP := "";
            SourcePort := None; DestinationPort := None; Protocol := None;
            PacketCount := None; ByteCount := None;
            FlowStart := ""; FlowEnd := "";
            SourceSond := name (config (probe ∅)) |}].
Proof.
  eexists _, _. split; vm_compute; reflexivity.
Qed.

(** ** Template records *)

(** Against C6 as stated: the template records with id 5 (below 256) and
    with field count 0 (id 257) are both installed, and nothing is
    printed. *)
Lemma reserved_id_and_empty_template_installed :
  ∃ sonda' log,
    processNetFlowV9Data (buffer_of reserved_id_datagram (λ _, 0)) 16 36 (probe ∅)
      = Done (sonda', log)
    ∧ templates sonda' !! 5 = Some [{| field_type := 8; field_length := 4 |}]
    ∧ templates sonda' !! 257 = Some []
    ∧ diagnostics log = [].
Proof.
  eexists _, _. split; [vm_compute; reflexivity|].
  repeat split; vm_compute; reflexivity.
Qed.

(** C6 (amended).  Whatever its template id and field count, a template
    record that starts inside a template FlowSet is installed under its id
    with the field specifiers that follow it (none when the count is 0) and
    nothing is printed; the loop then goes on with the record that starts
    behind those specifiers, and returns.  The table it returns is the
    table with this record installed, updated by the records behind it:
    the record's id is bound to its specifiers unless one of those records
    defines the id again. *)
Theorem template_record_always_installed
    (buffer : Z → Z) (fuel : nat) (templatePtr endPtr : Z)
    (tmpl : gmap Z (list NetFlowV9FieldSpecifier)) (log : list event) :
  templatePtr < endPtr →
  (Z.to_nat (endPtr - templatePtr) ≤ fuel)%nat →
  ∃ tmpl' log',
    template_loop buffer fuel templatePtr endPtr tmpl log = Done (tmpl', log')
    ∧ tmpl'
      = install_all
          (<[ntohs_at buffer templatePtr :=
               fields_at buffer (Z.to_nat (ntohs_at buffer (templatePtr + 2)))
                 (templatePtr + 4)]> tmpl)
          (template_records_from buffer fuel
             (templatePtr + 4 + 4 * ntohs_at buffer (templatePtr + 2)) endPtr)
    ∧ (last_definition (ntohs_at buffer templatePtr)
         (template_records_from buffer fuel
            (templatePtr + 4 + 4 * ntohs_at buffer (templatePtr + 2)) endPtr)
       = None →
       tmpl' !! ntohs_at buffer templatePtr
       = Some (fields_at buffer (Z.to_nat (ntohs_at buffer (templatePtr + 2)))
                 (templatePtr + 4)))
    ∧ diagnostics log' = diagnostics log.
Proof.
  intros Hlt Hfuel.
  destruct fuel as [|fuel]; [lia|].
  pose proof (ntohs_at_range buffer (templatePtr + 2)) as Hcount.
  rewrite template_loop_step by exact Hlt.
  destruct (template_loop_total buffer fuel
              (templatePtr + 4 + 4 * ntohs_at buffer (templatePtr + 2)) endPtr
              (<[ntohs_at buffer templatePtr :=
                   fields_at buffer (Z.to_nat (ntohs_at buffer (templatePtr + 2)))
                     (templatePtr + 4)]> tmpl)
              (log ++ Read templatePtr 2 :: Read (templatePtr + 2) 2
                   :: field_reads (Z.to_nat (ntohs_at buffer (templatePtr + 2)))
                        (templatePtr + 4)))
    as [[tmpl' log'] Hrun]; [lia|].
  exists tmpl', log'. split; [exact Hrun|].
  pose proof (template_loop_diagnostics _ _ _ _ _ _ _ _ Hrun) as Hdiag.
  apply template_loop_records with (n := S fuel) in Hrun; [|lia].
  destruct Hrun as [-> _].
  split; [reflexivity|]. split.
  - intros Hlast. rewrite install_all_lookup, Hlast. apply lookup_insert_eq.
  - rewrite Hdiag, diagnostics_app. cbn.
    fold (diagnostics (field_reads
            (Z.to_nat (ntohs_at buffer (templatePtr + 2))) (templatePtr + 4))).
    rewrite field_reads_diagnostics. apply app_nil_r.
Qed.

Lemma template_record_always_installed_witness :
  ∃ tmpl' log',
    template_loop (buffer_of reserved_id_datagram (λ _, 0)) 12 24 36 ∅ []
    = Done (tmpl', log')
    ∧ tmpl'
      = install_all
          (<[ntohs_at (buffer_of reserved_id_datagram (λ _, 0)) 24 :=
               fields_at (buffer_of reserved_id_datagram (λ _, 0))
                 (Z.to_nat (ntohs_at (buffer_of reserved_id_datagram (λ _, 0))
                              (24 + 2)))
                 (24 + 4)]> ∅)
          (template_records_from (buffer_of reserved_id_datagram (λ _, 0)) 12
             (24 + 4 + 4 * ntohs_at (buffer_of reserved_id_datagram (λ _, 0))
                             (24 + 2)) 36)
    ∧ (last_definition (ntohs_at (buffer_of reserved_id_datagram (λ _, 0)) 24)
         (template_records_from (buffer_of reserved_id_datagram (λ _, 0)) 12
            (24 + 4 + 4 * ntohs_at (buffer_of reserved_id_datagram (λ _, 0))
                            (24 + 2)) 36)
       = None →
       tmpl' !! ntohs_at (buffer_of reserved_id_datagram (λ _, 0)) 24
       = Some (fields_at (buffer_of reserved_id_datagram (λ _, 0))
                 (Z.to_nat (ntohs_at (buffer_of reserved_id_datagram (λ _, 0))
                              (24 + 2)))
                 (24 + 4)))
    ∧ diagnostics log' = diagnostics [].
Proof.
  apply (template_record_always_installed
           (buffer_of reserved_id_datagram (λ _, 0)) 12 24 36 ∅ []).
  - lia.
  - vm_compute. lia.
Defined.

(** ** Unknown templates *)

(** C7.  A data FlowSet (id 256 and up, four bytes or more) that lies
    within the datagram and whose id has no entry in the template table
    ends its turn of the walk with one line "Unknown template ID: <id>" on
    the diagnostic stream, no record handed to the sink and the runtime as
    it was, and the walk goes on with the FlowSet header that follows it.
    In the result of a decode: when the FlowSets of a datagram have four
    bytes or more and the templates that its data FlowSets do find have a
    positive width, the decoder returns, its diagnostic stream holds one
    such line for each data FlowSet without a template, in the order of the
    wire, and the records handed to the sink are those of the data FlowSets
    that found a template. *)
Theorem unknown_template_skipped
    (buffer : Z → Z) (fuel : nat) (length : Z) (sonda : SondaRuntime) :
  0 ≤ length ≤ 65536 →
  65536 ≤ Z.of_nat fuel →
  wf_templates (templates sonda) →
  Forall (λ F, 4 ≤ flowset_length F) (flowsets buffer length) →
  Forall (λ Ft, ∀ fields, Ft.2 = Some fields → 0 < width fields)
    (data_flowsets buffer (templates sonda) (flowsets buffer length)) →
  (∃ sonda' log,
     processNetFlowV9Data buffer fuel length sonda = Done (sonda', log)
     ∧ unknown_template_lines log
       = (λ id, "Unknown template ID: " +:+ to_string id)
         <$> unknown_templates
               (data_flowsets buffer (templates sonda) (flowsets buffer length))
     ∧ Z.of_nat (List.length (inserts log))
       = expected_records
           (known_templates
              (data_flowsets buffer (templates sonda) (flowsets buffer length))))
  ∧ ∀ (n : nat) (ptr remaining : Z) (runtime : SondaRuntime) (log : list event),
      4 ≤ remaining < 2 ^ 63 →
      4 ≤ ntohs_at buffer (ptr + 2) ≤ remaining →
      256 ≤ ntohs_at buffer ptr →
      templates runtime !! ntohs_at buffer ptr = None →
      flowset_loop buffer fuel (S n) ptr remaining runtime log
      = flowset_loop buffer fuel n (ptr + ntohs_at buffer (ptr + 2))
          (remaining - ntohs_at buffer (ptr + 2)) runtime
          (log ++ [Read ptr 2; Read (ptr + 2) 2;
                   Cerr ("Unknown template ID: "
                         +:+ to_string (ntohs_at buffer ptr))]).
Proof.
  intros Hlen Hfuel Hwf Hfs Hdata. split.
  - unfold processNetFlowV9Data, sizeof_NetFlowV9Header.
    rewrite (to_s64_small (length - 20)) by range_lia.
    change (ptr_add 0 20) with 20.
    destruct (flowset_loop_unknown buffer fuel fuel (Z.to_nat (length - 20)) 20
                (length - 20) sonda [Read 2 2])
      as (sonda' & log & Hrun & Hlines & Hcount);
      [lia|lia|lia|lia|exact Hwf|exact Hfs|exact Hdata|].
    exists sonda', log. split; [exact Hrun|]. split.
    + rewrite Hlines. reflexivity.
    + rewrite Hcount, expected_records_known. reflexivity.
  - intros n ptr remaining runtime log Hrem Hfit Hid Hnone.
    rewrite flowset_loop_step by exact Hrem. cbv zeta.
    replace (ntohs_at buffer (ptr + 2) >? remaining) with false by lia.
    replace (ntohs_at buffer ptr =? 0) with false by lia.
    replace (ntohs_at buffer ptr >? 255) with true by lia.
    rewrite Hnone. rewrite <- app_assoc. reflexivity.
Qed.

Lemma unknown_template_skipped_witness :
  (∃ sonda' log,
     processNetFlowV9Data (buffer_of data_before_template (λ _, 0))
       (Z.to_nat 65536) 28 (probe ∅) = Done (sonda', log)
     ∧ unknown_template_lines log
       = (λ id, "Unknown template ID: " +:+ to_string id)
         <$> unknown_templates
               (data_flowsets (buffer_of data_before_template (λ _, 0))
                  (templates (probe ∅))
                  (flowsets (buffer_of data_before_template (λ _, 0)) 28))
     ∧ Z.of_nat (List.length (inserts log))
       = expected_records
           (known_templates
              (data_flowsets (buffer_of data_before_template (λ _, 0))
                 (templates (probe ∅))
                 (flowsets (buffer_of data_before_template (λ _, 0)) 28))))
  ∧ ∀ (n : nat) (ptr remaining : Z) (runtime : SondaRuntime) (log : list event),
      4 ≤ remaining < 2 ^ 63 →
      4 ≤ ntohs_at (buffer_of data_before_template (λ _, 0)) (ptr + 2) ≤ remaining →
      256 ≤ ntohs_at (buffer_of data_before_template (λ _, 0)) ptr →
      templates runtime !! ntohs_at (buffer_of data_before_template (λ _, 0)) ptr
      = None →
      flowset_loop (buffer_of data_before_template (λ _, 0)) (Z.to_nat 65536)
        (S n) ptr remaining runtime log
      = flowset_loop (buffer_of data_before_template (λ _, 0)) (Z.to_nat 65536) n
          (ptr + ntohs_at (buffer_of data_before_template (λ _, 0)) (ptr + 2))
          (remaining - ntohs_at (buffer_of data_before_template (λ _, 0)) (ptr + 2))
          runtime
          (log ++ [Read ptr 2; Read (ptr + 2) 2;
                   Cerr ("Unknown template ID: "
                         +:+ to_string
                               (ntohs_at (buffer_of data_before_template (λ _, 0))
                                  ptr))]).
Proof.
  apply (unknown_template_skipped (buffer_of data_before_template (λ _, 0))
           (Z.to_nat 65536) 28 (probe ∅)).
  - lia.
  - lia.
  - intros id fields H. cbn in H. rewrite lookup_empty in H. discriminate.
  - replace (flowsets (buffer_of data_before_template (λ _, 0)) 28)
      with [{| flowset_id := 256; flowset_length := 8; flowset_at := 20 |}]
      by (vm_compute; reflexivity).
    repeat constructor; cbn; lia.
  - replace (flowsets (buffer_of data_before_template (λ _, 0)) 28)
      with [{| flowset_id := 256; flowset_length := 8; flowset_at := 20 |}]
      by (vm_compute; reflexivity).
    constructor; [|constructor].
    intros fields H. cbn in H. rewrite lookup_empty in H. discriminate.
Defined.

(** ** Counter fields *)

(** Against C8 as stated: the eight bytes of the field spell 1500 in network
    order, which fits 32 bits; the decoder dereferences four bytes and
    stores 0, the high-order half. *)
Lemma wide_counter_high_half_stored :
  be_uint (buffer_of wide_counter (λ _, 0)) 8 0 mod 2 ^ 32 = 1500 ∧
  decode_field (buffer_of wide_counter (λ _, 0))
    {| field_type := 1; field_length := 8 |} 0 0 FlowData_declared []
  = (set_ByteCount 0 FlowData_declared, 8, [Read 0 4]).
Proof. split; vm_compute; reflexivity. Qed.

(** C8 (amended).  For a counter field of type 1 (byte count) or 2 (packet
    count) with declared length L, the decoder dereferences exactly four
    bytes at the field's offset, whatever L is, and stores them, read as a
    big-endian unsigned 32-bit integer, in ByteCount or PacketCount; for
    L = 4 that is the value of the field.  The offset then advances by L. *)
Theorem counter_field_read_as_32_bits
    (buffer : Z → Z) (field : NetFlowV9FieldSpecifier)
    (recordPtr offset : Z) (flowData : FlowData) (log : list event) :
  field_type field = 1 ∨ field_type field = 2 →
  0 ≤ offset →
  0 ≤ field_length field →
  offset + field_length field < 2 ^ 63 →
  decode_field buffer field recordPtr offset flowData log
  = ((if field_type field =? 1 then set_ByteCount else set_PacketCount)
       (ntohl_at buffer (recordPtr + offset)) flowData,
     offset + field_length field,
     log ++ [Read (recordPtr + offset) 4])
  ∧ 0 ≤ ntohl_at buffer (recordPtr + offset) < 2 ^ 32
  ∧ (field_length field = 4 →
     ntohl_at buffer (recordPtr + offset)
     = be_uint buffer (Z.to_nat (field_length field)) (recordPtr + offset)).
Proof.
  intros Ht Hoff Hlen Hsum.
  split; [|split; [apply ntohl_at_range|]].
  - unfold decode_field.
    rewrite ptr_add_small by lia.
    rewrite to_u64_small by lia.
    destruct Ht as [-> | ->]; reflexivity.
  - intros ->. change (Z.to_nat 4) with 4%nat.
    unfold be_uint, ntohl_at. cbn [be_uint_from].
    replace (recordPtr + offset + 1 + 1) with (recordPtr + offset + 2) by lia.
    replace (recordPtr + offset + 2 + 1) with (recordPtr + offset + 3) by lia.
    lia.
Qed.

Lemma counter_field_read_as_32_bits_witness :
  decode_field (buffer_of wide_counter (λ _, 0))
    {| field_type := 2; field_length := 4 |} 0 4 FlowData_declared []
  = (set_PacketCount (ntohl_at (buffer_of wide_counter (λ _, 0)) (0 + 4))
       FlowData_declared,
     4 + 4, [] ++ [Read (0 + 4) 4])
  ∧ 0 ≤ ntohl_at (buffer_of wide_counter (λ _, 0)) (0 + 4) < 2 ^ 32
  ∧ (4 = 4 →
     ntohl_at (buffer_of wide_counter (λ _, 0)) (0 + 4)
     = be_uint (buffer_of wide_counter (λ _, 0)) (Z.to_nat 4) (0 + 4)).
Proof.
  apply (counter_field_read_as_32_bits (buffer_of wide_counter (λ _, 0))
           {| field_type := 2; field_length := 4 |} 0 4 FlowData_declared []).
  - right. reflexivity.
  - lia.
  - simpl. lia.
  - reflexivity.
Defined.

(** ** Comments in the configuration file *)

(** C10.  Whatever follows the first ';' or '#' of a line has no effect on
    the parse: the line is cut there before the section test and the split
    on '='.  Hence no value stored by [parse] holds a ';' or a '#', and a
    line with no '=' before that character stores nothing. *)
Theorem ini_comment_cuts_line
    (pre rest : string) (c : ascii) (st : INIParser.state) (content : string) :
  c = ";"%char ∨ c = "#"%char →
  INIParser.parse_line (pre +:+ String c rest) st = INIParser.parse_line pre st
  ∧ (INIParser.comment_free pre →
     INIParser.remove_comment (pre +:+ String c rest) = pre)
  ∧ (∀ section m key value,
       (INIParser.parse (Some content)).2 !! section = Some m →
       m !! key = Some value →
       INIParser.comment_free value)
  ∧ ("="%char ∉ INIParser.chars pre →
     INIParser.data (INIParser.parse_line (pre +:+ String c rest) st)
     = INIParser.data st).
Proof.
  intros Hc.
  assert (INIParser.mem c ";#" = true) as Hmem
    by (destruct Hc as [-> | ->]; reflexivity).
  split; [|split; [|split]].
  - unfold INIParser.parse_line.
    rewrite remove_comment_cut by exact Hmem. reflexivity.
  - intros Hpre. rewrite remove_comment_cut by exact Hmem.
    apply remove_comment_id. intros a Ha.
    eapply comment_free_mem; eassumption.
  - cbn [INIParser.parse snd]. apply parse_lines_values.
    intros section m key value Hm. cbn in Hm.
    rewrite lookup_empty in Hm. discriminate.
  - intros Hno. apply parse_line_no_equal.
    rewrite remove_comment_cut by exact Hmem.
    intros Hin. apply Hno. apply remove_comment_chars. exact Hin.
Qed.

Lemma ini_comment_cuts_line_witness :
  INIParser.parse_line ("mysql_password = pa" +:+ String "#" "ss ; secret")
    {| INIParser.currentSection := "Database"; INIParser.data := ∅ |}
  = INIParser.parse_line "mysql_password = pa"
      {| INIParser.currentSection := "Database"; INIParser.data := ∅ |}
  ∧ (INIParser.comment_free "mysql_password = pa" →
     INIParser.remove_comment ("mysql_password = pa" +:+ String "#" "ss ; secret")
     = "mysql_password = pa")
  ∧ (∀ section m key value,
       (INIParser.parse (Some sample_ini)).2 !! section = Some m →
       m !! key = Some value →
       INIParser.comment_free value)
  ∧ ("="%char ∉ INIParser.chars "mysql_password = pa" →
     INIParser.data
       (INIParser.parse_line ("mysql_password = pa" +:+ String "#" "ss ; secret")
          {| INIParser.currentSection := "Database"; INIParser.data := ∅ |})
     = INIParser.data
         {| INIParser.currentSection := "Database"; INIParser.data := ∅ |}).
Proof.
  apply (ini_comment_cuts_line "mysql_password = pa" "ss ; secret" "#"
           {| INIParser.currentSection := "Database"; INIParser.data := ∅ |}
           sample_ini).
  right. reflexivity.
Defined.

(** ** The template table *)

(** C4 (fails on the code).  The template FlowSet of this 42-byte datagram
    holds the record of template 256 and two bytes of padding, so that the
    datagram defines template 256 and nothing else.  The decoder takes the
    padding for the header of another record: it reads the id 0 from the
    padding and the field count 256 from the two bytes behind the FlowSet,
    and binds id 0, which the table did not hold and the datagram does not
    define, to 256 field specifiers read from offset 36 on, most of them
    beyond the 42 received bytes.  The walk then goes on with the data
    FlowSet. *)
Theorem padding_installed_as_template (stale : Z → Z) :
  defined_templates (buffer_of padded_template_datagram stale) 42
  = [(256, [{| field_type := 8; field_length := 4 |}])]
  ∧ ∃ sonda' log,
      processNetFlowV9Data (buffer_of padded_template_datagram stale) 16 42
        (probe ∅) = Done (sonda', log)
      ∧ templates sonda' !! 256 = Some [{| field_type := 8; field_length := 4 |}]
      ∧ templates (probe ∅) !! 0 = None
      ∧ templates sonda' !! 0
        = Some (fields_at (buffer_of padded_template_datagram stale) 256 36)
      ∧ reads_beyond 42 log ≠ []
      ∧ List.length (inserts log) = 1%nat.
Proof.
  set (buffer := buffer_of padded_template_datagram stale).
  split; [vm_compute; reflexivity|].
  eassert (processNetFlowV9Data buffer 16 42 (probe ∅) = _) as Hrun.
  { unfold processNetFlowV9Data.
    change (to_s64 (42 - sizeof_NetFlowV9Header)) with 22.
    change (ptr_add 0 sizeof_NetFlowV9Header) with 20.
    rewrite flowset_loop_step by (split; [lia | reflexivity]). cbv zeta.
    change (ntohs_at buffer 20) with 0.
    change (ntohs_at buffer (20 + 2)) with 14.
    change (14 >? 22) with false. change (0 =? 0) with true. cbv iota.
    rewrite template_loop_step by lia.
    change (ntohs_at buffer (20 + 4)) with 256.
    change (ntohs_at buffer (20 + 4 + 2)) with 1.
    rewrite template_loop_step by lia.
    change (ntohs_at buffer (20 + 4 + 4 + 4 * 1)) with 0.
    change (ntohs_at buffer (20 + 4 + 4 + 4 * 1 + 2)) with 256.
    rewrite template_loop_exit by lia.
    change (fields_at buffer (Z.to_nat 256) (20 + 4 + 4 + 4 * 1 + 4))
      with (fields_at buffer 256 36).
    reflexivity. }
  revert Hrun. generalize (fields_at buffer 256 36). intros garbage Hrun.
  rewrite Hrun. clear Hrun.
  eexists _, _. split; [vm_compute; reflexivity|].
  repeat split; try (vm_compute; reflexivity).
  vm_compute. discriminate.
Qed.

(** ** Records per data FlowSet *)

(** Against C3 as stated: the template FlowSet of this datagram stands
    behind the data FlowSet 256.  After the datagram's template FlowSets
    have been processed the table holds template 256, of width 4, so that
    the sum of the claim is floor((8 - 4) / 4) = 1; the decoder has handed
    no record to the sink, for the table held no template 256 when the walk
    reached the data FlowSet. *)
Lemma template_behind_data_not_applied :
  ∃ sonda' log,
    processNetFlowV9Data (buffer_of data_then_template (λ _, 0)) 16 40 (probe ∅)
      = Done (sonda', log)
    ∧ flowsets (buffer_of data_then_template (λ _, 0)) 40
      = [{| flowset_id := 256; flowset_length := 8; flowset_at := 20 |};
         {| flowset_id := 0; flowset_length := 12; flowset_at := 28 |}]
    ∧ templates sonda' !! 256 = Some [{| field_type := 8; field_length := 4 |}]
    ∧ claimed_records (templates sonda')
        (flowsets (buffer_of data_then_template (λ _, 0)) 40) = 1
    ∧ inserts log = []
    ∧ diagnostics log = ["Unknown template ID: 256"].
Proof.
  eexists _, _. split; [vm_compute; reflexivity|].
  repeat split; vm_compute; reflexivity.
Qed.

(** C3 (amended).  For a received datagram whose FlowSets are well formed
    (every length field is 4 or more) and whose data FlowSets each find,
    when the walk reaches them, a template of positive width W in the table
    (the table as the template FlowSets before them have left it), the
    decoder returns and the number of records it has handed to the sink is
    the sum over the data FlowSets of floor((length - 4) / W); the less than
    W bytes left in a body produce no record. *)
Theorem emitted_records_sum
    (buffer : Z → Z) (fuel : nat) (length : Z) (sonda : SondaRuntime) :
  0 ≤ length ≤ 65536 →
  65536 ≤ Z.of_nat fuel →
  wf_templates (templates sonda) →
  Forall (λ F, 4 ≤ flowset_length F) (flowsets buffer length) →
  Forall (λ Ft, ∃ fields, Ft.2 = Some fields ∧ 0 < width fields)
    (data_flowsets buffer (templates sonda) (flowsets buffer length)) →
  ∃ sonda' log,
    processNetFlowV9Data buffer fuel length sonda = Done (sonda', log)
    ∧ Z.of_nat (List.length (inserts log))
      = expected_records
          (data_flowsets buffer (templates sonda) (flowsets buffer length)).
Proof.
  intros Hlen Hfuel Hwf Hfs Hdata.
  unfold processNetFlowV9Data, sizeof_NetFlowV9Header.
  rewrite (to_s64_small (length - 20)) by range_lia.
  change (ptr_add 0 20) with 20.
  destruct (flowset_loop_count buffer fuel fuel (Z.to_nat (length - 20)) 20
              (length - 20) sonda [Read 2 2])
    as (sonda' & log & Hrun & Hcount);
    [lia|lia|lia|lia|exact Hwf|exact Hfs|exact Hdata|].
  exists sonda', log. split; [exact Hrun|].
  rewrite Hcount. reflexivity.
Qed.

Lemma emitted_records_sum_witness :
  ∃ sonda' log,
    processNetFlowV9Data (buffer_of template_then_data (λ _, 0))
      (Z.to_nat 65536) 84 (probe ∅) = Done (sonda', log)
    ∧ Z.of_nat (List.length (inserts log))
      = expected_records
          (data_flowsets (buffer_of template_then_data (λ _, 0))
             (templates (probe ∅))
             (flowsets (buffer_of template_then_data (λ _, 0)) 84)).
Proof.
  apply (emitted_records_sum (buffer_of template_then_data (λ _, 0))
           (Z.to_nat 65536) 84 (probe ∅)).
  - lia.
  - lia.
  - intros id fields H. cbn in H. rewrite lookup_empty in H. discriminate.
  - replace (flowsets (buffer_of template_then_data (λ _, 0)) 84)
      with [{| flowset_id := 0; flowset_length := 36; flowset_at := 20 |};
            {| flowset_id := 256; flowset_length := 28; flowset_at := 56 |}]
      by (vm_compute; reflexivity).
    repeat constructor; cbn; lia.
  - eassert (data_flowsets (buffer_of template_then_data (λ _, 0))
               (templates (probe ∅))
               (flowsets (buffer_of template_then_data (λ _, 0)) 84)
             = [(_, Some _)]) as -> by (vm_compute; reflexivity).
    constructor; [|constructor].
    eexists. split; [reflexivity|]. vm_compute. reflexivity.
Defined.

(** * Further properties of the decoder *)

(** X1.  A datagram of at most 20 bytes holds no FlowSet: the decoder
    returns at once, with the runtime as it was and nothing printed.  With
    21 to 23 bytes the only effect is the line "Incomplete FlowSet
    header.". *)
Theorem short_datagram_dropped (buffer : Z → Z) (fuel : nat) (length : Z) (sonda : SondaRuntime) :
  0 ≤ length < 24 →
  processNetFlowV9Data buffer (S fuel) length sonda
  = Done (sonda,
          if length <=? 20 then [Read 2 2]
          else [Read 2 2; Cerr "Incomplete FlowSet header."]).
Proof.
  intros Hlen. unfold processNetFlowV9Data, sizeof_NetFlowV9Header.
  rewrite (to_s64_small (length - 20)) by range_lia.
  cbn [flowset_loop].
  destruct (length <=? 20) eqn:E.
  - replace (length - 20 >? 0) with false by lia. reflexivity.
  - replace (length - 20 >? 0) with true by lia.
    replace (length - 20 <? 4) with true by lia. reflexivity.
Qed.

Lemma short_datagram_dropped_witness :
  processNetFlowV9Data (buffer_of (v9_header 0 ++ [0; 0; 0]) (λ _, 0)) (S 0) 23
    (probe ∅)
  = Done (probe ∅,
          if 23 <=? 20 then [Read 2 2]
          else [Read 2 2; Cerr "Incomplete FlowSet header."]).
Proof.
  apply (short_datagram_dropped (buffer_of (v9_header 0 ++ [0; 0; 0]) (λ _, 0))
           0 23 (probe ∅)).
  lia.
Defined.

(** X2.  A FlowSet whose length field exceeds the bytes that remain ends the
    walk: one diagnostic, the runtime as it was, and nothing behind the
    header is looked at. *)
Theorem oversized_flowset_stops_walk
    (buffer : Z → Z) (fuel n : nat) (ptr length : Z)
    (sonda : SondaRuntime) (log : list event) :
  4 ≤ length < 2 ^ 63 →
  length < ntohs_at buffer (ptr + 2) →
  flowset_loop buffer fuel (S n) ptr length sonda log
  = Done (sonda,
          log ++ [Read ptr 2; Read (ptr + 2) 2;
                  Cerr "FlowSet length exceeds remaining packet length."]).
Proof.
  intros Hlen Hbig. rewrite flowset_loop_step by exact Hlen. cbv zeta.
  replace (ntohs_at buffer (ptr + 2) >? length) with true by lia.
  rewrite <- app_assoc. reflexivity.
Qed.

Lemma oversized_flowset_stops_walk_witness :
  flowset_loop (buffer_of (v9_header 1 ++ [0; 0; 16; 0; 1; 2; 3; 4]) (λ _, 0))
    4 (S 3) 20 8 (probe ∅) []
  = Done (probe ∅,
          [] ++ [Read 20 2; Read (20 + 2) 2;
                 Cerr "FlowSet length exceeds remaining packet length."]).
Proof.
  apply (oversized_flowset_stops_walk
           (buffer_of (v9_header 1 ++ [0; 0; 16; 0; 1; 2; 3; 4]) (λ _, 0))
           4 3 20 8 (probe ∅) []).
  - split; [lia | reflexivity].
  - vm_compute. reflexivity.
Defined.

(** X3.  A FlowSet with an id from 1 to 255 (the options template, the
    reserved ids) of four bytes or more that fits in the datagram is passed
    over: its header is read, its body is not, nothing is printed or
    stored, and the walk goes on behind it.  When it is the last FlowSet of
    the datagram the walk returns there, with the runtime as it was and the
    two reads of the header as its only trace. *)
Theorem reserved_flowset_passed_over
    (buffer : Z → Z) (fuel n : nat) (ptr length : Z)
    (sonda : SondaRuntime) (log : list event) :
  4 ≤ length < 2 ^ 63 →
  4 ≤ ntohs_at buffer (ptr + 2) ≤ length →
  1 ≤ ntohs_at buffer ptr ≤ 255 →
  flowset_loop buffer fuel (S n) ptr length sonda log
  = flowset_loop buffer fuel n (ptr + ntohs_at buffer (ptr + 2))
      (length - ntohs_at buffer (ptr + 2)) sonda
      (log ++ [Read ptr 2; Read (ptr + 2) 2])
  ∧ (ntohs_at buffer (ptr + 2) = length →
     flowset_loop buffer fuel (S n) ptr length sonda log
     = Done (sonda, log ++ [Read ptr 2; Read (ptr + 2) 2])).
Proof.
  intros Hlen Hfit Hid.
  assert (flowset_loop buffer fuel (S n) ptr length sonda log
          = flowset_loop buffer fuel n (ptr + ntohs_at buffer (ptr + 2))
              (length - ntohs_at buffer (ptr + 2)) sonda
              (log ++ [Read ptr 2; Read (ptr + 2) 2])) as Hstep.
  { rewrite flowset_loop_step by exact Hlen. cbv zeta.
    replace (ntohs_at buffer (ptr + 2) >? length) with false by lia.
    replace (ntohs_at buffer ptr =? 0) with false by lia.
    replace (ntohs_at buffer ptr >? 255) with false by lia.
    reflexivity. }
  split; [exact Hstep|].
  intros Hlast. rewrite Hstep, Hlast.
  replace (length - length) with 0 by lia.
  destruct n; reflexivity.
Qed.

Lemma reserved_flowset_passed_over_witness :
  flowset_loop (buffer_of (v9_header 1 ++ [0; 1; 0; 8; 1; 2; 3; 4]) (λ _, 0))
    4 (S 3) 20 8 (probe ∅) []
  = flowset_loop (buffer_of (v9_header 1 ++ [0; 1; 0; 8; 1; 2; 3; 4]) (λ _, 0))
      4 3
      (20 + ntohs_at (buffer_of (v9_header 1 ++ [0; 1; 0; 8; 1; 2; 3; 4]) (λ _, 0))
              (20 + 2))
      (8 - ntohs_at (buffer_of (v9_header 1 ++ [0; 1; 0; 8; 1; 2; 3; 4]) (λ _, 0))
             (20 + 2))
      (probe ∅) ([] ++ [Read 20 2; Read (20 + 2) 2])
  ∧ (ntohs_at (buffer_of (v9_header 1 ++ [0; 1; 0; 8; 1; 2; 3; 4]) (λ _, 0))
       (20 + 2) = 8 →
     flowset_loop (buffer_of (v9_header 1 ++ [0; 1; 0; 8; 1; 2; 3; 4]) (λ _, 0))
       4 (S 3) 20 8 (probe ∅) []
     = Done (probe ∅, [] ++ [Read 20 2; Read (20 + 2) 2])).
Proof.
  apply (reserved_flowset_passed_over
           (buffer_of (v9_header 1 ++ [0; 1; 0; 8; 1; 2; 3; 4]) (λ _, 0))
           4 3 20 8 (probe ∅) []).
  - split; [lia | reflexivity].
  - vm_compute. split; discriminate.
  - vm_compute. split; discriminate.
Defined.

(** ** What a decode leaves of the runtime *)

Lemma flowset_loop_runtime buffer fuel n ptr length sonda log sonda' log' :
  flowset_loop buffer fuel n ptr length sonda log = Done (sonda', log') →
  config sonda' = config sonda ∧ dbHandler sonda' = dbHandler sonda.
Proof.
  revert ptr length sonda log.
  induction n as [|n IH]; intros ptr length sonda log H;
    cbn [flowset_loop] in H.
  - destruct (length >? 0); [discriminate|]. injection H as <- <-. auto.
  - destruct (length >? 0); [|injection H as <- <-; auto].
    destruct (length <? 4); [injection H as <- <-; auto|].
    destruct (_ >? _); [injection H as <- <-; auto|].
    destruct (_ =? 0).
    + destruct (template_loop _ _ _ _ _ _) as [[tmpl log1]|]; [|discriminate].
      apply IH in H. exact H.
    + destruct (_ >? 255); [|apply IH in H; exact H].
      destruct (templates sonda !! _) as [fields|]; [|apply IH in H; exact H].
      destruct (record_loop _ _ _ _ _ _ _ _) as [log1|]; [|discriminate].
      apply IH in H. exact H.
Qed.

Lemma no_template_flowset buffer fs :
  Forall (λ F, flowset_id F ≠ 0) fs →
  flat_map (λ F, if flowset_id F =? 0 then template_records buffer F else []) fs
  = [].
Proof.
  induction 1 as [|F fs HF _ IH]; cbn [flat_map]; [reflexivity|].
  replace (flowset_id F =? 0) with false by lia. exact IH.
Qed.

(** X4.  Only template FlowSets change the runtime: when none of the
    FlowSets of a datagram has id 0, the runtime after the decode is the
    runtime before it, whatever data FlowSets were decoded. *)
Theorem runtime_changed_by_template_flowsets_only
    (buffer : Z → Z) (fuel : nat) (length : Z)
    (sonda sonda' : SondaRuntime) (log : list event) :
  0 ≤ length ≤ 65536 →
  Forall (λ F, flowset_id F ≠ 0) (flowsets buffer length) →
  processNetFlowV9Data buffer fuel length sonda = Done (sonda', log) →
  sonda' = sonda.
Proof.
  intros Hlen Hnone H. unfold processNetFlowV9Data in H.
  unfold sizeof_NetFlowV9Header in H.
  rewrite (to_s64_small (length - 20)) in H by range_lia.
  pose proof (flowset_loop_runtime _ _ _ _ _ _ _ _ _ H) as [Hc Hd].
  apply flowset_loop_templates with (m := Z.to_nat (length - 20)) in H;
    [|range_lia..].
  change (flowsets_from buffer (Z.to_nat (length - 20)) (ptr_add 0 20)
            (length - 20)) with (flowsets buffer length) in H.
  rewrite no_template_flowset in H by exact Hnone.
  destruct sonda, sonda'. cbn in *. congruence.
Qed.

Lemma runtime_changed_by_template_flowsets_only_witness :
  ∃ sonda' log,
    processNetFlowV9Data (buffer_of data_before_template (λ _, 0)) 16 28
      (probe {[300 := [{| field_type := 2; field_length := 4 |}]]})
    = Done (sonda', log)
    ∧ sonda' = probe {[300 := [{| field_type := 2; field_length := 4 |}]]}.
Proof.
  eexists _, _. split; [vm_compute; reflexivity|].
  eapply (runtime_changed_by_template_flowsets_only
            (buffer_of data_before_template (λ _, 0)) 16 28).
  - lia.
  - replace (flowsets (buffer_of data_before_template (λ _, 0)) 28)
      with [{| flowset_id := 256; flowset_length := 8; flowset_at := 20 |}]
      by (vm_compute; reflexivity).
    repeat constructor. cbn. lia.
  - vm_compute. reflexivity.
Defined.

Lemma install_all_twice
    (tmpl : gmap Z (list NetFlowV9FieldSpecifier)) rs :
  install_all (install_all tmpl rs) rs = install_all tmpl rs.
Proof.
  apply map_eq. intros id. rewrite !install_all_lookup.
  destruct (last_definition id rs); reflexivity.
Qed.

(** Two buffers that hold the same [L] bytes give the same readings of
    what lies within those bytes. *)
Lemma ntohs_at_agree (b1 b2 : Z → Z) L p :
  (∀ q, 0 ≤ q < L → byte_at b2 q = byte_at b1 q) →
  0 ≤ p → p + 2 ≤ L → ntohs_at b2 p = ntohs_at b1 p.
Proof. intros H Hp HL. unfold ntohs_at. rewrite !H by lia. reflexivity. Qed.

Lemma fields_at_agree (b1 b2 : Z → Z) L n p :
  (∀ q, 0 ≤ q < L → byte_at b2 q = byte_at b1 q) →
  0 ≤ p → p + 4 * Z.of_nat n ≤ L → fields_at b2 n p = fields_at b1 n p.
Proof.
  intros H. revert p. induction n as [|n IH]; intros p Hp HL;
    cbn [fields_at]; [reflexivity|].
  rewrite (ntohs_at_agree b1 b2 L p), (ntohs_at_agree b1 b2 L (p + 2)) by (auto; lia).
  rewrite IH by lia. reflexivity.
Qed.

Lemma template_records_from_agree (b1 b2 : Z → Z) L n p e :
  (∀ q, 0 ≤ q < L → byte_at b2 q = byte_at b1 q) →
  0 ≤ p → e ≤ L → records_fit b1 n p e →
  template_records_from b2 n p e = template_records_from b1 n p e.
Proof.
  intros H. revert p. induction n as [|n IH]; intros p Hp He Hfit;
    cbn [template_records_from records_fit] in *; [reflexivity|].
  destruct (p <? e) eqn:E; [|reflexivity].
  destruct Hfit as [Hend Hrest].
  pose proof (ntohs_at_range b1 (p + 2)) as Hc.
  rewrite (ntohs_at_agree b1 b2 L p), (ntohs_at_agree b1 b2 L (p + 2)) by (auto; lia).
  rewrite (fields_at_agree b1 b2 L) by (auto; lia).
  rewrite IH by (auto; lia). reflexivity.
Qed.

Lemma template_records_agree (b1 b2 : Z → Z) L n ptr length :
  (∀ q, 0 ≤ q < L → byte_at b2 q = byte_at b1 q) →
  0 ≤ ptr → ptr + length ≤ L →
  Forall (λ F, flowset_id F = 0 → template_flowset_fits b1 F)
    (flowsets_from b1 n ptr length) →
  flat_map (λ F, if flowset_id F =? 0 then template_records b2 F else [])
    (flowsets_from b2 n ptr length)
  = flat_map (λ F, if flowset_id F =? 0 then template_records b1 F else [])
      (flowsets_from b1 n ptr length).
Proof.
  intros H. revert ptr length.
  induction n as [|n IH]; intros ptr length Hp HL Hfit;
    cbn [flowsets_from] in *; [reflexivity|].
  destruct (length <? 4) eqn:E; [reflexivity|].
  rewrite (ntohs_at_agree b1 b2 L ptr), (ntohs_at_agree b1 b2 L (ptr + 2))
    by (auto; lia).
  pose proof (ntohs_at_range b1 (ptr + 2)) as Hc.
  destruct (ntohs_at b1 (ptr + 2) >? length) eqn:Efit; [reflexivity|].
  apply Forall_cons in Hfit as [Hhead Hfit].
  cbn [flat_map flowset_id]. rewrite IH by (auto; lia). f_equal.
  destruct (ntohs_at b1 ptr =? 0) eqn:Eid; [|reflexivity].
  unfold template_records. cbn [flowset_at flowset_length].
  apply (template_records_from_agree b1 b2 L); [exact H|lia|lia|].
  apply Hhead. cbn [flowset_id]. lia.
Qed.

(** X5.  Receiving the same datagram a second time leaves the template
    table as the first decode left it, whatever the memory behind the
    received bytes holds at either time, when the bodies of the datagram's
    template FlowSets are filled by whole template records. *)
Theorem replayed_datagram_keeps_table
    (buffer buffer' : Z → Z) (fuel1 fuel2 : nat) (length : Z)
    (sonda sonda1 sonda2 : SondaRuntime) (log1 log2 : list event) :
  0 ≤ length ≤ 65536 →
  (∀ p, 0 ≤ p < length → byte_at buffer' p = byte_at buffer p) →
  Forall (λ F, flowset_id F = 0 → template_flowset_fits buffer F)
    (flowsets buffer length) →
  processNetFlowV9Data buffer fuel1 length sonda = Done (sonda1, log1) →
  processNetFlowV9Data buffer' fuel2 length sonda1 = Done (sonda2, log2) →
  templates sonda2 = templates sonda1.
Proof.
  intros Hlen Hsame Hfit H1 H2. unfold processNetFlowV9Data in H1, H2.
  unfold sizeof_NetFlowV9Header in H1, H2.
  rewrite (to_s64_small (length - 20)) in H1, H2 by range_lia.
  apply flowset_loop_templates with (m := Z.to_nat (length - 20)) in H1;
    [|range_lia..].
  apply flowset_loop_templates with (m := Z.to_nat (length - 20)) in H2;
    [|range_lia..].
  change (ptr_add 0 20) with 20 in H1, H2.
  rewrite (template_records_agree buffer buffer' length) in H2;
    [|exact Hsame|lia|lia|exact Hfit].
  rewrite H2, H1. apply install_all_twice.
Qed.

Lemma replayed_datagram_keeps_table_witness :
  ∃ sonda1 sonda2 log1 log2,
    processNetFlowV9Data (buffer_of template_then_data (λ _, 0)) 16 84 (probe ∅)
    = Done (sonda1, log1)
    ∧ processNetFlowV9Data (buffer_of template_then_data (λ _, 255)) 16 84 sonda1
      = Done (sonda2, log2)
    ∧ templates sonda2 = templates sonda1.
Proof.
  eexists _, _, _, _.
  split; [vm_compute; reflexivity|].
  split; [vm_compute; reflexivity|].
  eapply (replayed_datagram_keeps_table
            (buffer_of template_then_data (λ _, 0))
            (buffer_of template_then_data (λ _, 255)) 16 16 84 (probe ∅)).
  - lia.
  - intros p Hp. unfold byte_at, buffer_of.
    change (Z.of_nat (List.length template_then_data)) with 84.
    replace (0 <=? p) with true by lia. replace (p <? 84) with true by lia.
    reflexivity.
  - replace (flowsets (buffer_of template_then_data (λ _, 0)) 84)
      with [{| flowset_id := 0; flowset_length := 36; flowset_at := 20 |};
            {| flowset_id := 256; flowset_length := 28; flowset_at := 56 |}]
      by (vm_compute; reflexivity).
    constructor; [|constructor; [|constructor]].
    + intros _. vm_compute. repeat split; discriminate.
    + cbn. discriminate.
  - vm_compute. reflexivity.
  - vm_compute. reflexivity.
Defined.

(** The template records that the decoder takes from a FlowSet body filled
    by whole records are those that the specification delimits. *)
Lemma template_records_defined buffer n p e :
  records_fit buffer n p e →
  template_records_from buffer n p e = defined_templates_from buffer n p e.
Proof.
  revert p. induction n as [|n IH]; intros p Hfit;
    cbn [template_records_from defined_templates_from records_fit] in *;
    [reflexivity|].
  pose proof (ntohs_at_range buffer (p + 2)) as Hc.
  destruct (p <? e) eqn:E.
  - destruct Hfit as [Hend Hrest].
    replace (p + 4 <=? e) with true by lia. rewrite IH by exact Hrest.
    reflexivity.
  - replace (p + 4 <=? e) with false by lia. reflexivity.
Qed.

(** X22.  When the bodies of a datagram's template FlowSets are filled by
    whole template records and its decoding returns, the template table
    binds every template id that the datagram defines to the field list of
    the last definition of that id in the datagram, and holds for every
    other id what it held before. *)
Theorem whole_template_records_latest_definition
    (buffer : Z → Z) (fuel : nat) (length : Z)
    (sonda sonda' : SondaRuntime) (log : list event) (id : Z) :
  0 ≤ length ≤ 65536 →
  Forall (λ F, flowset_id F = 0 → template_flowset_fits buffer F)
    (flowsets buffer length) →
  processNetFlowV9Data buffer fuel length sonda = Done (sonda', log) →
  templates sonda' !! id
  = match last_definition id (defined_templates buffer length) with
    | Some fields => Some fields
    | None => templates sonda !! id
    end.
Proof.
  intros Hlen Hfit H. unfold processNetFlowV9Data in H.
  unfold sizeof_NetFlowV9Header in H.
  rewrite (to_s64_small (length - 20)) in H by range_lia.
  apply flowset_loop_templates with (m := Z.to_nat (length - 20)) in H;
    [|range_lia..].
  change (flowsets_from buffer (Z.to_nat (length - 20)) (ptr_add 0 20)
            (length - 20)) with (flowsets buffer length) in H.
  rewrite H, install_all_lookup. unfold defined_templates.
  assert (flat_map
            (λ F, if flowset_id F =? 0 then template_records buffer F else [])
            (flowsets buffer length)
          = flat_map
              (λ F, if flowset_id F =? 0 then
                      defined_templates_from buffer
                        (Z.to_nat (flowset_length F - 4))
                        (flowset_at F + 4) (flowset_at F + flowset_length F)
                    else [])
              (flowsets buffer length)) as ->; [|reflexivity].
  clear H. induction Hfit as [|F fs HF _ IH]; [reflexivity|].
  cbn [flat_map]. rewrite IH. f_equal.
  destruct (flowset_id F =? 0) eqn:Eid; [|reflexivity].
  apply template_records_defined. apply HF. lia.
Qed.

Lemma whole_template_records_latest_definition_witness :
  ∃ sonda' log,
    processNetFlowV9Data (buffer_of redefinition_datagram (λ _, 0)) 16 52
      (probe {[300 := [{| field_type := 2; field_length := 4 |}]]})
      = Done (sonda', log)
    ∧ templates sonda' !! 300
      = Some [{| field_type := 8; field_length := 4 |};
              {| field_type := 12; field_length := 4 |};
              {| field_type := 1; field_length := 4 |}].
Proof.
  eexists _, _. split; [vm_compute; reflexivity|].
  etransitivity.
  - eapply (whole_template_records_latest_definition
              (buffer_of redefinition_datagram (λ _, 0)) 16 52
              (probe {[300 := [{| field_type := 2; field_length := 4 |}]]})).
    + lia.
    + replace (flowsets (buffer_of redefinition_datagram (λ _, 0)) 52)
        with [{| flowset_id := 0; flowset_length := 32; flowset_at := 20 |}]
        by (vm_compute; reflexivity).
      constructor; [|constructor].
      intros _. vm_compute. repeat split; discriminate.
    + vm_compute. reflexivity.
  - vm_compute. reflexivity.
Defined.

(** ** The records handed to the sink *)











(** ** The field materializer in closed form *)

Lemma offset_of_last_found t fields offset x :
  offset_of_last t fields offset (Some x)
  = Some (default x (offset_of_last t fields offset None)).
Proof.
  revert offset x. induction fields as [|field fields IH]; intros offset x;
    cbn [offset_of_last]; [reflexivity|].
  destruct (field_type field =? t); [|apply IH].
  rewrite !IH. destruct (offset_of_last t fields _ None); reflexivity.
Qed.

Lemma width_nonneg fields :
  Forall (λ field, 0 ≤ field_length field) fields → 0 ≤ width fields.
Proof.
  induction 1 as [|field fields Hlen _ IH]; cbn [width foldr]; [lia|].
  fold (width fields). lia.
Qed.

Section Attribute.

Variable buffer : Z → Z.
Variable recordPtr : Z.
Context {A : Type}.
Variable attribute : FlowData → A.
Variable t : Z.
Variable read : Z → A.

Hypothesis decode_field_attribute :
  ∀ field offset d log,
    attribute (decode_field buffer field recordPtr offset d log).1.1
    = if field_type field =? t then read (ptr_add recordPtr offset)
      else attribute d.

(** An attribute fed by the fields of type [t] holds what the last of them
    reads, at the offset that the lengths of the fields before it add up
    to. *)
Lemma decode_fields_attribute fields offset d log :
  Forall (λ field, 0 ≤ field_length field) fields →
  0 ≤ offset → offset + width fields < 2 ^ 63 →
  attribute (decode_fields buffer fields recordPtr offset d log).1
  = match offset_of_last t fields offset None with
    | Some x => read (recordPtr + x)
    | None => attribute d
    end.
Proof.
  intros Hf. revert offset d log.
  induction Hf as [|field fields Hlen Hrest IH]; intros offset d log Hoff Hsum;
    cbn [decode_fields offset_of_last]; [reflexivity|].
  cbn [width foldr] in Hsum. fold (width fields) in Hsum.
  pose proof (width_nonneg fields Hrest).
  assert ((decode_field buffer field recordPtr offset d log).1.2
          = offset + field_length field) as Hnext.
  { unfold decode_field.
    repeat (destruct (_ =? _);
            [cbv beta iota; cbn [fst snd]; apply to_u64_small; range_lia|]).
    cbv beta iota. cbn [fst snd]. apply to_u64_small. range_lia. }
  pose proof (decode_field_attribute field offset d log) as Hstep.
  destruct (decode_field buffer field recordPtr offset d log) as [[d1 o1] l1].
  cbn [fst snd] in Hstep, Hnext. subst o1.
  rewrite IH by lia.
  destruct (field_type field =? t).
  - rewrite offset_of_last_found.
    destruct (offset_of_last t fields _ None); cbn [default from_option id];
      [reflexivity|].
    rewrite Hstep, ptr_add_small by range_lia. reflexivity.
  - destruct (offset_of_last t fields _ None); [reflexivity | exact Hstep].
Qed.

End Attribute.

Ltac field_cases :=
  intros; unfold decode_field;
  repeat match goal with
         | |- context [?x =? ?k] => destruct (Z.eqb_spec x k)
         end;
  cbn; first [reflexivity | lia].

(** X8.  Each attribute of a decoded record comes from the last field of
    its type in the template (8 and 12 the addresses, 7 and 11 the ports, 4
    the protocol, 2 and 1 the counters), read at the offset that the
    declared lengths of the fields before it add up to; fields of other
    types only move the offset.  An attribute without a field keeps what the
    declaration gave it: the empty string, or no value at all. *)
Theorem attributes_from_last_field_of_type
    (buffer : Z → Z) (sonda : SondaRuntime)
    (fields : list NetFlowV9FieldSpecifier) (p : Z) :
  Forall (λ field, 0 ≤ field_length field) fields →
  width fields < 2 ^ 63 →
  SourceIP (record_at buffer sonda fields p)
  = from_option (λ o, inet_ntoa_at buffer (p + o)) "" (offset_of_last 8 fields 0 None)
  ∧ DestinationIP (record_at buffer sonda fields p)
    = from_option (λ o, inet_ntoa_at buffer (p + o)) ""
        (offset_of_last 12 fields 0 None)
  ∧ SourcePort (record_at buffer sonda fields p)
    = (λ o, ntohs_at buffer (p + o)) <$> offset_of_last 7 fields 0 None
  ∧ DestinationPort (record_at buffer sonda fields p)
    = (λ o, ntohs_at buffer (p + o)) <$> offset_of_last 11 fields 0 None
  ∧ Protocol (record_at buffer sonda fields p)
    = (λ o, byte_at buffer (p + o)) <$> offset_of_last 4 fields 0 None
  ∧ PacketCount (record_at buffer sonda fields p)
    = (λ o, ntohl_at buffer (p + o)) <$> offset_of_last 2 fields 0 None
  ∧ ByteCount (record_at buffer sonda fields p)
    = (λ o, ntohl_at buffer (p + o)) <$> offset_of_last 1 fields 0 None.
Proof.
  intros Hf Hw. unfold record_at.
  repeat split.
  - change (SourceIP (set_SourceSond ?n ?d)) with (SourceIP d).
    rewrite (decode_fields_attribute buffer p SourceIP 8 (inet_ntoa_at buffer))
      by (field_cases || assumption || lia).
    destruct (offset_of_last 8 fields 0 None); reflexivity.
  - change (DestinationIP (set_SourceSond ?n ?d)) with (DestinationIP d).
    rewrite (decode_fields_attribute buffer p DestinationIP 12 (inet_ntoa_at buffer))
      by (field_cases || assumption || lia).
    destruct (offset_of_last 12 fields 0 None); reflexivity.
  - change (SourcePort (set_SourceSond ?n ?d)) with (SourcePort d).
    rewrite (decode_fields_attribute buffer p SourcePort 7
               (λ q, Some (ntohs_at buffer q)))
      by (field_cases || assumption || lia).
    destruct (offset_of_last 7 fields 0 None); reflexivity.
  - change (DestinationPort (set_SourceSond ?n ?d)) with (DestinationPort d).
    rewrite (decode_fields_attribute buffer p DestinationPort 11
               (λ q, Some (ntohs_at buffer q)))
      by (field_cases || assumption || lia).
    destruct (offset_of_last 11 fields 0 None); reflexivity.
  - change (Protocol (set_SourceSond ?n ?d)) with (Protocol d).
    rewrite (decode_fields_attribute buffer p Protocol 4
               (λ q, Some (byte_at buffer q)))
      by (field_cases || assumption || lia).
    destruct (offset_of_last 4 fields 0 None); reflexivity.
  - change (PacketCount (set_SourceSond ?n ?d)) with (PacketCount d).
    rewrite (decode_fields_attribute buffer p PacketCount 2
               (λ q, Some (ntohl_at buffer q)))
      by (field_cases || assumption || lia).
    destruct (offset_of_last 2 fields 0 None); reflexivity.
  - change (ByteCount (set_SourceSond ?n ?d)) with (ByteCount d).
    rewrite (decode_fields_attribute buffer p ByteCount 1
               (λ q, Some (ntohl_at buffer q)))
      by (field_cases || assumption || lia).
    destruct (offset_of_last 1 fields 0 None); reflexivity.
Qed.

Lemma attributes_from_last_field_of_type_witness :
  SourceIP (record_at (buffer_of mixed_record (λ _, 0)) (probe ∅) mixed_template 0)
    = from_option (λ o, inet_ntoa_at (buffer_of mixed_record (λ _, 0)) (0 + o)) "" (offset_of_last 8 mixed_template 0 None)
  ∧ DestinationIP (record_at (buffer_of mixed_record (λ _, 0)) (probe ∅) mixed_template 0)
    = from_option (λ o, inet_ntoa_at (buffer_of mixed_record (λ _, 0)) (0 + o)) "" (offset_of_last 12 mixed_template 0 None)
  ∧ SourcePort (record_at (buffer_of mixed_record (λ _, 0)) (probe ∅) mixed_template 0)
    = (λ o, ntohs_at (buffer_of mixed_record (λ _, 0)) (0 + o)) <$> offset_of_last 7 mixed_template 0 None
  ∧ DestinationPort (record_at (buffer_of mixed_record (λ _, 0)) (probe ∅) mixed_template 0)
    = (λ o, ntohs_at (buffer_of mixed_record (λ _, 0)) (0 + o)) <$> offset_of_last 11 mixed_template 0 None
  ∧ Protocol (record_at (buffer_of mixed_record (λ _, 0)) (probe ∅) mixed_template 0)
    = (λ o, byte_at (buffer_of mixed_record (λ _, 0)) (0 + o)) <$> offset_of_last 4 mixed_template 0 None
  ∧ PacketCount (record_at (buffer_of mixed_record (λ _, 0)) (probe ∅) mixed_template 0)
    = (λ o, ntohl_at (buffer_of mixed_record (λ _, 0)) (0 + o)) <$> offset_of_last 2 mixed_template 0 None
  ∧ ByteCount (record_at (buffer_of mixed_record (λ _, 0)) (probe ∅) mixed_template 0)
    = (λ o, ntohl_at (buffer_of mixed_record (λ _, 0)) (0 + o)) <$> offset_of_last 1 mixed_template 0 None.
Proof.
  apply (attributes_from_last_field_of_type (buffer_of mixed_record (λ _, 0)) (probe ∅) mixed_template 0).
  - repeat constructor; cbn; lia.
  - reflexivity.
Defined.

(** ** When the decoder returns *)

Lemma record_loop_exit buffer fuel sonda fields recordPtr W endPtr log :
  0 ≤ W < 2 ^ 63 → endPtr < recordPtr + W →
  record_loop buffer fuel sonda fields recordPtr W endPtr log = Done log.
Proof.
  intros HW Hlt. destruct fuel; cbn [record_loop];
    rewrite ptr_add_small by lia;
    replace (recordPtr + W <=? endPtr) with false by lia; reflexivity.
Qed.

(** If every FlowSet has a length field of 1 or more, and every data
    FlowSet with a body finds no template or one of positive width, the
    walk returns. *)
Lemma flowset_loop_returns buffer n fuel m ptr length sonda log :
  length ≤ 65536 →
  65535 ≤ Z.of_nat fuel →
  (Z.to_nat length ≤ n)%nat →
  (Z.to_nat length ≤ m)%nat →
  wf_templates (templates sonda) →
  Forall (λ F, 1 ≤ flowset_length F) (flowsets_from buffer m ptr length) →
  Forall (λ Ft, 4 ≤ flowset_length Ft.1 →
                ∀ fields, Ft.2 = Some fields → 0 < width fields)
    (data_flowsets buffer (templates sonda) (flowsets_from buffer m ptr length)) →
  ∃ r, flowset_loop buffer fuel n ptr length sonda log = Done r.
Proof.
  intros Hmax Hfuel. revert m ptr length sonda log Hmax.
  induction n as [|n IH]; intros m ptr length sonda log Hmax Hn Hm Hwf Hfs Hdata.
  - cbn [flowset_loop]. replace (length >? 0) with false by lia. eauto.
  - destruct (Z.lt_ge_cases length 4) as [Hshort|Hlong].
    { cbn [flowset_loop]. destruct (length >? 0); [|eauto].
      replace (length <? 4) with true by lia. eauto. }
    pose proof (ntohs_at_range buffer (ptr + 2)) as Hfl.
    rewrite flowset_loop_step by range_lia. cbv zeta.
    destruct m as [|m]; [lia|].
    cbn [flowsets_from] in *.
    replace (length <? 4) with false in * by lia.
    destruct (ntohs_at buffer (ptr + 2) >? length) eqn:Efit; [eauto|].
    apply Forall_cons in Hfs as [Hone Hfs]. cbn [flowset_length] in Hone.
    cbn [data_flowsets flowset_id] in *.
    destruct (ntohs_at buffer ptr =? 0) eqn:Eid.
    + destruct (template_loop_total buffer fuel (ptr + 4)
                  (ptr + ntohs_at buffer (ptr + 2)) (templates sonda)
                  (log ++ [Read ptr 2; Read (ptr + 2) 2]))
        as [[tmpl log2] Ht]; [lia|].
      rewrite Ht.
      apply template_loop_records
        with (n := Z.to_nat (ntohs_at buffer (ptr + 2) - 4)) in Ht; [|lia].
      destruct Ht as [Htmpl _].
      apply (IH m); [lia|lia|lia| |exact Hfs|].
      * cbn [templates with_templates]. rewrite Htmpl.
        apply install_all_wf; [exact Hwf | apply template_records_from_wf].
      * cbn [templates with_templates]. rewrite Htmpl. exact Hdata.
    + destruct (ntohs_at buffer ptr >? 255) eqn:Edata;
        [|apply (IH m); auto; lia].
      apply Forall_cons in Hdata as [Hhead Hdata]. cbn [fst snd flowset_length] in Hhead.
      destruct (templates sonda !! ntohs_at buffer ptr) as [fields|] eqn:Hsome;
        [|apply (IH m); auto; lia].
      destruct (recordLength_of_width fields (Hwf _ _ Hsome)) as [-> Hw].
      assert (2 ^ 32 = 4294967296) as H32 by reflexivity.
      destruct (Z.lt_ge_cases (ntohs_at buffer (ptr + 2)) 4) as [Hbody|Hbody].
      * rewrite record_loop_exit by range_lia. apply (IH m); auto; lia.
      * specialize (Hhead Hbody fields eq_refl).
        destruct (record_loop_count buffer fuel sonda fields (ptr + 4)
                    (width fields) (ptr + ntohs_at buffer (ptr + 2))
                    (log ++ [Read ptr 2; Read (ptr + 2) 2]))
          as (log2 & Hrec & _); [range_lia|lia| |].
        { replace (ptr + ntohs_at buffer (ptr + 2) - (ptr + 4))
            with (ntohs_at buffer (ptr + 2) - 4) by lia.
          assert ((ntohs_at buffer (ptr + 2) - 4) / width fields
                  ≤ ntohs_at buffer (ptr + 2) - 4)
            by (apply Z.div_le_upper_bound; nia).
          lia. }
        rewrite Hrec. apply (IH m); auto; lia.
Qed.

(** Conversely, a walk that returns has met no FlowSet of length 0 and no
    data FlowSet with a body and a template of width 0. *)
Lemma flowset_loop_done_walk buffer fuel n ptr length sonda log r m :
  length < 2 ^ 63 →
  flowset_loop buffer fuel n ptr length sonda log = Done r →
  (Z.to_nat length ≤ m)%nat →
  wf_templates (templates sonda) →
  Forall (λ F, 1 ≤ flowset_length F) (flowsets_from buffer m ptr length)
  ∧ Forall (λ Ft, 4 ≤ flowset_length Ft.1 →
                  ∀ fields, Ft.2 = Some fields → 0 < width fields)
      (data_flowsets buffer (templates sonda)
         (flowsets_from buffer m ptr length)).
Proof.
  intros Hmax. revert ptr length sonda log m Hmax.
  induction n as [|n IH]; intros ptr length sonda log m Hmax H Hm Hwf.
  - cbn [flowset_loop] in H. destruct (length >? 0) eqn:E; [discriminate|].
    rewrite flowsets_from_short by lia. split; constructor.
  - destruct (Z.lt_ge_cases length 4) as [Hshort|Hlong].
    { rewrite flowsets_from_short by lia. split; constructor. }
    pose proof (ntohs_at_range buffer (ptr + 2)) as Hfl.
    destruct (Z.eq_dec (ntohs_at buffer (ptr + 2)) 0) as [Hz|Hnz].
    { rewrite flowset_loop_zero_length in H by (lia || exact Hz). discriminate. }
    rewrite flowset_loop_step in H by lia. cbv zeta in H.
    destruct m as [|m]; [lia|].
    cbn [flowsets_from].
    replace (length <? 4) with false by lia.
    destruct (ntohs_at buffer (ptr + 2) >? length) eqn:Efit;
      [split; constructor|].
    cbn [data_flowsets flowset_id].
    destruct (ntohs_at buffer ptr =? 0) eqn:Eid.
    + destruct (template_loop _ _ _ _ _ _) as [[tmpl log2]|] eqn:Ht; [|discriminate].
      apply template_loop_records
        with (n := Z.to_nat (ntohs_at buffer (ptr + 2) - 4)) in Ht; [|lia].
      destruct Ht as [Htmpl _].
      apply IH with (m := m) in H; [|lia|lia|].
      * cbn [templates with_templates] in H. rewrite Htmpl in H.
        destruct H as [H1 H2]. split; [constructor; [cbn; lia | exact H1] | exact H2].
      * cbn [templates with_templates]. rewrite Htmpl.
        apply install_all_wf; [exact Hwf | apply template_records_from_wf].
    + destruct (ntohs_at buffer ptr >? 255) eqn:Edata.
      * destruct (templates sonda !! ntohs_at buffer ptr) as [fields|] eqn:Hsome.
        -- destruct (record_loop _ _ _ _ _ _ _ _) as [log2|] eqn:Hr; [|discriminate].
           apply IH with (m := m) in H; [|lia|lia|exact Hwf].
           destruct H as [H1 H2].
           split; [constructor; [cbn; lia | exact H1]|].
           constructor; [|exact H2].
           cbn [fst snd flowset_length]. intros Hbody fields' [= <-].
           destruct (recordLength_of_width fields (Hwf _ _ Hsome)) as [HW Hw].
           rewrite HW in Hr.
           destruct (Z.eq_dec (width fields) 0) as [Hzero|]; [|lia].
           rewrite Hzero, record_loop_zero_width in Hr by lia. discriminate.
        -- apply IH with (m := m) in H; [|lia|lia|exact Hwf].
           destruct H as [H1 H2].
           split; [constructor; [cbn; lia | exact H1]|].
           constructor; [|exact H2].
           cbn [fst snd]. intros _ fields' [=].
      * apply IH with (m := m) in H; [|lia|lia|exact Hwf].
        destruct H as [H1 H2]. split; [constructor; [cbn; lia | exact H1] | exact H2].
Qed.

(** X10.  The decoder returns on a received datagram exactly when none of
    its FlowSets has the length field 0 and none of its data FlowSets with a
    body (length 4 or more) finds a template of width 0 in the table; in
    that case 65536 turns per loop are enough. *)
Theorem decoder_returns_iff
    (buffer : Z → Z) (length : Z) (sonda : SondaRuntime) :
  0 ≤ length ≤ 65536 →
  wf_templates (templates sonda) →
  ((∃ fuel r, processNetFlowV9Data buffer fuel length sonda = Done r)
   ↔ Forall (λ F, 1 ≤ flowset_length F) (flowsets buffer length)
     ∧ Forall (λ Ft, 4 ≤ flowset_length Ft.1 →
                     ∀ fields, Ft.2 = Some fields → 0 < width fields)
         (data_flowsets buffer (templates sonda) (flowsets buffer length)))
  ∧ ((∃ fuel r, processNetFlowV9Data buffer fuel length sonda = Done r) →
     ∃ r, processNetFlowV9Data buffer (Z.to_nat 65536) length sonda = Done r).
Proof.
  intros Hlen Hwf.
  unfold processNetFlowV9Data, sizeof_NetFlowV9Header.
  rewrite (to_s64_small (length - 20)) by range_lia.
  change (ptr_add 0 20) with 20.
  assert (∀ fuel r,
            flowset_loop buffer fuel fuel 20 (length - 20) sonda [Read 2 2] = Done r →
            Forall (λ F, 1 ≤ flowset_length F) (flowsets buffer length)
            ∧ Forall (λ Ft, 4 ≤ flowset_length Ft.1 →
                            ∀ fields, Ft.2 = Some fields → 0 < width fields)
                (data_flowsets buffer (templates sonda) (flowsets buffer length)))
    as Hwalk.
  { intros fuel r H.
    apply (flowset_loop_done_walk buffer fuel fuel 20 (length - 20) sonda
             [Read 2 2] r (Z.to_nat (length - 20)));
      [range_lia|exact H|lia|exact Hwf]. }
  assert (Forall (λ F, 1 ≤ flowset_length F) (flowsets buffer length)
          ∧ Forall (λ Ft, 4 ≤ flowset_length Ft.1 →
                          ∀ fields, Ft.2 = Some fields → 0 < width fields)
              (data_flowsets buffer (templates sonda) (flowsets buffer length)) →
          ∃ r, flowset_loop buffer (Z.to_nat 65536) (Z.to_nat 65536) 20
                 (length - 20) sonda [Read 2 2] = Done r) as Hret.
  { intros [H1 H2].
    apply (flowset_loop_returns buffer _ _ (Z.to_nat (length - 20)));
      [lia|lia|lia|lia|exact Hwf|exact H1|exact H2]. }
  split; [split|].
  - intros (fuel & r & H). eapply Hwalk, H.
  - intros H. destruct (Hret H) as [r Hr]. eauto.
  - intros (fuel & r & H). eapply Hret, Hwalk, H.
Qed.

Lemma decoder_returns_iff_witness :
  ((∃ fuel r, processNetFlowV9Data (buffer_of template_then_data (λ _, 0)) fuel 84
                (probe ∅) = Done r)
   ↔ Forall (λ F, 1 ≤ flowset_length F)
       (flowsets (buffer_of template_then_data (λ _, 0)) 84)
     ∧ Forall (λ Ft, 4 ≤ flowset_length Ft.1 →
                     ∀ fields, Ft.2 = Some fields → 0 < width fields)
         (data_flowsets (buffer_of template_then_data (λ _, 0))
            (templates (probe ∅))
            (flowsets (buffer_of template_then_data (λ _, 0)) 84)))
  ∧ ((∃ fuel r, processNetFlowV9Data (buffer_of template_then_data (λ _, 0)) fuel 84
                  (probe ∅) = Done r) →
     ∃ r, processNetFlowV9Data (buffer_of template_then_data (λ _, 0))
            (Z.to_nat 65536) 84 (probe ∅) = Done r).
Proof.
  apply (decoder_returns_iff (buffer_of template_then_data (λ _, 0)) 84 (probe ∅)).
  - lia.
  - intros id fields H. cbn in H. rewrite lookup_empty in H. discriminate.
Defined.

(** ** Reads within the datagram *)

Lemma field_reads_bounds L n q :
  0 ≤ q → q + 4 * Z.of_nat n ≤ L → Forall (in_bounds L) (field_reads n q).
Proof.
  revert q. induction n as [|n IH]; intros q Hq Hend; cbn [field_reads].
  - constructor.
  - constructor; [cbn; lia|]. constructor; [cbn; lia|]. apply IH; lia.
Qed.

Lemma template_loop_bounds buffer L fuel p e tmpl log tmpl' log' n :
  0 ≤ p → e ≤ L →
  (Z.to_nat (e - p) ≤ n)%nat →
  records_fit buffer n p e →
  Forall (in_bounds L) log →
  template_loop buffer fuel p e tmpl log = Done (tmpl', log') →
  Forall (in_bounds L) log'.
Proof.
  intros Hp He. revert p tmpl log n Hp.
  induction fuel as [|fuel IH]; intros p tmpl log n Hp Hn Hfit Hlog H.
  - cbn [template_loop] in H. destruct (p <? e); [discriminate|].
    injection H as <- <-. exact Hlog.
  - destruct (Z.lt_ge_cases p e) as [Hlt|Hge].
    + rewrite template_loop_step in H by exact Hlt.
      destruct n as [|n]; [lia|]. cbn [records_fit] in Hfit.
      replace (p <? e) with true in Hfit by lia. destruct Hfit as [Hend Hfit].
      pose proof (ntohs_at_range buffer (p + 2)).
      eapply (IH _ _ _ n) in H; [exact H|lia|lia|exact Hfit|].
      apply Forall_app. split; [exact Hlog|].
      constructor; [cbn; lia|]. constructor; [cbn; lia|].
      apply field_reads_bounds; [lia|]. rewrite Z2Nat.id by lia. lia.
    + rewrite template_loop_exit in H by exact Hge.
      injection H as <- <-. exact Hlog.
Qed.

Lemma decode_field_offset buffer field recordPtr offset d log :
  0 ≤ offset → 0 ≤ field_length field →
  offset + field_length field < 2 ^ 63 →
  (decode_field buffer field recordPtr offset d log).1.2
  = offset + field_length field.
Proof.
  intros Hoff Hlen Hsum. unfold decode_field.
  repeat (destruct (_ =? _);
          [cbv beta iota; cbn [fst snd]; apply to_u64_small; range_lia|]).
  cbv beta iota. cbn [fst snd]. apply to_u64_small. range_lia.
Qed.

Lemma decode_field_bounds buffer L field recordPtr offset d log :
  0 ≤ recordPtr → 0 ≤ offset < 2 ^ 63 →
  recordPtr + offset + read_width (field_type field) ≤ L →
  Forall (in_bounds L) log →
  Forall (in_bounds L) (decode_field buffer field recordPtr offset d log).2.
Proof.
  intros Hp Hoff Hend Hlog. revert Hend.
  unfold decode_field, read_width. rewrite ptr_add_small by lia.
  repeat (destruct (_ =? _);
          [intros Hend; cbv beta iota; cbn [fst snd]; apply Forall_app;
           split; [exact Hlog | constructor; [cbn; lia | constructor]]|]).
  intros _. exact Hlog.
Qed.

Lemma read_width_nonneg t : 0 ≤ read_width t.
Proof. unfold read_width. repeat (destruct (_ =? _); [lia|]). lia. Qed.

Lemma covers_reads_nonneg fields :
  covers_reads fields → Forall (λ field, 0 ≤ field_length field) fields.
Proof.
  unfold covers_reads. intros H. eapply Forall_impl; [exact H|].
  intros field Hf. cbn beta in Hf.
  pose proof (read_width_nonneg (field_type field)). lia.
Qed.

Lemma decode_fields_bounds buffer L fields recordPtr offset d log :
  covers_reads fields →
  0 ≤ recordPtr → 0 ≤ offset →
  recordPtr + offset + width fields ≤ L → L < 2 ^ 63 →
  Forall (in_bounds L) log →
  Forall (in_bounds L) (decode_fields buffer fields recordPtr offset d log).2.
Proof.
  intros Hc Hp. revert offset d log.
  induction Hc as [|field fields Hfield Hrest IH]; intros offset d log Hoff Hend HL Hlog;
    cbn [decode_fields]; [exact Hlog|].
  cbn [width foldr] in Hend. fold (width fields) in Hend.
  pose proof (width_nonneg fields (covers_reads_nonneg fields Hrest)).
  pose proof (read_width_nonneg (field_type field)).
  pose proof (decode_field_offset buffer field recordPtr offset d log) as Hnext.
  pose proof (decode_field_bounds buffer L field recordPtr offset d log) as Hb.
  destruct (decode_field buffer field recordPtr offset d log) as [[d1 o1] l1].
  cbn [fst snd] in Hnext, Hb.
  rewrite Hnext by lia.
  apply IH; [lia|lia|exact HL|]. apply Hb; [lia|lia|lia|exact Hlog].
Qed.

Lemma record_loop_bounds buffer L fuel sonda fields recordPtr endPtr log log' :
  covers_reads fields →
  0 ≤ width fields < 2 ^ 63 →
  0 ≤ recordPtr → endPtr ≤ L → L < 2 ^ 63 →
  Forall (in_bounds L) log →
  record_loop buffer fuel sonda fields recordPtr (width fields) endPtr log
    = Done log' →
  Forall (in_bounds L) log'.
Proof.
  intros Hc HW. revert recordPtr log.
  induction fuel as [|fuel IH]; intros recordPtr log Hp He HL Hlog H;
    cbn [record_loop] in H; rewrite ptr_add_small in H by lia;
    destruct (recordPtr + width fields <=? endPtr) eqn:E;
    try discriminate; try (injection H as <-; exact Hlog).
  pose proof (decode_fields_bounds buffer L fields recordPtr 0 FlowData_declared log)
    as Hb.
  destruct (decode_fields _ _ _ _ _ _) as [d log1]. cbn [snd] in Hb.
  eapply IH in H; [exact H|lia|lia|exact HL|].
  assert (Forall (in_bounds L) log1) as Hlog1
    by (apply Hb; [exact Hc|lia|lia|lia|exact HL|exact Hlog]).
  destruct (insertFlowData _ _ _);
    repeat (apply Forall_app; split); auto; repeat constructor.
Qed.

Lemma flowset_loop_bounds buffer L n fuel m ptr length sonda log sonda' log' :
  0 ≤ ptr → ptr + length = L → L < 2 ^ 63 →
  (Z.to_nat length ≤ m)%nat →
  wf_templates (templates sonda) →
  Forall (λ F, 4 ≤ flowset_length F
               ∧ (flowset_id F = 0 → template_flowset_fits buffer F))
    (flowsets_from buffer m ptr length) →
  Forall (λ Ft, ∀ fields, Ft.2 = Some fields → covers_reads fields)
    (data_flowsets buffer (templates sonda) (flowsets_from buffer m ptr length)) →
  Forall (in_bounds L) log →
  flowset_loop buffer fuel n ptr length sonda log = Done (sonda', log') →
  Forall (in_bounds L) log'.
Proof.
  intros Hptr HL Hmax. revert m ptr length sonda log Hptr HL.
  induction n as [|n IH];
    intros m ptr length sonda log Hptr HL Hm Hwf Hfs Hdata Hlog H.
  - cbn [flowset_loop] in H. destruct (length >? 0); [discriminate|].
    injection H as <- <-. exact Hlog.
  - destruct (Z.lt_ge_cases length 4) as [Hshort|Hlong].
    { cbn [flowset_loop] in H. destruct (length >? 0).
      - replace (length <? 4) with true in H by lia. injection H as <- <-.
        apply Forall_app. split; [exact Hlog | repeat constructor].
      - injection H as <- <-. exact Hlog. }
    pose proof (ntohs_at_range buffer (ptr + 2)) as Hfl.
    rewrite flowset_loop_step in H by lia. cbv zeta in H.
    assert (Forall (in_bounds L) (log ++ [Read ptr 2; Read (ptr + 2) 2])) as Hlog1.
    { apply Forall_app. split; [exact Hlog|].
      constructor; [cbn; lia|]. constructor; [cbn; lia | constructor]. }
    destruct m as [|m]; [lia|].
    cbn [flowsets_from] in Hfs, Hdata.
    replace (length <? 4) with false in * by lia.
    destruct (ntohs_at buffer (ptr + 2) >? length) eqn:Efit.
    { injection H as <- <-.
      apply Forall_app. split; [exact Hlog1 | repeat constructor]. }
    apply Forall_cons in Hfs as [[Hfour Hfits] Hfs].
    cbn [flowset_length flowset_id] in Hfour, Hfits.
    cbn [data_flowsets flowset_id] in Hdata.
    destruct (ntohs_at buffer ptr =? 0) eqn:Eid.
    + destruct (template_loop _ _ _ _ _ _) as [[tmpl log2]|] eqn:Ht; [|discriminate].
      pose proof Ht as Ht'.
      apply template_loop_records
        with (n := Z.to_nat (ntohs_at buffer (ptr + 2) - 4)) in Ht'; [|lia].
      destruct Ht' as [Htmpl _].
      eapply (template_loop_bounds buffer L) in Ht;
        [|lia|lia| |apply Hfits; lia|exact Hlog1].
      2: { cbn [flowset_at flowset_length]. lia. }
      eapply (IH m) in H; [exact H|lia|lia|lia| |exact Hfs| |exact Ht].
      * cbn [templates with_templates]. rewrite Htmpl.
        apply install_all_wf; [exact Hwf | apply template_records_from_wf].
      * cbn [templates with_templates]. rewrite Htmpl. exact Hdata.
    + destruct (ntohs_at buffer ptr >? 255) eqn:Edata.
      * apply Forall_cons in Hdata as [Hhead Hdata]. cbn [snd] in Hhead.
        destruct (templates sonda !! ntohs_at buffer ptr) as [fields|] eqn:Hsome.
        -- destruct (recordLength_of_width fields (Hwf _ _ Hsome)) as [HW Hw].
           rewrite HW in H.
           assert (2 ^ 32 = 4294967296) as H32 by reflexivity.
           destruct (record_loop _ _ _ _ _ _ _ _) as [log2|] eqn:Hr; [|discriminate].
           eapply (record_loop_bounds buffer L) in Hr;
             [|apply Hhead; reflexivity|range_lia|lia|lia|exact Hmax|exact Hlog1].
           eapply (IH m) in H; [exact H|lia|lia|lia|exact Hwf|exact Hfs|exact Hdata|exact Hr].
        -- eapply (IH m) in H; [exact H|lia|lia|lia|exact Hwf|exact Hfs|exact Hdata|].
           apply Forall_app. split; [exact Hlog1 | repeat constructor].
      * eapply (IH m) in H; [exact H|lia|lia|lia|exact Hwf|exact Hfs|exact Hdata|exact Hlog1].
Qed.

(** X9.  On a well-formed datagram no read leaves the received bytes.
    Well-formed: at least the four bytes up to the record count are there,
    every FlowSet length is 4 or more, the body of every template FlowSet is
    filled by whole template records, and every data FlowSet finds no
    template or one of positive width whose fields are declared at least as
    long as the decoder reads them (4 bytes for types 8, 12, 1 and 2, 2
    bytes for 7 and 11, 1 byte for 4).  Then the decoder returns and every
    dereference in its log lies within the first [length] bytes. *)
Theorem well_formed_datagram_read_in_bounds
    (buffer : Z → Z) (fuel : nat) (length : Z) (sonda : SondaRuntime) :
  4 ≤ length ≤ 65536 →
  65536 ≤ Z.of_nat fuel →
  wf_templates (templates sonda) →
  Forall (λ F, 4 ≤ flowset_length F
               ∧ (flowset_id F = 0 → template_flowset_fits buffer F))
    (flowsets buffer length) →
  Forall (λ Ft, ∀ fields, Ft.2 = Some fields →
                0 < width fields ∧ covers_reads fields)
    (data_flowsets buffer (templates sonda) (flowsets buffer length)) →
  ∃ sonda' log,
    processNetFlowV9Data buffer fuel length sonda = Done (sonda', log)
    ∧ Forall (in_bounds length) log.
Proof.
  intros Hlen Hfuel Hwf Hfs Hdata.
  unfold processNetFlowV9Data, sizeof_NetFlowV9Header.
  rewrite (to_s64_small (length - 20)) by range_lia.
  change (ptr_add 0 20) with 20.
  destruct (flowset_loop_returns buffer fuel fuel (Z.to_nat (length - 20)) 20
              (length - 20) sonda [Read 2 2]) as [[sonda' log] Hrun];
    [lia|lia|lia|lia|exact Hwf| | |].
  { eapply Forall_impl; [exact Hfs|]. intros F [H4 _]. lia. }
  { eapply Forall_impl; [exact Hdata|].
    intros Ft H _ fields Hsome. apply (H fields Hsome). }
  exists sonda', log. split; [exact Hrun|].
  eapply (flowset_loop_bounds buffer length) in Hrun;
    [exact Hrun|lia|lia|range_lia|reflexivity|exact Hwf|exact Hfs| |].
  - eapply Forall_impl; [exact Hdata|].
    intros Ft H fields Hsome. apply (H fields Hsome).
  - constructor; [cbn; lia | constructor].
Qed.

Lemma well_formed_datagram_read_in_bounds_witness :
  ∃ sonda' log,
    processNetFlowV9Data (buffer_of template_then_data (λ _, 0))
      (Z.to_nat 65536) 84 (probe ∅) = Done (sonda', log)
    ∧ Forall (in_bounds 84) log.
Proof.
  apply (well_formed_datagram_read_in_bounds
           (buffer_of template_then_data (λ _, 0)) (Z.to_nat 65536) 84 (probe ∅)).
  - lia.
  - lia.
  - intros id fields H. cbn in H. rewrite lookup_empty in H. discriminate.
  - replace (flowsets (buffer_of template_then_data (λ _, 0)) 84)
      with [{| flowset_id := 0; flowset_length := 36; flowset_at := 20 |};
            {| flowset_id := 256; flowset_length := 28; flowset_at := 56 |}]
      by (vm_compute; reflexivity).
    constructor; [|constructor; [|constructor]].
    + split; [cbn; lia|]. intros _. vm_compute. split; [discriminate | exact I].
    + split; [cbn; lia|]. cbn. discriminate.
  - eassert (data_flowsets (buffer_of template_then_data (λ _, 0))
               (templates (probe ∅))
               (flowsets (buffer_of template_then_data (λ _, 0)) 84)
             = [(_, Some _)]) as -> by (vm_compute; reflexivity).
    constructor; [|constructor].
    intros fields [= <-]. split; [reflexivity|].
    repeat constructor; vm_compute; discriminate.
Defined.

(** * Further properties of the INI parser *)

Section INIText.

Import INIParser INIText.

Lemma trim_left s : erase 0 (find_first_not_of whitespace s) s = lstrip s.
Proof.
  induction s as [|c s IH]; [reflexivity|].
  cbn [find_first_not_of lstrip].
  destruct (mem c whitespace); [|reflexivity].
  rewrite <- IH. destruct (find_first_not_of whitespace s); reflexivity.
Qed.

Lemma trim_right s :
  erase (succ_pos (find_last_not_of whitespace s)) None s = rstrip s.
Proof.
  induction s as [|c s IH]; [reflexivity|].
  cbn [find_last_not_of rstrip]. rewrite <- IH.
  destruct (find_last_not_of whitespace s) as [i|] eqn:E.
  - destruct s as [|d s]; [discriminate E|]. reflexivity.
  - destruct (mem c whitespace); destruct s; reflexivity.
Qed.

Lemma trim_strips s : trim s = rstrip (lstrip s).
Proof. unfold trim. rewrite trim_left. apply trim_right. Qed.

Lemma lstrip_app a c b :
  mem c whitespace = false →
  lstrip (a +:+ String c b) = lstrip a +:+ String c b.
Proof.
  intros Hc. induction a as [|d a IH].
  - change (EmptyString +:+ String c b) with (String c b).
    cbn [lstrip]. rewrite Hc. reflexivity.
  - change (String d a +:+ String c b) with (String d (a +:+ String c b)).
    cbn [lstrip]. destruct (mem d whitespace); [exact IH | reflexivity].
Qed.

Lemma rstrip_cons c b :
  mem c whitespace = false → rstrip (String c b) = String c (rstrip b).
Proof.
  intros Hc. cbn [rstrip]. rewrite Hc. destruct (rstrip b); reflexivity.
Qed.

Lemma rstrip_app a c b :
  mem c whitespace = false →
  rstrip (a +:+ String c b) = a +:+ String c (rstrip b).
Proof.
  intros Hc. induction a as [|d a IH].
  - apply rstrip_cons. exact Hc.
  - change (String d a +:+ String c b) with (String d (a +:+ String c b)).
    cbn [rstrip]. rewrite IH.
    destruct a; reflexivity.
Qed.

Lemma lstrip_idemp s : lstrip (lstrip s) = lstrip s.
Proof.
  induction s as [|c s IH]; [reflexivity|].
  cbn [lstrip]. destruct (mem c whitespace) eqn:E; [exact IH|].
  cbn [lstrip]. rewrite E. reflexivity.
Qed.

Lemma lstrip_rstrip s : lstrip (rstrip s) = rstrip (lstrip s).
Proof.
  induction s as [|c s IH]; [reflexivity|].
  destruct (mem c whitespace) eqn:E.
  - cbn [lstrip]. rewrite E, <- IH. cbn [rstrip]. rewrite E.
    destruct (rstrip s) eqn:Er; [reflexivity|].
    cbn [lstrip]. rewrite E. reflexivity.
  - rewrite rstrip_cons by exact E. cbn [lstrip]. rewrite E.
    rewrite rstrip_cons by exact E. reflexivity.
Qed.

Lemma rstrip_idemp s : rstrip (rstrip s) = rstrip s.
Proof.
  induction s as [|c s IH]; [reflexivity|].
  cbn [rstrip]. destruct (rstrip s) as [|d r] eqn:Er.
  - destruct (mem c whitespace) eqn:E; [reflexivity|].
    cbn [rstrip]. rewrite E. reflexivity.
  - cbn [rstrip] in IH |- *. rewrite IH. reflexivity.
Qed.

Lemma trim_lstrip s : trim (lstrip s) = trim s.
Proof. rewrite !trim_strips, lstrip_idemp. reflexivity. Qed.

Lemma trim_rstrip s : trim (rstrip s) = trim s.
Proof. rewrite !trim_strips, lstrip_rstrip, rstrip_idemp. reflexivity. Qed.

Lemma take_chars_app a b : take_chars (String.length a) (a +:+ b) = a.
Proof.
  induction a as [|c a IH]; [destruct b; reflexivity|].
  change (String c a +:+ b) with (String c (a +:+ b)).
  cbn [String.length take_chars]. rewrite IH. reflexivity.
Qed.

Lemma drop_chars_app a b : drop_chars (String.length a) (a +:+ b) = b.
Proof.
  induction a as [|c a IH]; [destruct b; reflexivity|].
  change (String c a +:+ b) with (String c (a +:+ b)).
  cbn [String.length drop_chars]. exact IH.
Qed.

Lemma find_app c a b :
  c ∉ chars a → find c (a +:+ String c b) = Some (String.length a).
Proof.
  unfold find. induction a as [|d a IH]; intros Hno.
  - change (EmptyString +:+ String c b) with (String c b).
    cbn. rewrite Ascii.eqb_refl. reflexivity.
  - change (String d a +:+ String c b) with (String d (a +:+ String c b)).
    cbn [find_first_of mem].
    destruct (Ascii.eqb d c) eqn:E.
    + apply Ascii.eqb_eq in E as ->. exfalso. apply Hno. left.
    + rewrite IH; [reflexivity|]. intros Hin. apply Hno. right. exact Hin.
Qed.

Lemma chars_lstrip s c : c ∈ chars (lstrip s) → c ∈ chars s.
Proof. rewrite <- trim_left. apply chars_erase. Qed.

End INIText.

Section INILines.

Import INIParser INIText.

Lemma chars_app_l a b c : c ∈ chars a → c ∈ chars (a +:+ b).
Proof.
  induction a as [|d a IH]; intros H; [inversion H|].
  change (String d a +:+ b) with (String d (a +:+ b)).
  cbn in *. inversion H; subst; [left | right; apply IH; assumption].
Qed.

Lemma chars_app_r a b c : c ∈ chars b → c ∈ chars (a +:+ b).
Proof.
  intros H. induction a as [|d a IH]; [destruct b; exact H|].
  change (String d a +:+ b) with (String d (a +:+ b)). cbn. right. exact IH.
Qed.

Lemma key_value_comment_free k v :
  comment_free k → comment_free v →
  ∀ c, c ∈ chars (k +:+ String "=" v) → mem c ";#" = false.
Proof.
  intros Hk Hv c Hc. apply chars_app in Hc as [Hc|Hc].
  - apply (comment_free_mem k); assumption.
  - change (chars (String "=" v)) with ("="%char :: chars v) in Hc.
    apply elem_of_cons in Hc as [->|Hc]; [reflexivity|].
    apply (comment_free_mem v); assumption.
Qed.

Lemma app_not_empty a c b : String.eqb (a +:+ String c b) "" = false.
Proof. destruct a; reflexivity. Qed.

Lemma drop_chars_past a c b :
  drop_chars (String.length a + 1) (a +:+ String c b) = b.
Proof.
  induction a as [|d a IH]; [destruct b; reflexivity|].
  change (String d a +:+ String c b) with (String d (a +:+ String c b)).
  cbn [String.length Nat.add drop_chars]. exact IH.
Qed.

(** X11.  A line "key = value" is stored under the current section and
    read back by [get]: the key is what stands before the first '=' and the
    value what stands behind it, both without the separators (blank, tab,
    CR, LF) around them; whatever was stored for the key before is
    replaced.  The line must hold no ';' or '#' and must not, once trimmed,
    start with '[' and end with ']'. *)
Theorem key_value_line_round_trip
    (k v : string) (st : INIParser.state) (defaultValue : string) :
  "="%char ∉ INIParser.chars k →
  INIParser.comment_free k →
  INIParser.comment_free v →
  ¬ (INIParser.front (INIParser.trim (k +:+ String "=" v)) = Some "["%char
     ∧ INIParser.back (INIParser.trim (k +:+ String "=" v)) = Some "]"%char) →
  INIParser.currentSection (INIParser.parse_line (k +:+ String "=" v) st)
  = INIParser.currentSection st
  ∧ INIParser.get
      (INIParser.data (INIParser.parse_line (k +:+ String "=" v) st))
      (INIParser.currentSection st) (INIParser.trim k) defaultValue
    = INIParser.trim v.
Proof.
  intros Hk Hck Hcv Hsec. unfold parse_line.
  rewrite remove_comment_id by (apply key_value_comment_free; assumption).
  assert (trim (k +:+ String "=" v) = lstrip k +:+ String "=" (rstrip v)) as Htrim.
  { rewrite trim_strips, lstrip_app, rstrip_app by reflexivity. reflexivity. }
  rewrite Htrim in *.
  rewrite app_not_empty.
  rewrite bool_decide_eq_false_2 by exact Hsec.
  rewrite find_app by (intros Hin; apply Hk, chars_lstrip, Hin).
  cbn [substr drop_chars currentSection data].
  rewrite take_chars_app, drop_chars_past, trim_lstrip, trim_rstrip.
  split; [reflexivity|].
  unfold get. rewrite lookup_insert_eq. cbn. rewrite lookup_insert_eq. reflexivity.
Qed.

Lemma key_value_line_round_trip_witness :
  INIParser.currentSection
    (INIParser.parse_line (" port " +:+ String "=" " 2055 ")
       {| INIParser.currentSection := "Sonda1"; INIParser.data := ∅ |})
  = "Sonda1"
  ∧ INIParser.get
      (INIParser.data
         (INIParser.parse_line (" port " +:+ String "=" " 2055 ")
            {| INIParser.currentSection := "Sonda1"; INIParser.data := ∅ |}))
      "Sonda1" (INIParser.trim " port ") "0"
    = INIParser.trim " 2055 ".
Proof.
  apply (key_value_line_round_trip " port " " 2055 "
           {| INIParser.currentSection := "Sonda1"; INIParser.data := ∅ |} "0").
  - vm_compute. intros H. repeat (inversion H as [|? ? ? H']; clear H; rename H' into H).
  - intros c Hc. vm_compute in Hc.
    repeat (inversion Hc as [|? ? ? Hc']; subst; clear Hc;
            [split; discriminate|]; rename Hc' into Hc).
    inversion Hc.
  - intros c Hc. vm_compute in Hc.
    repeat (inversion Hc as [|? ? ? Hc']; subst; clear Hc;
            [split; discriminate|]; rename Hc' into Hc).
    inversion Hc.
  - vm_compute. intros [H _]. discriminate.
Defined.

(** X12.  A line changes nothing under a section other than the current
    one: for every other section, [get] answers after the line what it
    answered before. *)
Theorem line_keeps_other_sections
    (line : string) (st : INIParser.state) (section key defaultValue : string) :
  section ≠ INIParser.currentSection st →
  INIParser.get (INIParser.data (INIParser.parse_line line st))
    section key defaultValue
  = INIParser.get (INIParser.data st) section key defaultValue.
Proof.
  intros Hne. unfold parse_line.
  destruct (String.eqb _ ""); [reflexivity|].
  destruct (bool_decide _); [reflexivity|].
  destruct (find "=" _); [|reflexivity].
  cbn [data]. unfold get. rewrite lookup_insert_ne by done. reflexivity.
Qed.

Lemma line_keeps_other_sections_witness :
  INIParser.get
    (INIParser.data
       (INIParser.parse_line "port = 1"
          {| INIParser.currentSection := "Sonda2";
             INIParser.data := {["Sonda1" := {["port" := "2055"]}]} |}))
    "Sonda1" "port" "0"
  = INIParser.get
      (INIParser.data
         {| INIParser.currentSection := "Sonda2";
            INIParser.data := {["Sonda1" := {["port" := "2055"]}]} |})
      "Sonda1" "port" "0".
Proof.
  apply (line_keeps_other_sections "port = 1"
           {| INIParser.currentSection := "Sonda2";
              INIParser.data := {["Sonda1" := {["port" := "2055"]}]} |}
           "Sonda1" "port" "0").
  discriminate.
Defined.

Lemma length_app_one a c :
  String.length (a +:+ String c EmptyString) = S (String.length a).
Proof.
  induction a as [|d a IH]; [reflexivity|].
  change (String d a +:+ String c "") with (String d (a +:+ String c "")).
  cbn [String.length]. rewrite IH. reflexivity.
Qed.

Lemma back_app_one a c : back (a +:+ String c EmptyString) = Some c.
Proof.
  induction a as [|d a IH]; [reflexivity|].
  change (String d a +:+ String c "") with (String d (a +:+ String c "")).
  cbn [back]. rewrite IH. destruct a; reflexivity.
Qed.

(** X13.  A line "[name]" makes [name] the current section and stores
    nothing; [name] is taken as it stands between the brackets, separators
    and '=' included, so that a line such as "[a=b]" is a section header
    and not a setting. *)
Theorem bracketed_line_opens_section (name : string) (st : INIParser.state) :
  INIParser.comment_free name →
  INIParser.parse_line (String "[" (name +:+ String "]" EmptyString)) st
  = {| INIParser.currentSection := name; INIParser.data := INIParser.data st |}.
Proof.
  intros Hname. unfold parse_line.
  rewrite remove_comment_id.
  2: { intros c Hc. cbn in Hc. apply elem_of_cons in Hc as [->|Hc]; [reflexivity|].
       apply chars_app in Hc as [Hc|Hc]; [apply (comment_free_mem name); assumption|].
       cbn in Hc. apply elem_of_cons in Hc as [->|Hc]; [reflexivity|].
       inversion Hc. }
  assert (trim (String "[" (name +:+ String "]" "")) = String "[" (name +:+ String "]" ""))
    as ->.
  { rewrite trim_strips. cbn [lstrip]. cbn [mem whitespace Ascii.eqb Bool.eqb].
    change (String "[" (name +:+ String "]" "")) with (String "[" name +:+ String "]" "").
    rewrite rstrip_app by reflexivity. reflexivity. }
  cbn [String.eqb Ascii.eqb front].
  rewrite bool_decide_eq_true_2
    by (split; [reflexivity | apply (back_app_one (String "[" name))]).
  f_equal. cbn [substr String.length drop_chars].
  rewrite length_app_one. cbn [Nat.sub].
  rewrite Nat.sub_0_r. apply take_chars_app.
Qed.

Lemma bracketed_line_opens_section_witness :
  INIParser.parse_line (String "[" ("a=b" +:+ String "]" EmptyString))
    {| INIParser.currentSection := ""; INIParser.data := ∅ |}
  = {| INIParser.currentSection := "a=b";
       INIParser.data :=
         INIParser.data {| INIParser.currentSection := ""; INIParser.data := ∅ |} |}.
Proof.
  apply (bracketed_line_opens_section "a=b"
           {| INIParser.currentSection := ""; INIParser.data := ∅ |}).
  intros c Hc. vm_compute in Hc.
  repeat (apply elem_of_cons in Hc as [->|Hc]; [split; discriminate|]).
  inversion Hc.
Defined.

Lemma getlines_line line rest :
  "010"%char ∉ chars line →
  getlines (line +:+ String "010" rest) = line :: getlines rest.
Proof.
  induction line as [|c line IH]; intros Hno.
  - change (EmptyString +:+ String "010" rest) with (String "010" rest).
    reflexivity.
  - change (String c line +:+ String "010" rest)
      with (String c (line +:+ String "010" rest)).
    cbn [getlines]. destruct (Ascii.eqb c "010") eqn:E.
    + apply Ascii.eqb_eq in E as ->. exfalso. apply Hno. left.
    + rewrite IH; [reflexivity|]. intros Hin. apply Hno. right. exact Hin.
Qed.

Lemma getlines_chars content line c :
  line ∈ getlines content → c ∈ chars line →
  c ∈ chars content ∧ c ≠ "010"%char.
Proof.
  revert line. induction content as [|d content IH]; intros line Hline Hc.
  - inversion Hline.
  - cbn [getlines] in Hline. destruct (Ascii.eqb d "010") eqn:E.
    + apply elem_of_cons in Hline as [->|Hline]; [inversion Hc|].
      destruct (IH line Hline Hc). split; [right|]; assumption.
    + apply Ascii.eqb_neq in E.
      destruct (getlines content) as [|first lines] eqn:Hg.
      * apply elem_of_cons in Hline as [->|Hline]; [|inversion Hline].
        cbn in Hc. apply elem_of_cons in Hc as [->|Hc]; [|inversion Hc].
        split; [left | exact E].
      * apply elem_of_cons in Hline as [->|Hline].
        -- cbn in Hc. apply elem_of_cons in Hc as [->|Hc].
           ++ split; [left | exact E].
           ++ destruct (IH first ltac:(left) Hc). split; [right|]; assumption.
        -- destruct (IH line ltac:(right; exact Hline) Hc).
           split; [right|]; assumption.
Qed.

(** X14.  The reading loop splits the file at the newlines: no line it
    delivers holds a newline, and a file written as lines that hold none,
    each ended by a newline, is read back as exactly those lines. *)
Theorem getlines_round_trip (content : string) (lines : list string) :
  Forall (λ line, "010"%char ∉ INIParser.chars line) lines →
  INIParser.getlines (INIText.unlines lines) = lines
  ∧ Forall (λ line, "010"%char ∉ INIParser.chars line)
      (INIParser.getlines content).
Proof.
  intros Hlines. split.
  - induction Hlines as [|line lines Hline _ IH]; [reflexivity|].
    cbn [unlines foldr]. fold (unlines lines).
    rewrite getlines_line by exact Hline. rewrite IH. reflexivity.
  - apply Forall_forall. intros line Hline Hc.
    destruct (getlines_chars content line _ Hline Hc) as [_ Hne].
    apply Hne. reflexivity.
Qed.

Lemma getlines_round_trip_witness :
  INIParser.getlines (INIText.unlines ["[General]"; ""; "log = 1"])
  = ["[General]"; ""; "log = 1"]
  ∧ Forall (λ line, "010"%char ∉ INIParser.chars line)
      (INIParser.getlines sample_ini).
Proof.
  apply (getlines_round_trip sample_ini ["[General]"; ""; "log = 1"]).
  repeat constructor; vm_compute; intros H;
    repeat (apply elem_of_cons in H as [H|H]; [discriminate H|]);
    inversion H.
Defined.

Lemma parse_lines_no_equal lines st :
  Forall (λ line, "="%char ∉ chars line) lines →
  data (foldl (λ st line, parse_line line st) st lines) = data st.
Proof.
  intros H. revert st. induction H as [|line lines Hline _ IH]; intros st;
    cbn [foldl]; [reflexivity|].
  rewrite IH. apply parse_line_no_equal.
  intros Hin. apply Hline, remove_comment_chars, Hin.
Qed.

(** X15.  Settings need an '=': after parsing a file that holds none,
    [parse] reports success and [get] answers every question with the
    default it is given. *)
Theorem file_without_equal_sign_sets_nothing
    (content section key defaultValue : string) :
  "="%char ∉ INIParser.chars content →
  (INIParser.parse (Some content)).1 = true
  ∧ INIParser.get (INIParser.parse (Some content)).2 section key defaultValue
    = defaultValue.
Proof.
  intros Hno. cbn [parse fst snd]. split; [reflexivity|].
  rewrite parse_lines_no_equal.
  - unfold get. cbn [data]. rewrite lookup_empty. reflexivity.
  - apply Forall_forall. intros line Hline Hin.
    destruct (getlines_chars content line _ Hline Hin) as [Hc _].
    apply Hno, Hc.
Qed.

Lemma file_without_equal_sign_sets_nothing_witness :
  (INIParser.parse (Some "[Database]")).1 = true
  ∧ INIParser.get (INIParser.parse (Some "[Database]")).2
      "Database" "mysql_host" "localhost"
    = "localhost".
Proof.
  apply (file_without_equal_sign_sets_nothing "[Database]" "Database"
           "mysql_host" "localhost").
  vm_compute. intros H.
  repeat (apply elem_of_cons in H as [H|H]; [discriminate H|]).
  inversion H.
Defined.

End INILines.

(** * getInteger *)

Lemma digits_string_of_uint d rest :
  digits rest = Decimal.Nil →
  digits (NilEmpty.string_of_uint d +:+ rest) = d.
Proof.
  intros Hrest. induction d; cbn [NilEmpty.string_of_uint];
    [destruct rest; exact Hrest|..];
    match goal with
    | |- digits (String ?c ?s +:+ rest) = _ =>
        change (String c s +:+ rest) with (String c (s +:+ rest))
    end;
    cbn [digits digit]; rewrite IHd; reflexivity.
Qed.

Lemma to_uint_not_nil m : N.to_uint m ≠ Decimal.Nil.
Proof.
  rewrite <- (DecimalN.Unsigned.of_to m) at 1.
  rewrite DecimalN.Unsigned.to_of. unfold Decimal.unorm.
  destruct (Decimal.nzhead _); discriminate.
Qed.

Lemma of_uint_to_string n :
  0 ≤ n → Z.of_uint (N.to_uint (Z.to_N n)) = n.
Proof.
  intros Hn. change (Z.of_uint (N.to_uint (Z.to_N n)))
    with (Z.of_N (N.of_uint (N.to_uint (Z.to_N n)))).
  rewrite DecimalN.Unsigned.of_to. lia.
Qed.

(** [stoi] on a decimal numeral followed by something that is no digit. *)
Lemma stoi_to_string n rest :
  0 ≤ n → digits rest = Decimal.Nil →
  stoi (to_string n +:+ rest)
  = if n <? 2 ^ 31 then Some n else None.
Proof.
  intros Hn Hrest. unfold to_string, NilZero.string_of_uint.
  pose proof (to_uint_not_nil (Z.to_N n)) as Hnil.
  pose proof (of_uint_to_string n Hn) as Hval.
  pose proof (digits_string_of_uint (N.to_uint (Z.to_N n)) rest Hrest) as Hd.
  destruct (N.to_uint (Z.to_N n)) as [|d|d|d|d|d|d|d|d|d|d] eqn:E;
    [contradiction|..];
    cbn [NilEmpty.string_of_uint] in *;
    match goal with
    | |- stoi (String ?c ?s +:+ rest) = _ =>
        change (String c s +:+ rest) with (String c (s +:+ rest)) in *
    end;
    unfold stoi; cbn [skip_spaces isspace INIParser.mem Ascii.eqb Bool.eqb];
    cbv beta iota; rewrite Hd, Hval;
    replace (- 2 ^ 31 <=? n) with true by lia; reflexivity.
Qed.

Lemma to_string_not_empty n rest :
  String.eqb (to_string n +:+ rest) "" = false.
Proof.
  unfold to_string, NilZero.string_of_uint.
  pose proof (to_uint_not_nil (Z.to_N n)) as Hnil.
  destruct (N.to_uint (Z.to_N n)); [contradiction|..]; reflexivity.
Qed.

(** X16.  [getInteger] reads a setting that starts with the decimal
    numeral of a number from 0 to 2^31 - 1 as that number, whatever follows
    the digits ("2055abc" is 2055); when the numeral spells a number that is
    no [int], the answer is the default. *)
Theorem getInteger_reads_decimal
    (d : gmap string (gmap string string)) (section key rest : string)
    (n defaultValue : Z) :
  0 ≤ n →
  digits rest = Decimal.Nil →
  INIParser.get d section key "" = to_string n +:+ rest →
  getInteger d section key defaultValue
  = if n <? 2 ^ 31 then n else defaultValue.
Proof.
  intros Hn Hrest Hget. unfold getInteger. rewrite Hget.
  rewrite to_string_not_empty. cbn [negb].
  rewrite stoi_to_string by assumption.
  destruct (n <? 2 ^ 31); reflexivity.
Qed.

Lemma getInteger_reads_decimal_witness :
  getInteger {["Sonda1" := {["port" := "2055abc"]}]} "Sonda1" "port" 0
  = if 2055 <? 2 ^ 31 then 2055 else 0.
Proof.
  apply (getInteger_reads_decimal {["Sonda1" := {["port" := "2055abc"]}]}
           "Sonda1" "port" "abc" 2055 0).
  - lia.
  - reflexivity.
  - reflexivity.
Defined.

(** X17.  [getInteger] answers with the default when the key or its section
    is missing, when the value is empty, and when the value starts with a
    character that is neither a separator, a sign nor a digit. *)
Theorem getInteger_default
    (d : gmap string (gmap string string)) (section key : string)
    (defaultValue : Z) :
  (d !! section ≫= (.!! key) = None
   ∨ d !! section ≫= (.!! key) = Some EmptyString
   ∨ ∃ c rest, d !! section ≫= (.!! key) = Some (String c rest)
               ∧ isspace c = false ∧ c ≠ "-"%char ∧ c ≠ "+"%char
               ∧ digit c = None) →
  getInteger d section key defaultValue = defaultValue.
Proof.
  unfold getInteger, INIParser.get.
  intros [H|[H|(c & rest & H & Hsp & Hm & Hp & Hd)]];
    destruct (d !! section) as [sec|]; cbn in H;
    try discriminate; try reflexivity;
    rewrite H; cbn [default from_option id]; try reflexivity.
  change (negb (String.eqb (String c rest) "")) with true. cbv iota.
  unfold stoi. cbn [skip_spaces]. rewrite Hsp.
  destruct (Ascii.eqb_spec c "-") as [->|_]; [contradiction|].
  destruct (Ascii.eqb_spec c "+") as [->|_]; [contradiction|].
  assert (digits (String c rest) = Decimal.Nil) as Hnil
    by (cbn [digits]; rewrite Hd; reflexivity).
  destruct c as [[] [] [] [] [] [] [] []];
    try contradiction; try (rewrite Hnil; reflexivity); try discriminate.
Qed.

Lemma getInteger_default_witness :
  getInteger {["Sonda1" := {["port" := "x2055"]}]} "Sonda1" "port" 7 = 7.
Proof.
  apply (getInteger_default {["Sonda1" := {["port" := "x2055"]}]} "Sonda1" "port" 7).
  right. right. exists "x"%char, "2055".
  repeat split; try reflexivity; discriminate.
Defined.

(** * loadConfig *)

Lemma load_probes_spec d n i probes :
  let r := load_probes d i n probes in
  if r.1.1 then
    r.1.2 = probes ++ (probe_of_section d <$> seqZ i (Z.of_nat n))
    ∧ r.2 = []
    ∧ ∀ j, i ≤ j < i + Z.of_nat n →
           name (probe_of_section d j) ≠ EmptyString
           ∧ port (probe_of_section d j) ≠ 0
  else
    ∃ j, i ≤ j < i + Z.of_nat n
         ∧ (name (probe_of_section d j) = EmptyString
            ∨ port (probe_of_section d j) = 0)
         ∧ r.2 = ["Missing data in configuration for " +:+ "Sonda" +:+ to_string j].
Proof.
  revert i probes. induction n as [|n IH]; intros i probes; cbn zeta.
  - cbn. rewrite app_nil_r. repeat split; lia.
  - cbn [load_probes]. fold (probe_of_section d i).
    destruct (String.eqb (name (probe_of_section d i)) "") eqn:En.
    + cbn. exists i. apply String.eqb_eq in En. repeat split; auto; lia.
    + destruct (port (probe_of_section d i) =? 0) eqn:Ep.
      * cbn. exists i. apply Z.eqb_eq in Ep. repeat split; auto; lia.
      * cbn [orb]. specialize (IH (i + 1) (probes ++ [probe_of_section d i])).
        cbn zeta in IH.
        destruct (load_probes d (i + 1) n (probes ++ [probe_of_section d i]))
          as [[ok probes'] cerr]. cbn [fst snd] in *.
        apply String.eqb_neq in En. apply Z.eqb_neq in Ep.
        destruct ok.
        -- destruct IH as (-> & -> & Hall). split; [|split; [reflexivity|]].
           ++ rewrite <- app_assoc. f_equal.
              rewrite Nat2Z.inj_succ, (seqZ_cons i) by lia. cbn [fmap list_fmap].
              replace (Z.succ i) with (i + 1) by lia.
              replace (Z.pred (Z.succ (Z.of_nat n))) with (Z.of_nat n) by lia.
              reflexivity.
           ++ intros j Hj. destruct (Z.eq_dec j i) as [->|Hne]; [auto|].
              apply Hall. lia.
        -- destruct IH as (j & Hj & Hbad & Hcerr). exists j.
           split; [lia|]. split; assumption.
Qed.

(** X18.  [loadConfig] accepts a configuration file that can be opened
    exactly when each of the sections Sonda1 to Sonda<count> has a non-empty
    name and a port that [getInteger] reads as a number other than 0 (a
    negative one passes); it then appends those probes, in order, to
    [sondaConfigs] and prints nothing. *)
Theorem loadConfig_accepts_valid_probes (content : string) (g : configuration) :
  ((loadConfig (Some content) g).1.1 = true
   ↔ ∀ i, 1 ≤ i ≤ getInteger (INIParser.parse (Some content)).2 "SondeCount" "count" 0 →
          name (probe_of_section (INIParser.parse (Some content)).2 i) ≠ EmptyString
          ∧ port (probe_of_section (INIParser.parse (Some content)).2 i) ≠ 0)
  ∧ ((loadConfig (Some content) g).1.1 = true →
     sondaConfigs (loadConfig (Some content) g).1.2
     = sondaConfigs g
       ++ (probe_of_section (INIParser.parse (Some content)).2
             <$> seqZ 1 (getInteger (INIParser.parse (Some content)).2
                           "SondeCount" "count" 0))
     ∧ (loadConfig (Some content) g).2 = []).
Proof.
  unfold loadConfig.
  destruct (INIParser.parse (Some content)) as [parsed d] eqn:Hp.
  assert (parsed = true) as -> by (cbn in Hp; congruence).
  cbn [negb snd].
  set (count := getInteger d "SondeCount" "count" 0).
  pose proof (load_probes_spec d (Z.to_nat count) 1 (sondaConfigs g)) as Hs.
  cbn zeta in Hs.
  destruct (load_probes d 1 (Z.to_nat count) (sondaConfigs g))
    as [[ok probes] cerr]. cbn [fst snd sondaConfigs] in *.
  destruct ok.
  - destruct Hs as (Hprobes & Hcerr & Hall). split; [split|].
    + intros _ i Hi. apply Hall. lia.
    + reflexivity.
    + intros _. split; [|exact Hcerr].
      rewrite Hprobes. f_equal. f_equal.
      destruct (Z.le_gt_cases 0 count).
      * rewrite Z2Nat.id by lia. reflexivity.
      * rewrite !seqZ_nil by lia. reflexivity.
  - destruct Hs as (j & Hj & Hbad & _). split; [split|]; try discriminate.
    intros Hall. exfalso.
    destruct (Hall j ltac:(lia)) as [H1 H2]. destruct Hbad; contradiction.
Qed.

Lemma loadConfig_accepts_valid_probes_witness :
  (loadConfig (Some probes_ini)
     {| dbConfig := default_DatabaseConfig; sondaConfigs := [];
        enableLogging := false |}).1.1 = true
  ∧ sondaConfigs
      (loadConfig (Some probes_ini)
         {| dbConfig := default_DatabaseConfig; sondaConfigs := [];
            enableLogging := false |}).1.2
    = [ {| name := "edge"; version := EmptyString;
           filter_address := "192.0.2.10"; port := 2055 |};
        {| name := "core"; version := EmptyString;
           filter_address := EmptyString; port := -1 |} ]
  ∧ (loadConfig (Some probes_ini)
       {| dbConfig := default_DatabaseConfig; sondaConfigs := [];
          enableLogging := false |}).2 = [].
Proof.
  pose proof (loadConfig_accepts_valid_probes probes_ini
                {| dbConfig := default_DatabaseConfig; sondaConfigs := [];
                   enableLogging := false |}) as [Hiff Hres].
  assert ((loadConfig (Some probes_ini)
             {| dbConfig := default_DatabaseConfig; sondaConfigs := [];
                enableLogging := false |}).1.1 = true) as Hok.
  { apply Hiff. intros i Hi.
    assert (getInteger (INIParser.parse (Some probes_ini)).2 "SondeCount" "count" 0
            = 2) as Hcount by (vm_compute; reflexivity).
    rewrite Hcount in Hi.
    assert (i = 1 ∨ i = 2) as [-> | ->] by lia;
      split; vm_compute; discriminate. }
  split; [exact Hok|]. destruct (Hres Hok) as [Hprobes Hcerr].
  split; [|exact Hcerr]. rewrite Hprobes. vm_compute. reflexivity.
Defined.

Lemma parse_no_equal content :
  "="%char ∉ INIParser.chars content →
  INIParser.parse (Some content) = (true, ∅).
Proof.
  intros Hno. cbn [INIParser.parse]. f_equal.
  rewrite parse_lines_no_equal; [reflexivity|].
  apply Forall_forall. intros line Hline Hin.
  destruct (getlines_chars content line _ Hline Hin) as [Hc _].
  apply Hno, Hc.
Qed.

(** X19.  A configuration file without any '=' is accepted: [loadConfig]
    returns true, sets the database configuration to its defaults (host
    localhost, port 3306, everything else empty), turns logging off and adds
    no probe. *)
Theorem loadConfig_of_file_without_settings (content : string) (g : configuration) :
  "="%char ∉ INIParser.chars content →
  loadConfig (Some content) g
  = (true,
     {| dbConfig := default_DatabaseConfig;
        sondaConfigs := sondaConfigs g;
        enableLogging := false |},
     []).
Proof.
  intros Hno. unfold loadConfig. rewrite parse_no_equal by exact Hno.
  reflexivity.
Qed.

Lemma loadConfig_of_file_without_settings_witness :
  loadConfig (Some "[Database]")
    {| dbConfig := default_DatabaseConfig; sondaConfigs := [];
       enableLogging := true |}
  = (true,
     {| dbConfig := default_DatabaseConfig;
        sondaConfigs :=
          sondaConfigs {| dbConfig := default_DatabaseConfig; sondaConfigs := [];
                          enableLogging := true |};
        enableLogging := false |},
     []).
Proof.
  apply (loadConfig_of_file_without_settings "[Database]"
           {| dbConfig := default_DatabaseConfig; sondaConfigs := [];
              enableLogging := true |}).
  vm_compute. intros H.
  repeat (apply elem_of_cons in H as [H|H]; [discriminate H|]).
  inversion H.
Defined.

(** * receiveData *)

Lemma dump_reads_inserts count i : inserts (dump_reads count i) = [].
Proof.
  revert i. induction count as [|count IH]; intros i; cbn; [reflexivity | apply IH].
Qed.

(** X20.  A datagram reaches the decoder only when [recvfrom] succeeded,
    its source passes the filter of the probe (no filter, or the dotted
    quad of the source) and its first two bytes spell version 9: in every
    other case the turn returns with the runtime as it was and hands no
    record to the sink. *)
Theorem only_accepted_v9_datagrams_decoded
    (buffer : Z → Z) (fuel : nat) (n : Z) (source : Z * Z * Z * Z)
    (error : string) (displayPackets : bool) (diagFilePath : string)
    (is_open : bool) (sonda : SondaRuntime) :
  n < 0
  ∨ (filter_address (config sonda) ≠ EmptyString
     ∧ filter_address (config sonda) ≠ inet_ntop source)
  ∨ ntohs_at buffer 0 ≠ 9 →
  ∃ log,
    result (receiveData_turn buffer fuel n source error displayPackets
              diagFilePath is_open sonda)
    = Done (sonda, log)
    ∧ inserts log = [].
Proof.
  intros H. unfold receiveData_turn.
  destruct (n <? 0) eqn:En; [eexists; split; reflexivity|].
  destruct H as [H|H]; [lia|].
  assert (∃ log0 text,
            (if String.eqb diagFilePath EmptyString then ([], EmptyString)
             else if is_open then
               (dump_reads (Z.to_nat n) 0,
                "Probe: " +:+ name (config sonda) +:+ String "010" (
                "Data: " +:+ hex_dump buffer (Z.to_nat n) 0
                +:+ String "010" (String "010" EmptyString)))
             else
               ([Cerr ("Cannot open diagnostic file: " +:+ diagFilePath)],
                EmptyString))
            = (log0, text) ∧ inserts log0 = []) as (log0 & text & -> & Hlog0).
  { destruct (String.eqb diagFilePath EmptyString), is_open;
      eexists _, _; (split; [reflexivity|]); try reflexivity.
    apply dump_reads_inserts. }
  destruct (negb (negb (String.eqb (filter_address (config sonda)) "")
                  && negb (String.eqb (filter_address (config sonda))
                             (inet_ntop source)))) eqn:Eacc; cbn [negb].
  - destruct H as [[H1 H2]|H].
    { apply String.eqb_neq in H1, H2. rewrite H1, H2 in Eacc. discriminate. }
    replace (ntohs_at buffer 0 =? 9) with false by lia.
    destruct (ntohs_at buffer 0 =? 10); eexists; (split; [reflexivity|]);
      rewrite ?inserts_app, Hlog0; reflexivity.
  - eexists. split; [reflexivity | exact Hlog0].
Qed.

Lemma only_accepted_v9_datagrams_decoded_witness :
  ∃ log,
    result (receiveData_turn (buffer_of template_then_data (λ _, 0)) 16 84
              (192, 0, 2, 11) "" true "diag.txt" true
              {| config := {| name := "sonda1"; version := "9";
                              filter_address := "192.0.2.10"; port := 2055 |};
                 dbHandler := no_handler_failure; templates := ∅ |})
    = Done ({| config := {| name := "sonda1"; version := "9";
                            filter_address := "192.0.2.10"; port := 2055 |};
               dbHandler := no_handler_failure; templates := ∅ |}, log)
    ∧ inserts log = [].
Proof.
  apply (only_accepted_v9_datagrams_decoded
           (buffer_of template_then_data (λ _, 0)) 16 84 (192, 0, 2, 11) "" true "diag.txt" true
           {| config := {| name := "sonda1"; version := "9";
                           filter_address := "192.0.2.10"; port := 2055 |};
              dbHandler := no_handler_failure; templates := ∅ |}).
  right. left. split; vm_compute; discriminate.
Defined.

Lemma hex_value_digit x : 0 ≤ x < 16 → hex_value (hex_digit x) = Some x.
Proof.
  intros [H0 H1]. destruct x as [|p|p]; [reflexivity| |lia].
  do 4 (destruct p as [p|p|]; try reflexivity; try lia).
Qed.

(** X21.  The "Data: " line of the diagnostic file spells the received
    bytes: it is made of one group per byte, in order, of two lower-case
    hexadecimal digits and a blank, and reading the groups back gives the
    [count] bytes from offset [i] on. *)
Theorem hex_dump_round_trip (buffer : Z → Z) (count : nat) (i : Z) :
  unhex (hex_dump buffer count i)
  = Some ((λ k, byte_at buffer (i + Z.of_nat k)) <$> seq 0 count).
Proof.
  revert i. induction count as [|count IH]; intros i; [reflexivity|].
  cbn [hex_dump hex_byte unhex seq fmap list_fmap].
  pose proof (byte_at_range buffer i) as Hb.
  rewrite !hex_value_digit.
  - rewrite IH, <- seq_shift, <- list_fmap_compose.
    change (Ascii.eqb " " " ") with true. cbv iota.
    f_equal. f_equal.
    + replace (i + Z.of_nat 0) with i by lia.
      pose proof (Z.div_mod (byte_at buffer i) 16). lia.
    + apply list_fmap_ext. intros _ k _. cbn. f_equal. lia.
  - apply Z.mod_pos_bound. lia.
  - split; [apply Z.div_pos; lia | apply Z.div_lt_upper_bound; lia].
Qed.
